(** * Health & Workout Tracker: the data-handling layer of [app.py]

    A shallow embedding of the table operations of [app.py] and the
    properties of its specification that they decide.

    Conventions of the embedding.
    - A pandas float cell is an [option Q]: [None] is NaN, [Some q] a finite
      value.  Rationals stand for the binary floats, so rounding error of the
      float arithmetic itself is outside the model.
    - A calendar date is the number of days since 1970-01-01, as pandas
      stores it; NaT is [None].
    - A Python exception is a [Raise] in the [result] monad.
    - [sort_values] is a stable insertion sort; rows with a NaT key come
      last in both directions, as with pandas' [na_position='last'].  pandas
      promises no order among rows of equal key; the model takes the stable
      one, and what is proved with it does not depend on that order.  The
      progress of an exercise does depend on it, and is stated for any sort
      (see [sorts_by_date]).
    - [pd.read_csv] and [to_csv] are modelled on the files the writer
      produces for a table of the store: unique labels, lines as long as the
      header, plain decimal numbers.  What the reader does with other files
      (a repeated label, a longer first line, exponents, truth values) is
      not modelled; what is proved about arbitrary files takes the reader as
      a parameter (see [load_csv_with]).
    - The pages work on the rows of a frame as records; the store works on
      frames of cells; [nutrition_records] reads the ones off the others. *)

From Stdlib Require Import ZArith QArith Qround Qabs Lqa List String Ascii
  Lia.
From Stdlib Require Import Permutation Sorted DecimalString DecimalZ DecimalPos.
From stdpp Require Import base option list gmap strings.

Local Open Scope string_scope.
Local Open Scope Z_scope.
Local Open Scope list_scope.

(** ** Exceptions *)

Inductive exn :=
| KeyError (col : string)
| IndexError
| AttributeError (msg : string)
| TypeError
| ParserError
| EmptyDataError.

Inductive result (A : Type) :=
| Ok (a : A)
| Raise (e : exn).
Arguments Ok {A} a.
Arguments Raise {A} e.

#[global] Instance result_ret : MRet result := fun A a => Ok a.
#[global] Instance result_bind : MBind result := fun A B f m =>
  match m with
  | Ok a => f a
  | Raise e => Raise e
  end.

(** ** Calendar arithmetic on day numbers

    pandas keeps a timestamp as an offset from 1970-01-01 and converts to
    year, month and day in the proleptic Gregorian calendar.  The era, year
    of era and day of year below are that conversion. *)

Definition year_start (yoe : Z) : Z := 365 * yoe + yoe / 4 - yoe / 100.
Definition yoe_of (doe : Z) : Z :=
  (doe - doe / 1460 + doe / 36524 - doe / 146096) / 365.
Definition mp_of (doy : Z) : Z := (5 * doy + 2) / 153.
Definition month_offset (mp : Z) : Z := (153 * mp + 2) / 5.

Definition days_from_civil (y m d : Z) : Z :=
  let y' := if m <=? 2 then y - 1 else y in
  let era := y' / 400 in
  let yoe := y' mod 400 in
  let mp := if 2 <? m then m - 3 else m + 9 in
  era * 146097 + (year_start yoe + (month_offset mp + (d - 1))) - 719468.

Definition civil_from_days (z : Z) : Z * Z * Z :=
  let era := (z + 719468) / 146097 in
  let doe := (z + 719468) mod 146097 in
  let yoe := yoe_of doe in
  let doy := doe - year_start yoe in
  let mp := mp_of doy in
  let d := doy - month_offset mp + 1 in
  let m := if mp <? 10 then mp + 3 else mp - 9 in
  (if m <=? 2 then yoe + era * 400 + 1 else yoe + era * 400, m, d).

(** [Series.dt.dayofweek]: Monday is 0, Sunday is 6. *)
Definition dayofweek (d : Z) : Z := (d + 3) mod 7.

(** A period is its ordinal.  [to_period("W")] is the frequency W-SUN: weeks
    that end on a Sunday; [to_period("M")] counts months since 1970-01. *)
Definition to_period_W (d : Z) : Z := (d + 3) / 7.
Definition start_time_W (p : Z) : Z := 7 * p - 3.

Definition to_period_M (d : Z) : Z :=
  let '(y, m, _) := civil_from_days d in (y - 1970) * 12 + (m - 1).
Definition start_time_M (p : Z) : Z :=
  days_from_civil (1970 + p / 12) (p mod 12 + 1) 1.

Definition week_start (d : Z) : Z := start_time_W (to_period_W d).
Definition month_start (d : Z) : Z := start_time_M (to_period_M d).

(** ** Float cells *)

Definition float := option Q.

Definition fsub (a b : float) : float :=
  x ← a; y ← b; Some (x - y)%Q.
Definition fmul (a b : float) : float :=
  x ← a; y ← b; Some (x * y)%Q.
(** A zero divisor gives inf or nan in numpy; both are non-finite. *)
Definition fdiv (a b : float) : float :=
  x ← a; y ← b; if Qeq_bool y 0 then None else Some (x / y)%Q.
(** [a != 0]: a NaN is different from everything. *)
Definition fne0 (a : float) : bool :=
  match a with Some x => negb (Qeq_bool x 0) | None => true end.

(** Round half to even, the rounding of [numpy.rint] and of [format]. *)
Definition rint (q : Q) : Z :=
  let f := Qfloor q in
  match (q - inject_Z f ?= 1 # 2)%Q with
  | Lt => f
  | Gt => f + 1
  | Eq => if Z.even f then f else f + 1
  end.

(** [round(1)]: the nearest multiple of one tenth. *)
Definition round1 (q : Q) : Q := (rint (q * 10) # 10)%Q.

Definition string_of_nat_Z (z : Z) : string :=
  NilZero.string_of_uint (N.to_uint (Z.to_N z)).

(** [f"{x:.1f}"] and, with [plus], [f"{x:+.1f}"]. *)
Definition format_1f (plus : bool) (x : float) : string :=
  match x with
  | None => "nan"
  | Some q =>
      let t := Z.abs (rint (q * 10)) in
      let sign :=
        if Qle_bool 0 q then (if plus then "+" else "") else "-" in
      sign +:+ string_of_nat_Z (t / 10) +:+ "." +:+ string_of_nat_Z (t mod 10)
  end.

(** ** [sort_values] and [iloc] *)

Section Sorting.
Context {A : Type} (le : A → A → bool).

Fixpoint insert_sorted (x : A) (l : list A) : list A :=
  match l with
  | [] => [x]
  | y :: l' => if le x y then x :: l else y :: insert_sorted x l'
  end.

Definition sort_by (l : list A) : list A := foldr insert_sorted [] l.
End Sorting.

(** Key orders on a date column; NaT sorts last whatever the direction. *)
Definition key_le (ascending : bool) (a b : option Z) : bool :=
  match a, b with
  | Some x, Some y => if ascending then x <=? y else y <=? x
  | _, None => true
  | None, Some _ => false
  end.

Definition sort_values {A} (key : A → option Z) (ascending : bool)
    (df : list A) : list A :=
  sort_by (fun r1 r2 => key_le ascending (key r1) (key r2)) df.

(** The two orders of a date column in the specification's words, written
    out on the dates themselves: a row without a date comes after every row
    that has one. *)
Definition earliest_first (a b : option Z) : Prop :=
  match a, b with
  | Some x, Some y => x <= y
  | _, None => True
  | None, Some _ => False
  end.

Definition latest_first (a b : option Z) : Prop :=
  match a, b with
  | Some x, Some y => y <= x
  | _, None => True
  | None, Some _ => False
  end.

(** [s.iloc[i]]: a negative position counts from the end; a position outside
    the series raises IndexError. *)
Definition iloc {A} (s : list A) (i : Z) : result A :=
  let n := Z.of_nat (length s) in
  let j := if i <? 0 then n + i else i in
  if (0 <=? j) && (j <? n) then
    match s !! Z.to_nat j with
    | Some x => Ok x
    | None => Raise IndexError
    end
  else Raise IndexError.

(** [df.empty] for a frame that has columns: it has no rows. *)
Definition empty {A} (df : list A) : bool :=
  match df with [] => true | _ :: _ => false end.

(** ** Records of the two tables *)

Record WorkoutRecord := {
  w_date : option Z;
  w_exercise : option string;
  w_sets : float;
  w_reps : float;
  w_weight : float;
  w_notes : option string
}.

Record NutritionRecord := {
  n_date : option Z;
  n_calories : float;
  n_protein : float;
  n_carbs : float;
  n_fat : float;
  n_sugar : float;
  n_notes : option string
}.

(** A row of the weekly or monthly table after [reset_index]. *)
Record Averages := {
  period_start : Z;
  avg_calories : float;
  avg_protein : float;
  avg_carbs : float;
  avg_fat : float;
  avg_sugar : float
}.

(** What a page hands to the rendering layer. *)
Inductive widget :=
| st_info (msg : string)
| st_warning (msg : string)
| st_subheader (msg : string)
| st_markdown (msg : string)
| st_line_chart (points : list (option Z * float))
| st_dataframe_workouts (rows : list WorkoutRecord)
| st_dataframe_nutrition (rows : list NutritionRecord)
| st_dataframe_averages (rows : list Averages).

(** ** Page "Workout History"

    The selected label is what the select box returns: one of the labels of
    the table, or nothing when the table has no label. *)

(** [workouts_df["exercise"] == selected_exercise], one cell: a missing label
    equals nothing, and nothing equals a missing selection. *)
Definition exercise_eq (cell selected : option string) : bool :=
  match cell, selected with
  | Some a, Some b => String.eqb a b
  | _, _ => false
  end.

Definition filtered (workouts_df : list WorkoutRecord)
    (selected_exercise : option string) : list WorkoutRecord :=
  sort_values w_date true
    (List.filter (fun r => exercise_eq (w_exercise r) selected_exercise)
       workouts_df).

(** [filtered.dropna(subset=["weight"])] *)
Definition dropna_weight (df : list WorkoutRecord) : list WorkoutRecord :=
  List.filter (fun r => bool_decide (is_Some (w_weight r))) df.

Definition plot_df (workouts_df : list WorkoutRecord)
    (selected_exercise : option string) : list WorkoutRecord :=
  dropna_weight (filtered workouts_df selected_exercise).

Record Stats := {
  start_weight : float;
  current_weight : float;
  change : float;
  pct_change : float
}.

(** The "Simple stats" block, on a [plot_df] already known to be non-empty
    by its caller. *)
Definition simple_stats (plot : list WorkoutRecord) : result Stats :=
  start ← iloc (map w_weight plot) 0;
  current ← iloc (map w_weight plot) (-1);
  let change := fsub current start in
  let pct :=
    if fne0 start then fmul (fdiv change start) (Some 100%Q)
    else Some 0%Q in
  Ok {| start_weight := start; current_weight := current;
        change := change; pct_change := pct |}.

Definition stats_markdown (s : Stats) : string :=
  "**Start:** " +:+ format_1f false (start_weight s) +:+ " lbs → " +:+
  "**Current:** " +:+ format_1f false (current_weight s) +:+ " lbs " +:+
  "(**Δ " +:+ format_1f true (change s) +:+ " lbs, " +:+
  format_1f true (pct_change s) +:+ "%**) ".

Definition no_workouts_msg : string :=
  "No workouts logged yet. Add entries on the 'Log Workout' page.".
Definition no_data_msg : string := "No data for this exercise yet.".
Definition no_weight_msg : string :=
  "No weight values to plot for this exercise.".

Definition workout_history_page (workouts_df : list WorkoutRecord)
    (selected_exercise : option string) : result (list widget) :=
  if empty workouts_df then Ok [st_info no_workouts_msg]
  else
    let filtered := filtered workouts_df selected_exercise in
    if empty filtered then Ok [st_warning no_data_msg]
    else
      let plot_df := dropna_weight filtered in
      let chart :=
        if negb (empty plot_df) then
          st_line_chart (map (fun r => (w_date r, w_weight r)) plot_df)
        else st_info no_weight_msg in
      let table := st_dataframe_workouts (sort_values w_date false filtered) in
      stats ← (if negb (empty plot_df) then
                 s ← simple_stats plot_df; Ok [st_markdown (stats_markdown s)]
               else Ok []);
      Ok (st_subheader ("Weight Progress for: " +:+
                        default "None" selected_exercise) :: chart ::
          st_subheader "History Table" :: table :: stats).

(** ** The history page under any sorting algorithm

    [DataFrame.sort_values] sorts with quicksort unless it is told a kind,
    and quicksort promises no order among rows of equal date.  Here the page
    is written once more with the library's sort as a parameter, of which only
    this is assumed: it returns the rows it was given, in the order of their
    dates, a row without a date after the others. *)
Definition sorts_by_date
    (sort : bool → list WorkoutRecord → list WorkoutRecord) : Prop :=
  ∀ ascending df,
    sort ascending df ≡ₚ df ∧
    StronglySorted
      (fun r1 r2 => key_le ascending (w_date r1) (w_date r2) = true)
      (sort ascending df).

Section AnySort.
Variable sort : bool → list WorkoutRecord → list WorkoutRecord.

Definition filtered_by (workouts_df : list WorkoutRecord)
    (selected_exercise : option string) : list WorkoutRecord :=
  sort true
    (List.filter (fun r => exercise_eq (w_exercise r) selected_exercise)
       workouts_df).

Definition plot_df_by (workouts_df : list WorkoutRecord)
    (selected_exercise : option string) : list WorkoutRecord :=
  dropna_weight (filtered_by workouts_df selected_exercise).

Definition workout_history_page_by (workouts_df : list WorkoutRecord)
    (selected_exercise : option string) : result (list widget) :=
  if empty workouts_df then Ok [st_info no_workouts_msg]
  else
    let filtered := filtered_by workouts_df selected_exercise in
    if empty filtered then Ok [st_warning no_data_msg]
    else
      let plot_df := dropna_weight filtered in
      let chart :=
        if negb (empty plot_df) then
          st_line_chart (map (fun r => (w_date r, w_weight r)) plot_df)
        else st_info no_weight_msg in
      let table := st_dataframe_workouts (sort false filtered) in
      stats ← (if negb (empty plot_df) then
                 s ← simple_stats plot_df; Ok [st_markdown (stats_markdown s)]
               else Ok []);
      Ok (st_subheader ("Weight Progress for: " +:+
                        default "None" selected_exercise) :: chart ::
          st_subheader "History Table" :: table :: stats).
End AnySort.


(** ** Page "Nutrition Summary" *)

(** [Series.apply(lambda r: r.start_time)] on a period column.  The source
    pins no pandas version, and the implementations of [apply] on a period
    column differ on a NaT period.  pandas 1.x first tries the function on
    the whole index, where [start_time] is the vectorised accessor and keeps
    NaT.  pandas from 2.1 on calls it on every element, and NaT has no
    attribute [start_time]. *)
Inductive apply_impl := WholeIndexFirst | Elementwise.

#[global] Instance apply_impl_eq_dec : EqDecision apply_impl.
Proof. solve_decision. Defined.

Definition start_time (impl : apply_impl) (start : Z → Z) (p : option Z)
    : result (option Z) :=
  match p with
  | Some ordinal => Ok (Some (start ordinal))
  | None =>
      match impl with
      | WholeIndexFirst => Ok None
      | Elementwise =>
          Raise (AttributeError
                   "'NaTType' object has no attribute 'start_time'")
      end
  end.

Fixpoint apply {A B} (f : A → result B) (s : list A) : result (list B) :=
  match s with
  | [] => Ok []
  | x :: s' => y ← f x; ys ← apply f s'; Ok (y :: ys)
  end.

(** [groupby(key)]: one group per distinct key present, in ascending key
    order; a row whose key is missing joins no group ([dropna=True]). *)
Fixpoint insert_key (k : Z) (ks : list Z) : list Z :=
  match ks with
  | [] => [k]
  | k' :: ks' =>
      if k <? k' then k :: ks
      else if k =? k' then ks
      else k' :: insert_key k ks'
  end.

Definition group_keys (keys : list (option Z)) : list Z :=
  foldr insert_key [] (omap id keys).

Definition group_rows {A} (key : A → option Z) (k : Z) (df : list A)
    : list A :=
  List.filter (fun r => bool_decide (key r = Some k)) df.

Definition groupby {A} (key : A → option Z) (df : list A)
    : list (Z * list A) :=
  map (fun k => (k, group_rows key k df)) (group_keys (map key df)).

(** [mean()] skips NaN; the mean of no value is NaN. *)
Definition Qsum (xs : list Q) : Q := foldr Qplus 0%Q xs.

Definition mean (column : list float) : float :=
  match omap id column with
  | [] => None
  | x :: xs => Some (Qsum (x :: xs) / inject_Z (Z.of_nat (length (x :: xs))))%Q
  end.

(** [round(1)] on a cell; NaN stays NaN. *)
Definition round_1 (x : float) : float := round1 <$> x.

(** [groupby(...)[[calories, protein, carbs, fat, sugar]].mean().round(1)]
    followed by [reset_index()], for one group. *)
Definition averages_of (k : Z) (rows : list NutritionRecord) : Averages :=
  {| period_start := k;
     avg_calories := round_1 (mean (map n_calories rows));
     avg_protein := round_1 (mean (map n_protein rows));
     avg_carbs := round_1 (mean (map n_carbs rows));
     avg_fat := round_1 (mean (map n_fat rows));
     avg_sugar := round_1 (mean (map n_sugar rows)) |}.

(** The frame with its derived period column, a row paired with its key. *)
Definition period_column (impl : apply_impl) (to_period start : Z → Z)
    (df : list NutritionRecord) : result (list (NutritionRecord * option Z)) :=
  col ← apply (fun r => start_time impl start (to_period <$> n_date r)) df;
  Ok (zip df col).

Definition period_averages (impl : apply_impl) (to_period start : Z → Z)
    (df : list NutritionRecord) : result (list Averages) :=
  keyed ← period_column impl to_period start df;
  Ok (sort_values (fun a => Some (period_start a)) false
        (map (fun g => averages_of g.1 (map fst g.2)) (groupby snd keyed))).

(** [df] of the page: the table sorted by date. *)
Definition sorted_df (nutrition_df : list NutritionRecord)
    : list NutritionRecord :=
  sort_values n_date true nutrition_df.

(** The frame shown under "Daily Totals". *)
Definition daily (nutrition_df : list NutritionRecord)
    : list NutritionRecord :=
  sort_values n_date false (sorted_df nutrition_df).

Definition weekly (impl : apply_impl) (nutrition_df : list NutritionRecord)
    : result (list Averages) :=
  period_averages impl to_period_W start_time_W (sorted_df nutrition_df).

Definition monthly (impl : apply_impl) (nutrition_df : list NutritionRecord)
    : result (list Averages) :=
  period_averages impl to_period_M start_time_M (sorted_df nutrition_df).

Definition no_nutrition_msg : string :=
  "No nutrition data yet. Log entries on the 'Log Nutrition' page.".

(** The widgets of a run that ends on an exception are not kept. *)
Definition nutrition_summary_page (impl : apply_impl)
    (nutrition_df : list NutritionRecord) : result (list widget) :=
  if empty nutrition_df then Ok [st_info no_nutrition_msg]
  else
    w ← weekly impl nutrition_df;
    m ← monthly impl nutrition_df;
    Ok [st_subheader "Daily Totals";
        st_dataframe_nutrition (daily nutrition_df);
        st_subheader "Weekly Averages"; st_dataframe_averages w;
        st_subheader "Monthly Averages"; st_dataframe_averages m].

(** ** Frames and their cells

    A frame is kept by column, as pandas keeps it: the number of rows of its
    index and the named columns in order.  [NA] is the one marker for None,
    NaN and NaT. *)

Record Timestamp := { ts_day : Z; ts_second : Z }.

Inductive cell :=
| NA
| Text (s : string)
| Int (z : Z)
| Float (i : Z) (f : Decimal.uint)
| Stamp (t : Timestamp).

#[global] Instance uint_eq_dec : EqDecision Decimal.uint.
Proof. solve_decision. Defined.
#[global] Instance Timestamp_eq_dec : EqDecision Timestamp.
Proof. solve_decision. Defined.
#[global] Instance cell_eq_dec : EqDecision cell.
Proof. solve_decision. Defined.

Record DataFrame := {
  nrows : nat;
  columns : list (string * list cell)
}.

Definition names (df : DataFrame) : list string := map fst (columns df).

(** [df.empty]: some axis has length zero. *)
Definition df_empty (df : DataFrame) : bool :=
  (nrows df =? 0)%nat || empty (columns df).

(** [col in df.columns] *)
Definition has_column (df : DataFrame) (col : string) : bool :=
  bool_decide (col ∈ names df).

(** The first column that carries a label. *)
Definition find_col (cs : list (string * list cell)) (col : string)
    : option (string * list cell) :=
  List.find (fun c => String.eqb c.1 col) cs.

(** [df[col]] for one label *)
Definition getitem (df : DataFrame) (col : string) : result (list cell) :=
  match find_col (columns df) col with
  | Some c => Ok c.2
  | None => Raise (KeyError col)
  end.

(** [df[col] = values]: an existing column is replaced where it stands, a
    new one is appended. *)
Definition setitem (df : DataFrame) (col : string) (values : list cell)
    : DataFrame :=
  if has_column df col then
    {| nrows := nrows df;
       columns := map (fun c => if String.eqb c.1 col then (col, values)
                                else c) (columns df) |}
  else
    {| nrows := nrows df; columns := columns df ++ [(col, values)] |}.

(** [df[col] = None] broadcasts the marker over the index. *)
Definition setitem_none (df : DataFrame) (col : string) : DataFrame :=
  setitem df col (replicate (nrows df) NA).

(** [df[columns]] for a list of labels: every column carrying each label, in
    the order of the list; a label the frame lacks raises KeyError. *)
Fixpoint getitem_list_columns (cols : list (string * list cell))
    (labels : list string) : result (list (string * list cell)) :=
  match labels with
  | [] => Ok []
  | l :: labels' =>
      match List.filter (fun c => String.eqb c.1 l) cols with
      | [] => Raise (KeyError l)
      | found => rest ← getitem_list_columns cols labels';
                 Ok (found ++ rest)
      end
  end.

Definition getitem_list (df : DataFrame) (labels : list string)
    : result DataFrame :=
  cols ← getitem_list_columns (columns df) labels;
  Ok {| nrows := nrows df; columns := cols |}.

(** [pd.DataFrame(columns=columns)] *)
Definition empty_frame (cols : list string) : DataFrame :=
  {| nrows := 0; columns := map (fun c => (c, [])) cols |}.

(** The loop shared by [load_csv] and both imports:
    [for col in columns: if col not in df.columns: df[col] = None]. *)
Definition backfill (df : DataFrame) (cols : list string) : DataFrame :=
  foldl (fun df col => if has_column df col then df else setitem_none df col)
    df cols.

(** The loop followed by the projection [df[columns]]. *)
Definition coerce (df : DataFrame) (cols : list string) : result DataFrame :=
  getitem_list (backfill df cols) cols.

Definition workout_cols : list string :=
  ["date"; "exercise"; "sets"; "reps"; "weight"; "notes"].
Definition nutrition_cols : list string :=
  ["date"; "calories"; "protein"; "carbs"; "fat"; "sugar"; "notes"].

(** ** Delimited text

    A file is modelled after tokenisation: the header line and the data
    lines, each a list of text fields.  Delimiters and quoting are the two
    inverse halves of the csv reader and writer and are not modelled. *)

Record csv_file := {
  header : list string;
  lines : list (list string)
}.

(** The fields [read_csv] takes for a missing value. *)
Definition na_values : list string :=
  [""; "#N/A"; "#N/A N/A"; "#NA"; "-1.#IND"; "-1.#QNAN"; "-NaN"; "-nan";
   "1.#IND"; "1.#QNAN"; "<NA>"; "N/A"; "NA"; "NULL"; "NaN"; "None"; "n/a";
   "nan"; "null"].

Definition is_na_field (s : string) : bool := bool_decide (s ∈ na_values).

Definition digit_char (n : Z) : ascii :=
  ascii_of_nat (48 + Z.to_nat (n mod 10)).
Definition pad2 (n : Z) : string :=
  String (digit_char (n / 10)) (String (digit_char n) "").
Definition pad4 (n : Z) : string :=
  String (digit_char (n / 1000)) (String (digit_char (n / 100)) (pad2 n)).

(** [%Y-%m-%d] and [%H:%M:%S] *)
Definition format_date (d : Z) : string :=
  let '(y, m, dd) := civil_from_days d in
  pad4 y +:+ String "-" (pad2 m +:+ String "-" (pad2 dd)).
Definition format_time (s : Z) : string :=
  pad2 (s / 3600) +:+ String ":" (pad2 (s / 60 mod 60) +:+
  String ":" (pad2 (s mod 60))).

Definition string_of_Z (z : Z) : string := NilZero.string_of_int (Z.to_int z).
Definition Z_of_string (s : string) : option Z :=
  Z.of_int <$> NilZero.int_of_string s.

(** A datetime column is written with its time of day only when some value of
    the column has one. *)
Definition has_time (column : list cell) : bool :=
  existsb (fun c => match c with
                    | Stamp t => negb (ts_second t =? 0)
                    | _ => false
                    end) column.

Definition field_of (with_time : bool) (c : cell) : string :=
  match c with
  | NA => ""
  | Text s => s
  | Int z => string_of_Z z
  | Float i f => string_of_Z i +:+ String "." (NilEmpty.string_of_uint f)
  | Stamp t =>
      if with_time then
        format_date (ts_day t) +:+ String " " (format_time (ts_second t))
      else format_date (ts_day t)
  end.

(** [df.to_csv(path, index=False)] *)
Definition to_csv (df : DataFrame) : csv_file :=
  {| header := names df;
     lines := map (fun i => map (fun c => field_of (has_time c.2)
                                            (nth i c.2 NA)) (columns df))
                (seq 0 (nrows df)) |}.

(** Reading a number back: an integer literal, or an integer part, a point
    and a non-empty fraction.  What else pandas reads as a number or as a
    boolean (an exponent, a leading plus sign, True and False) stays a text
    here. *)
Fixpoint split_dot (s : string) : option (string * string) :=
  match s with
  | EmptyString => None
  | String c s' =>
      if Ascii.eqb c "." then Some (EmptyString, s')
      else p ← split_dot s'; Some (String c p.1, p.2)
  end.

Definition float_of_string (s : string) : option (Z * Decimal.uint) :=
  p ← split_dot s;
  i ← Z_of_string p.1;
  f ← NilZero.uint_of_string p.2;
  Some (i, f).

Definition classify (s : string) : cell :=
  if is_na_field s then NA
  else match Z_of_string s with
       | Some z => Int z
       | None =>
           match float_of_string s with
           | Some (i, f) => Float i f
           | None => Text s
           end
       end.

Definition is_int (c : cell) : bool :=
  match c with Int _ => true | _ => false end.
Definition is_numeric_or_na (c : cell) : bool :=
  match c with Int _ | Float _ _ | NA => true | _ => false end.
Definition upcast (c : cell) : cell :=
  match c with Int z => Float z (Decimal.D0 Decimal.Nil) | _ => c end.

(** The dtype of a column is inferred from all of its fields: int64 when all
    are integers, float64 when all are numbers or missing, object otherwise,
    where every field that is not missing stays the text it was. *)
Definition infer_column (fields : list string) : list cell :=
  let cells := map classify fields in
  if forallb is_int cells then cells
  else if forallb is_numeric_or_na cells then map upcast cells
  else map (fun s => if is_na_field s then NA else Text s) fields.

(** A line with nothing on it is skipped ([skip_blank_lines]). *)
Definition is_blank (line : list string) : bool :=
  match line with
  | [] => true
  | [s] => String.eqb s ""
  | _ => false
  end.

(** [pd.read_csv(path)]: short lines are padded with missing fields, a line
    longer than the header is a tokenising error. *)
Definition read_csv (file : csv_file) : result DataFrame :=
  if empty (header file) then Raise EmptyDataError
  else
    let data := List.filter (fun l => negb (is_blank l)) (lines file) in
    if forallb (fun l => (length l <=? length (header file))%nat) data then
      Ok {| nrows := length data;
            columns := imap (fun j name =>
                         (name, infer_column
                                  (map (fun l => nth j l "") data)))
                         (header file) |}
    else Raise ParserError.

(** ** The record store *)

Definition load_csv (fs : gmap string csv_file) (path : string)
    (columns : list string) : result DataFrame :=
  match fs !! path with
  | Some file => df ← read_csv file; coerce df columns
  | None => Ok (empty_frame columns)
  end.

Definition save_csv (df : DataFrame) (path : string)
    (fs : gmap string csv_file) : gmap string csv_file :=
  <[path := to_csv df]> fs.

(** ** The date normalizer *)

Section DateNormalizer.
(** [pd.to_datetime(..., errors='coerce')] on one value that is neither
    missing nor a timestamp already.  The permissive parser belongs to the
    library; it may look at the whole column, as format inference does. *)
Variable to_datetime_scalar : list cell → cell → option Timestamp.

Definition to_datetime (column : list cell) (c : cell) : cell :=
  match c with
  | NA => NA
  | Stamp t => Stamp t
  | _ => match to_datetime_scalar column c with
         | Some t => Stamp t
         | None => NA
         end
  end.

(** [Series.dt.normalize()], one cell of a datetime column. *)
Definition normalize (c : cell) : cell :=
  match c with
  | Stamp t => Stamp {| ts_day := ts_day t; ts_second := 0 |}
  | _ => NA
  end.

Definition ensure_date_col (df : DataFrame) (col : string)
    : result DataFrame :=
  if df_empty df then Ok df
  else
    values ← getitem df col;
    let df := setitem df col (map (to_datetime values) values) in
    parsed ← getitem df col;
    Ok (setitem df col (map normalize parsed)).

(** The import of an uploaded workout file, up to the save. *)
Definition import_workouts (uploaded_file : csv_file)
    (fs : gmap string csv_file)
    : result (DataFrame * gmap string csv_file) :=
  uploaded ← read_csv uploaded_file;
  uploaded ← coerce uploaded workout_cols;
  uploaded ← ensure_date_col uploaded "date";
  Ok (uploaded, save_csv uploaded "workouts.csv" fs).

Definition import_nutrition (uploaded_file : csv_file)
    (fs : gmap string csv_file)
    : result (DataFrame * gmap string csv_file) :=
  uploaded_n ← read_csv uploaded_file;
  uploaded_n ← coerce uploaded_n nutrition_cols;
  uploaded_n ← ensure_date_col uploaded_n "date";
  Ok (uploaded_n, save_csv uploaded_n "nutrition.csv" fs).

(** The two frames every page starts from. *)
Definition workouts_df (fs : gmap string csv_file) : result DataFrame :=
  df ← load_csv fs "workouts.csv" workout_cols; ensure_date_col df "date".
Definition nutrition_df (fs : gmap string csv_file) : result DataFrame :=
  df ← load_csv fs "nutrition.csv" nutrition_cols; ensure_date_col df "date".
End DateNormalizer.

(** ** The store over the library's reader

    [pd.read_csv] belongs to the library.  The functions that call it are
    written here once more with the reader as a parameter, so that what is
    proved of them holds of whatever frame the reader returns for a file. *)

Section AnyReader.
Variable pd_read_csv : csv_file → result DataFrame.
Variable to_datetime_scalar : list cell → cell → option Timestamp.

Definition load_csv_with (fs : gmap string csv_file) (path : string)
    (columns : list string) : result DataFrame :=
  match fs !! path with
  | Some file => df ← pd_read_csv file; coerce df columns
  | None => Ok (empty_frame columns)
  end.

Definition workouts_df_with (fs : gmap string csv_file) : result DataFrame :=
  df ← load_csv_with fs "workouts.csv" workout_cols;
  ensure_date_col to_datetime_scalar df "date".

Definition nutrition_df_with (fs : gmap string csv_file) : result DataFrame :=
  df ← load_csv_with fs "nutrition.csv" nutrition_cols;
  ensure_date_col to_datetime_scalar df "date".

Definition import_workouts_with (uploaded_file : csv_file)
    (fs : gmap string csv_file)
    : result (DataFrame * gmap string csv_file) :=
  uploaded ← pd_read_csv uploaded_file;
  uploaded ← coerce uploaded workout_cols;
  uploaded ← ensure_date_col to_datetime_scalar uploaded "date";
  Ok (uploaded, save_csv uploaded "workouts.csv" fs).

Definition import_nutrition_with (uploaded_file : csv_file)
    (fs : gmap string csv_file)
    : result (DataFrame * gmap string csv_file) :=
  uploaded_n ← pd_read_csv uploaded_file;
  uploaded_n ← coerce uploaded_n nutrition_cols;
  uploaded_n ← ensure_date_col to_datetime_scalar uploaded_n "date";
  Ok (uploaded_n, save_csv uploaded_n "nutrition.csv" fs).
End AnyReader.

(** ** Rows of a frame, as the summary page reads them

    The rows of a nutrition frame whose metric columns are numeric, which is
    what [read_csv] gives when every field of those columns is a number or
    empty. *)

Definition cell_at (df : DataFrame) (col : string) (i : nat) : cell :=
  match getitem df col with
  | Ok values => nth i values NA
  | Raise _ => NA
  end.

Definition cell_date (c : cell) : option Z :=
  match c with Stamp t => Some (ts_day t) | _ => None end.

Definition cell_text (c : cell) : option string :=
  match c with Text s => Some s | _ => None end.

Definition cell_float (c : cell) : float :=
  match c with
  | Int z => Some (inject_Z z)
  | Float i f =>
      let frac := (inject_Z (Z.of_uint f) /
                   inject_Z (10 ^ Z.of_nat (Decimal.nb_digits f)))%Q in
      Some (if i <? 0 then inject_Z i - frac else inject_Z i + frac)%Q
  | _ => None
  end.

Definition nutrition_records (df : DataFrame) : list NutritionRecord :=
  map (fun i => {| n_date := cell_date (cell_at df "date" i);
                   n_calories := cell_float (cell_at df "calories" i);
                   n_protein := cell_float (cell_at df "protein" i);
                   n_carbs := cell_float (cell_at df "carbs" i);
                   n_fat := cell_float (cell_at df "fat" i);
                   n_sugar := cell_float (cell_at df "sugar" i);
                   n_notes := cell_text (cell_at df "notes" i) |})
    (seq 0 (nrows df)).

(** The summary page as the script runs it, from the files. *)
Definition nutrition_summary
    (parser : list cell → cell → option Timestamp) (impl : apply_impl)
    (fs : gmap string csv_file) : result (list widget) :=
  df ← nutrition_df parser fs;
  nutrition_summary_page impl (nutrition_records df).

(** A reader of [YYYY-MM-DD] and of nothing else: the least that a permissive
    date parser accepts.  It instantiates [to_datetime_scalar] in examples. *)
Definition iso_parser (column : list cell) (c : cell) : option Timestamp :=
  match c with
  | Text (String y1 (String y2 (String y3 (String y4 (String "-"
           (String m1 (String m2 (String "-"
              (String d1 (String d2 EmptyString)))))))))) =>
      y ← NilZero.uint_of_string
            (String y1 (String y2 (String y3 (String y4 EmptyString))));
      m ← NilZero.uint_of_string (String m1 (String m2 EmptyString));
      d ← NilZero.uint_of_string (String d1 (String d2 EmptyString));
      Some {| ts_day := days_from_civil (Z.of_uint y) (Z.of_uint m)
                          (Z.of_uint d);
              ts_second := 0 |}
  | _ => None
  end.

(** The weight history in the order of the specification's words: select the
    label, drop the rows without a weight, then sort by date. *)
Definition spec_history (workouts_df : list WorkoutRecord)
    (selected_exercise : option string) : list WorkoutRecord :=
  sort_values w_date true
    (dropna_weight
       (List.filter (fun r => exercise_eq (w_exercise r) selected_exercise)
          workouts_df)).

(** The rows of the specification's progress example. *)
Definition bench (d : Z) (w : Z) : WorkoutRecord :=
  {| w_date := Some d; w_exercise := Some "Bench"; w_sets := Some 3%Q;
     w_reps := Some 10%Q; w_weight := Some (inject_Z w); w_notes := None |}.

(** What the page shows when there is a weight history. *)
Definition history_widgets (workouts_df : list WorkoutRecord)
    (selected_exercise : option string) (s : Stats) : list widget :=
  [st_subheader ("Weight Progress for: " +:+ default "None" selected_exercise);
   st_line_chart (map (fun r => (w_date r, w_weight r))
                    (plot_df workouts_df selected_exercise));
   st_subheader "History Table";
   st_dataframe_workouts
     (sort_values w_date false (filtered workouts_df selected_exercise));
   st_markdown (stats_markdown s)].

(** The key of a row under a period function: the start of the period of its
    date, when it has a date. *)
Definition period_key (period_of : Z → Z) (r : NutritionRecord) : option Z :=
  period_of <$> n_date r.

(** The rows of a table whose period starts at [k]. *)
Definition bucket_rows (period_of : Z → Z) (k : Z)
    (t : list NutritionRecord) : list NutritionRecord :=
  List.filter (fun r => bool_decide (period_key period_of r = Some k)) t.

(** What the specification asks of a table of period averages of [t]: every
    dated row has the bucket of its period; every bucket has rows and holds
    the rounded means over them; buckets come most recent first, one per
    period. *)
Definition period_table (period_of : Z → Z) (t : list NutritionRecord)
    (out : list Averages) : Prop :=
  (∀ r d, r ∈ t → n_date r = Some d → period_of d ∈ map period_start out) ∧
  (∀ b, b ∈ out →
     bucket_rows period_of (period_start b) t ≠ [] ∧
     b = averages_of (period_start b)
           (bucket_rows period_of (period_start b) t)) ∧
  StronglySorted (fun a b => period_start b < period_start a) out.

(** The rows of the specification's aggregation example. *)
Definition meal (d : option Z) (calories protein carbs fat sugar : Z)
    : NutritionRecord :=
  {| n_date := d; n_calories := Some (inject_Z calories);
     n_protein := Some (inject_Z protein); n_carbs := Some (inject_Z carbs);
     n_fat := Some (inject_Z fat); n_sugar := Some (inject_Z sugar);
     n_notes := None |}.

Definition example_nutrition : list NutritionRecord :=
  [meal (Some 19723) 2000 150 200 70 30;
   meal (Some 19723) 2200 160 210 75 35;
   meal (Some 19730) 1800 140 180 60 20].

(** A nutrition file with a date that no parser reads. *)
Definition nutrition_file_bad_date : csv_file :=
  {| header := nutrition_cols;
     lines := [["2024-01-01"; "2000"; "150.0"; "200.0"; "70.0"; "30.0";
                "lunch"];
               ["later"; "1800"; "140.0"; "180.0"; "60.0"; "20.0";
                "snack"]] |}.

(** The five numeric metrics: the column of a row and of a table of
    averages. *)
Definition metrics
    : list ((NutritionRecord → float) * (Averages → float)) :=
  [(n_calories, avg_calories); (n_protein, avg_protein);
   (n_carbs, avg_carbs); (n_fat, avg_fat); (n_sugar, avg_sugar)].

(** [k] is the Monday that starts the week of [d].  Day 0 is Thursday
    1970-01-01, so the Mondays are the days that leave 4 when divided by
    7. *)
Definition starts_week_of (k d : Z) : bool :=
  (k mod 7 =? 4) && (k <=? d) && (d <? k + 7).

(** [k] is the first day of the month of [d]. *)
Definition starts_month_of (k d : Z) : bool :=
  let '(y, m, _) := civil_from_days d in
  let '(y', m', d') := civil_from_days k in
  (y' =? y) && (m' =? m) && (d' =? 1).

(** The rows of a table whose date is in the period that starts at [k]. *)
Definition period_rows (starts : Z → Z → bool) (k : Z)
    (t : list NutritionRecord) : list NutritionRecord :=
  List.filter (fun r => match n_date r with
                        | Some d => starts k d
                        | None => false
                        end) t.

(** [v] is [q] rounded to one decimal: a number of tenths, nearest to [q],
    the even one of two that are equally near. *)
Definition rounded_to_1_decimal (q v : Q) : Prop :=
  ∃ n : Z, v = (n # 10)%Q ∧ (Qabs (q - v) <= 1 # 20)%Q ∧
           ((Qabs (q - v) == 1 # 20)%Q → Z.even n = true).

(** A table of averages of [t] by period: every row with a date has the
    bucket of its period; every bucket has such a row; a bucket holds for
    every metric the arithmetic mean of the values present in its rows,
    rounded to one decimal, or nothing when none is present; buckets come
    latest first, one per period. *)
Definition averages_table (starts : Z → Z → bool) (t : list NutritionRecord)
    (out : list Averages) : Prop :=
  StronglySorted (fun a b => period_start b < period_start a) out ∧
  (∀ r d, r ∈ t → n_date r = Some d →
     ∃ b, b ∈ out ∧ starts (period_start b) d = true) ∧
  (∀ b, b ∈ out →
     ∃ r d, r ∈ t ∧ n_date r = Some d ∧ starts (period_start b) d = true) ∧
  (∀ b m, b ∈ out → m ∈ metrics →
     match omap m.1 (period_rows starts (period_start b) t) with
     | [] => m.2 b = None
     | x :: xs =>
         ∃ v, m.2 b = Some v ∧
              rounded_to_1_decimal
                (Qsum (x :: xs) / inject_Z (Z.of_nat (length (x :: xs)))) v
     end).

(** The daily table in the specification's words, read on the frame the page
    shows: one line per distinct date, no line without a date, the dates of
    the lines are the valid dates of the input, and each metric of a line is
    the rounded mean over the rows of its date. *)
Definition day_buckets (t out : list NutritionRecord) : Prop :=
  NoDup (map n_date out) ∧
  (∀ d, d ∈ map n_date out ↔ is_Some d ∧ d ∈ map n_date t) ∧
  (∀ b d m, b ∈ out → n_date b = Some d → m ∈ metrics →
     m.1 b = round_1 (mean (map m.1 (bucket_rows (fun d => d) d t)))).

(** The column a coerced frame has under a label of the schema: the column of
    the source when it has one, the marker on every row when it has none. *)
Definition coerced_column (df : DataFrame) (col : string) : list cell :=
  match getitem df col with
  | Ok values => values
  | Raise _ => replicate (nrows df) NA
  end.

(** The date cell after [ensure_date_col], in the specification's words: a
    value that is missing or that the parser rejects is the marker, any other
    is its date at midnight. *)
Definition date_cell (parser : list cell → cell → option Timestamp)
    (column : list cell) (c : cell) : cell :=
  match c with
  | NA => NA
  | Stamp t => Stamp {| ts_day := ts_day t; ts_second := 0 |}
  | _ => match parser column c with
         | Some t => Stamp {| ts_day := ts_day t; ts_second := 0 |}
         | None => NA
         end
  end.

(** What the reader is taken to return: a frame with unique labels whose
    columns are as long as its index. *)
Definition well_formed (df : DataFrame) : Prop :=
  NoDup (names df) ∧ Forall (fun c => length c.2 = nrows df) (columns df).

(** The table of a schema made from a frame that was read, in the
    specification's words: the columns of the schema in its order, the rows
    of the frame, the dates normalized, every other column as the frame has
    it, or missing on every row. *)
Definition schema_table (parser : list cell → cell → option Timestamp)
    (cols : list string) (raw df : DataFrame) : Prop :=
  names df = cols ∧ nrows df = nrows raw ∧
  Forall (fun c => length c.2 = nrows df) (columns df) ∧
  ∀ col, col ∈ cols →
    getitem df col =
    Ok (if String.eqb col "date"
        then map (date_cell parser (coerced_column raw "date"))
               (coerced_column raw "date")
        else coerced_column raw col).

(** An uploaded file that has only a date and a weight. *)
Definition date_weight_file : csv_file :=
  {| header := ["date"; "weight"];
     lines := [["2024-01-01"; "135.0"]; ["2024-01-03"; "140.0"]] |}.

(** ** The schemas, with the types section 6 of the specification gives *)

Inductive dtype := datetime64 | object | int64 | float64.

Definition workout_schema : list (string * dtype) :=
  [("date", datetime64); ("exercise", object); ("sets", int64);
   ("reps", int64); ("weight", float64); ("notes", object)].

Definition nutrition_schema : list (string * dtype) :=
  [("date", datetime64); ("calories", int64); ("protein", float64);
   ("carbs", float64); ("fat", float64); ("sugar", float64);
   ("notes", object)].

(** A cell of a column of a dtype.  A date has no time of day; a float has
    a digit after its point; an int64 column has no missing value. *)
Definition cell_has_dtype (t : dtype) (c : cell) : Prop :=
  match t, c with
  | datetime64, NA => True
  | datetime64, Stamp ts => ts_second ts = 0
  | object, NA => True
  | object, Text _ => True
  | int64, Int _ => True
  | float64, NA => True
  | float64, Float _ f => f ≠ Decimal.Nil
  | _, _ => False
  end.

(** A table conforms to a schema: the columns of the schema, in order, each
    as long as the index and of its dtype. *)
Definition conforms (schema : list (string * dtype)) (df : DataFrame) : Prop :=
  Forall2 (fun c s => c.1 = s.1 ∧ length c.2 = nrows df ∧
                      Forall (cell_has_dtype s.2) c.2)
    (columns df) schema.

(** One run saves the table, the next loads it and normalizes its dates
    (lines 42 to 46 of the source). *)
Definition reload (parser : list cell → cell → option Timestamp)
    (path : string) (cols : list string) (df : DataFrame)
    (fs : gmap string csv_file) : result DataFrame :=
  loaded ← load_csv (save_csv df path fs) path cols;
  ensure_date_col parser loaded "date".

(** A workout logged without notes: the form hands over an empty text. *)
Definition logged_without_notes : DataFrame :=
  {| nrows := 1;
     columns :=
       [("date", [Stamp {| ts_day := 19723; ts_second := 0 |}]);
        ("exercise", [Text "Bench"]); ("sets", [Int 3]); ("reps", [Int 10]);
        ("weight", [Float 135 (Decimal.D0 Decimal.Nil)]);
        ("notes", [Text ""])] |}.

(** Every character of a text passes a test. *)
Fixpoint all_chars (p : ascii → bool) (s : string) : bool :=
  match s with
  | EmptyString => true
  | String c s' => p c && all_chars p s'
  end.

Definition is_digit (c : ascii) : bool :=
  (48 <=? nat_of_ascii c)%nat && (nat_of_ascii c <=? 57)%nat.

Definition not_dot (c : ascii) : bool := negb (Ascii.eqb c ".").

(** A character that can stand in a field the reader takes for a number or
    for a truth value: a digit, a sign, the point, a blank, and the letters
    of an exponent, of inf, infinity and nan, of true and false, and of a
    few more notations of numbers. *)
Definition ambiguous_char (c : ascii) : bool :=
  is_digit c || (nat_of_ascii c <=? 32)%nat ||
  existsb (Ascii.eqb c)
    (list_ascii_of_string "+-.,_eExXjJdDiInNfFtTyYaArRuUlLsS").

(** A text that no reader takes for a number or for a truth value: one of
    its characters stands in none. *)
Definition plainly_text (s : string) : Prop :=
  all_chars ambiguous_char s = false.

(** A text column comes back from a file as it was written: none of its
    texts is taken for a missing value, and the column is not taken for a
    column of numbers or of truth values, because one of its texts is
    plainly a text. *)
Definition text_stable (values : list cell) : Prop :=
  Forall (fun c => match c with
                   | Text s => s ∉ na_values
                   | _ => True
                   end) values ∧
  (Forall (fun c => c = NA) values ∨
   ∃ s, Text s ∈ values ∧ plainly_text s).

(** An integer of an int64 column. *)
Definition fits_int64 (z : Z) : Prop := - 2 ^ 63 <= z < 2 ^ 63.

(** A float that is written as the decimal it is and read back exactly: a
    short decimal, at most nine digits before the point and four after it,
    written as [repr] writes it, without a trailing zero other than the one
    of a whole number. *)
Fixpoint ends_in_zero (f : Decimal.uint) : bool :=
  match f with
  | Decimal.Nil => false
  | Decimal.D0 Decimal.Nil => true
  | Decimal.D0 f' | Decimal.D1 f' | Decimal.D2 f' | Decimal.D3 f'
  | Decimal.D4 f' | Decimal.D5 f' | Decimal.D6 f' | Decimal.D7 f'
  | Decimal.D8 f' | Decimal.D9 f' => ends_in_zero f'
  end.

Definition plain_float (i : Z) (f : Decimal.uint) : Prop :=
  Z.abs i < 10 ^ 9 ∧ (1 <= Decimal.nb_digits f <= 4)%nat ∧
  (f = Decimal.D0 Decimal.Nil ∨ ends_in_zero f = false).

(** The parser reads the rendering of every date of a column. *)
Definition dates_readable (parser : list cell → cell → option Timestamp)
    (values : list cell) : Prop :=
  ∀ column t, Stamp t ∈ values →
    ∃ t', parser column (Text (format_date (ts_day t))) = Some t' ∧
          ts_day t' = ts_day t.

(** What a schema of the store is: unique labels, at least two of them, and
    the dates in the column "date" and nowhere else. *)
Definition store_schema (schema : list (string * dtype)) : Prop :=
  NoDup (map fst schema) ∧ (2 <= length schema)%nat ∧
  "date" ∈ map fst schema ∧
  ∀ s, s ∈ schema → (s.2 = datetime64 ↔ s.1 = "date").

(** The values of a column of a dtype that the file format carries. *)
Definition carried (parser : list cell → cell → option Timestamp)
    (t : dtype) (values : list cell) : Prop :=
  match t with
  | object => text_stable values
  | datetime64 => dates_readable parser values
  | int64 =>
      Forall (fun c => match c with Int z => fits_int64 z | _ => True end)
        values
  | float64 =>
      Forall (fun c => match c with Float i f => plain_float i f | _ => True end)
        values
  end.

(** The part of a conforming table that the file format can carry. *)
Definition survives (parser : list cell → cell → option Timestamp)
    (schema : list (string * dtype)) (df : DataFrame) : Prop :=
  Forall2 (fun c s => carried parser s.2 c.2) (columns df) schema.

(** A column as it is read from the file it was written to. *)
Definition read_back (c : string * list cell) : list cell :=
  infer_column (map (field_of (has_time c.2)) c.2).

(** Two logged workouts, the second without a date. *)
Definition two_workouts : DataFrame :=
  {| nrows := 2;
     columns :=
       [("date", [Stamp {| ts_day := 19723; ts_second := 0 |}; NA]);
        ("exercise", [Text "Bench"; Text "Squat"]);
        ("sets", [Int 3; Int 5]); ("reps", [Int 10; Int 5]);
        ("weight", [Float 135 (Decimal.D0 Decimal.Nil);
                    Float 137 (Decimal.D5 Decimal.Nil)]);
        ("notes", [NA; Text "felt good"])] |}.

(** ** Pages "Log Workout" and "Log Nutrition"

    The block under the button builds one row from the widgets, puts it under
    the table and saves the table.  The widgets hand over a date, texts,
    integers and decimal numbers. *)

(** [pd.DataFrame([new_row])]: one row, the keys of the dictionary in their
    order. *)
Definition frame_of_row (new_row : list (string * cell)) : DataFrame :=
  {| nrows := 1; columns := map (fun kv => (kv.1, [kv.2])) new_row |}.

(** The dtype of a column put together from two: integers stay integers;
    integers among floats or missing numbers become floats, as in
    [infer_column]; any other mix is an object column that keeps every value
    as it is. *)
Definition common_type (cells : list cell) : list cell :=
  if forallb is_int cells then cells
  else if forallb is_numeric_or_na cells then map upcast cells
  else cells.

(** [pd.concat([df, other], ignore_index=True)] for frames with unique
    labels: the rows of [other] under the rows of [df]; the columns of [df],
    then those only [other] has; a column one frame lacks is the marker on
    the rows of that frame. *)
Definition concat (df other : DataFrame) : DataFrame :=
  let labels :=
    names df ++ List.filter (fun l => negb (has_column df l)) (names other) in
  {| nrows := nrows df + nrows other;
     columns := map (fun l => (l, common_type (coerced_column df l ++
                                               coerced_column other l)))
                  labels |}.

Definition workout_row (w_date : Z) (exercise : string) (sets reps : Z)
    (weight : Z * Decimal.uint) (notes : string) : list (string * cell) :=
  [("date", Text (format_date w_date)); ("exercise", Text exercise);
   ("sets", Int sets); ("reps", Int reps);
   ("weight", Float weight.1 weight.2); ("notes", Text notes)].

Definition nutrition_row (n_date : Z) (calories : Z)
    (protein carbs fat sugar : Z * Decimal.uint) (n_notes : string)
    : list (string * cell) :=
  [("date", Text (format_date n_date)); ("calories", Int calories);
   ("protein", Float protein.1 protein.2); ("carbs", Float carbs.1 carbs.2);
   ("fat", Float fat.1 fat.2); ("sugar", Float sugar.1 sugar.2);
   ("notes", Text n_notes)].

(** "Add Workout Entry": the new table and the files after the save. *)
Definition add_workout_entry (w_date : Z) (exercise : string) (sets reps : Z)
    (weight : Z * Decimal.uint) (notes : string)
    (workouts_df : DataFrame) (fs : gmap string csv_file)
    : DataFrame * gmap string csv_file :=
  let new_row := workout_row w_date exercise sets reps weight notes in
  let workouts_df := concat workouts_df (frame_of_row new_row) in
  (workouts_df, save_csv workouts_df "workouts.csv" fs).

(** "Add Nutrition Entry" *)
Definition add_nutrition_entry (n_date : Z) (calories : Z)
    (protein carbs fat sugar : Z * Decimal.uint) (n_notes : string)
    (nutrition_df : DataFrame) (fs : gmap string csv_file)
    : DataFrame * gmap string csv_file :=
  let new_row :=
    nutrition_row n_date calories protein carbs fat sugar n_notes in
  let nutrition_df := concat nutrition_df (frame_of_row new_row) in
  (nutrition_df, save_csv nutrition_df "nutrition.csv" fs).

(** What the block of the recent entries shows: a message, or rows of the
    table, among which the row that was just added, whose date is still the
    text the form rendered. *)
Inductive recent_view (A New : Type) :=
| recent_info (msg : string)
| recent_dataframe (rows : list (New + A)).
Arguments recent_info {A New} msg.
Arguments recent_dataframe {A New} rows.

(** [df.sort_values("date", ascending=False).head(20)] on the table of the
    run.  Without a click the table is the loaded one and its dates are
    dates.  After a click the row of the form is under it and the column
    holds timestamps, missing dates and one text: a timestamp and a text do
    not compare, so the sort raises TypeError when a loaded row has a date;
    when none has, the text is the only value to sort and comes first, the
    rows without a date after it as the table has them. *)
Definition recent {A New} (key : A → option Z) (df : list A)
    (new_row : option New) : result (list (New + A)) :=
  match new_row with
  | None => Ok (map inr (take 20 (sort_values key false df)))
  | Some row =>
      if existsb (fun r => bool_decide (is_Some (key r))) df
      then Raise TypeError
      else Ok (take 20 (inl row :: map inr df))
  end.

(** "Recent Workout Entries" and "Recent Nutrition Entries": the loaded
    table, and the row of the form when the button was clicked. *)
Definition recent_workout_entries {New} (workouts_df : list WorkoutRecord)
    (new_row : option New) : result (recent_view WorkoutRecord New) :=
  match workouts_df, new_row with
  | [], None => Ok (recent_info "No workouts logged yet.")
  | _, _ => rows ← recent w_date workouts_df new_row;
            Ok (recent_dataframe rows)
  end.

Definition recent_nutrition_entries {New}
    (nutrition_df : list NutritionRecord) (new_row : option New)
    : result (recent_view NutritionRecord New) :=
  match nutrition_df, new_row with
  | [], None => Ok (recent_info "No nutrition entries yet.")
  | _, _ => rows ← recent n_date nutrition_df new_row;
            Ok (recent_dataframe rows)
  end.

(** ** The select box of "Workout History" *)

(** [Series.unique()]: the values in the order of their first occurrence. *)
Fixpoint unique_from (seen : list string) (l : list string) : list string :=
  match l with
  | [] => []
  | x :: l' =>
      if bool_decide (x ∈ seen) then unique_from seen l'
      else x :: unique_from (x :: seen) l'
  end.

Definition unique (l : list string) : list string := unique_from [] l.

(** [sorted(workouts_df["exercise"].dropna().unique())] *)
Definition exercises (workouts_df : list WorkoutRecord) : list string :=
  sort_by String.leb (unique (omap w_exercise workouts_df)).

(** [st.selectbox(label, options)]: the option the user points at, nothing
    when there is no option. *)
Definition selectbox (options : list string) (index : nat) : option string :=
  options !! index.

(** ** Page "Import / Export": the export *)

Inductive export_widget :=
| export_info (msg : string)
| download_button (file_name : string) (data : csv_file).

Definition export_workouts (workouts_df : DataFrame) : export_widget :=
  if negb (df_empty workouts_df) then
    download_button "workouts_export.csv" (to_csv workouts_df)
  else export_info "No workout data to export.".

Definition export_nutrition (nutrition_df : DataFrame) : export_widget :=
  if negb (df_empty nutrition_df) then
    download_button "nutrition_export.csv" (to_csv nutrition_df)
  else export_info "No nutrition data to export.".

(** * Properties *)

(** A text is none of the texts of a list given in full. *)
Ltac not_in_list :=
  let H := fresh in
  intros H;
  repeat (apply elem_of_cons in H as [H|H]; [discriminate H|]);
  by apply elem_of_nil in H.

(** ** Sorting *)

Section SortingFacts.
Context {A : Type} (le : A → A → bool).
Hypothesis le_total : ∀ x y, le x y = true ∨ le y x = true.
Hypothesis le_trans : ∀ x y z, le x y = true → le y z = true → le x z = true.

Lemma insert_sorted_perm x l : insert_sorted le x l ≡ₚ x :: l.
Proof.
  induction l as [|y l IH]; simpl; [done|].
  destruct (le x y); [done|]. rewrite IH. apply perm_swap.
Qed.

Lemma sort_by_perm l : sort_by le l ≡ₚ l.
Proof.
  induction l as [|x l IH]; simpl; [done|].
  rewrite insert_sorted_perm. by rewrite IH.
Qed.

Lemma sort_by_nil l : sort_by le l = [] ↔ l = [].
Proof.
  split; [|by intros ->].
  intros H. apply Permutation_nil_r. rewrite <- H. by rewrite sort_by_perm.
Qed.

Lemma insert_sorted_sorted x l :
  StronglySorted (fun a b => le a b = true) l →
  StronglySorted (fun a b => le a b = true) (insert_sorted le x l).
Proof using le_total le_trans.
  induction 1 as [|y l Hs IH Hall]; simpl.
  - repeat constructor.
  - destruct (le x y) eqn:E.
    + constructor; [by constructor|]. constructor; [done|].
      eapply Forall_impl; [exact Hall|]. intros z Hz. by eapply le_trans.
    + constructor; [done|].
      rewrite insert_sorted_perm. constructor; [|done].
      destruct (le_total x y); congruence.
Qed.

Lemma sort_by_sorted l :
  StronglySorted (fun a b => le a b = true) (sort_by le l).
Proof using le_total le_trans.
  induction l; simpl; [constructor|by apply insert_sorted_sorted].
Qed.

(** A stable sort commutes with the selection of rows. *)
Lemma filter_insert_sorted (p : A → bool) x l :
  StronglySorted (fun a b => le a b = true) l →
  List.filter p (insert_sorted le x l) =
  if p x then insert_sorted le x (List.filter p l) else List.filter p l.
Proof using le_trans.
  induction 1 as [|y l Hs IH Hall]; simpl.
  - by destruct (p x).
  - destruct (le x y) eqn:E; simpl.
    + destruct (p x) eqn:Px, (p y) eqn:Py; simpl; rewrite ?E; try done.
      destruct (List.filter p l) as [|z l'] eqn:Hf; [done|]. simpl.
      assert (Hz : z ∈ l).
      { apply list_elem_of_In, (proj1 (filter_In p z l)).
        rewrite Hf. by left. }
      rewrite Forall_forall in Hall.
      by rewrite (le_trans x y z E (Hall z Hz)).
    + rewrite IH. destruct (p x) eqn:Px, (p y) eqn:Py; simpl; rewrite ?E; done.
Qed.

Lemma filter_sort_by (p : A → bool) l :
  List.filter p (sort_by le l) = sort_by le (List.filter p l).
Proof using le_total le_trans.
  induction l as [|x l IH]; simpl; [done|].
  rewrite filter_insert_sorted by apply sort_by_sorted.
  rewrite IH. by destruct (p x).
Qed.
End SortingFacts.

Lemma StronglySorted_weaken {A} (R R' : A → A → Prop) l :
  (∀ a b, R a b → R' a b) → StronglySorted R l → StronglySorted R' l.
Proof.
  intros HR. induction 1 as [|x l Hs IH Hall]; constructor; [done|].
  eapply Forall_impl; [exact Hall|]. intros y. apply HR.
Qed.

Lemma key_le_total asc a b : key_le asc a b = true ∨ key_le asc b a = true.
Proof.
  destruct a as [x|], b as [y|], asc; simpl; auto;
    destruct (Z.leb_spec x y), (Z.leb_spec y x); auto; lia.
Qed.

Lemma key_le_trans asc a b c :
  key_le asc a b = true → key_le asc b c = true → key_le asc a c = true.
Proof.
  destruct a as [x|], b as [y|], c as [z|], asc; simpl; try done;
    rewrite !Z.leb_le; lia.
Qed.

Section SortValuesFacts.
Context {A : Type} (key : A → option Z) (ascending : bool).

Lemma sort_values_perm df : sort_values key ascending df ≡ₚ df.
Proof. apply sort_by_perm. Qed.

Lemma sort_values_nil df : sort_values key ascending df = [] ↔ df = [].
Proof. apply sort_by_nil. Qed.

Lemma sort_values_sorted df :
  StronglySorted (fun r1 r2 => key_le ascending (key r1) (key r2) = true)
    (sort_values key ascending df).
Proof.
  apply sort_by_sorted; intros; [apply key_le_total|by eapply key_le_trans].
Qed.

Lemma filter_sort_values (p : A → bool) df :
  List.filter p (sort_values key ascending df) =
  sort_values key ascending (List.filter p df).
Proof.
  apply filter_sort_by; intros; [apply key_le_total|by eapply key_le_trans].
Qed.
End SortValuesFacts.

(** ** The progress analysis *)

Lemma iloc_first {A} (x : A) l : iloc (x :: l) 0 = Ok x.
Proof.
  unfold iloc. cbv zeta. change (0 <? 0) with false. cbv iota.
  replace ((0 <=? 0) && (0 <? Z.of_nat (length (x :: l)))) with true; [done|].
  symmetry. apply andb_true_iff. split; [done|]. apply Z.ltb_lt. simpl. lia.
Qed.

Lemma iloc_last {A} (l : list A) x : last l = Some x → iloc l (-1) = Ok x.
Proof.
  intros Hl. unfold iloc. cbv zeta. change (-1 <? 0) with true. cbv iota.
  assert (Hn : (0 < length l)%nat).
  { destruct l; [done|simpl; lia]. }
  replace ((0 <=? Z.of_nat (length l) + -1) &&
           (Z.of_nat (length l) + -1 <? Z.of_nat (length l))) with true.
  - replace (Z.to_nat (Z.of_nat (length l) + -1)) with (pred (length l)) by lia.
    by rewrite <- last_lookup, Hl.
  - symmetry. apply andb_true_iff. split; [apply Z.leb_le|apply Z.ltb_lt]; lia.
Qed.

Lemma iloc_nil {A} i : iloc (@nil A) i = Raise IndexError.
Proof.
  unfold iloc. cbv zeta. simpl length.
  destruct (_ && _) eqn:E; [|done]. exfalso.
  apply andb_true_iff in E as [E1 E2].
  apply Z.leb_le in E1. apply Z.ltb_lt in E2.
  destruct (Z.ltb_spec i 0); lia.
Qed.

Lemma dropna_weight_Forall df :
  Forall (fun r => is_Some (w_weight r)) (dropna_weight df).
Proof.
  apply Forall_forall. intros r Hr. apply list_elem_of_In in Hr.
  apply filter_In in Hr as [_ Hr]. by apply bool_decide_eq_true in Hr.
Qed.

Lemma plot_df_spec_history df sel : plot_df df sel = spec_history df sel.
Proof. apply filter_sort_values. Qed.

(** The stats of a non-empty history whose weights are all present. *)
Lemma simple_stats_Some plot first lst a b :
  head plot = Some first → last plot = Some lst →
  w_weight first = Some a → w_weight lst = Some b →
  simple_stats plot =
  Ok {| start_weight := Some a; current_weight := Some b;
        change := Some (b - a)%Q;
        pct_change := Some (if Qeq_bool a 0 then 0
                            else (b - a) / a * 100)%Q |}.
Proof.
  intros Hh Hl Ha Hb. unfold simple_stats.
  destruct plot as [|r plot]; [done|]. simpl in Hh. injection Hh as ->.
  cbn [map]. rewrite (iloc_first (w_weight first)). cbn [mbind result_bind].
  rewrite (iloc_last (w_weight first :: map w_weight plot) (Some b)).
  2:{ change (last (w_weight <$> first :: plot) = Some (Some b)).
      rewrite fmap_last, Hl. simpl. by rewrite Hb. }
  cbn [mbind result_bind]. rewrite Ha. unfold fne0, fdiv, fmul, fsub. simpl.
  by destruct (Qeq_bool a 0).
Qed.

Lemma nonempty_head_last {A} (l : list A) :
  l ≠ [] → ∃ x y, head l = Some x ∧ last l = Some y.
Proof.
  destruct l as [|x l]; [done|]. intros _.
  destruct (last (x :: l)) as [y|] eqn:E; [by eauto|].
  by apply last_None in E.
Qed.

Lemma workout_history_page_stats df sel s :
  plot_df df sel ≠ [] → simple_stats (plot_df df sel) = Ok s →
  workout_history_page df sel = Ok (history_widgets df sel s).
Proof.
  intros Hne Hs. unfold workout_history_page, history_widgets.
  assert (Hf : filtered df sel ≠ []).
  { intros E. apply Hne. unfold plot_df. by rewrite E. }
  assert (Hd : df ≠ []).
  { intros ->. by apply Hf. }
  destruct df as [|r0 df0]; [done|]. cbn [empty].
  destruct (filtered (r0 :: df0) sel) as [|f0 fs] eqn:Ef; [done|].
  cbn [empty].
  assert (Hp : plot_df (r0 :: df0) sel = dropna_weight (f0 :: fs)).
  { unfold plot_df. by rewrite Ef. }
  rewrite <- Hp. destruct (plot_df (r0 :: df0) sel) as [|p0 ps] eqn:Ep; [done|].
  cbn [empty negb]. rewrite Hs. done.
Qed.

(** A non-empty [plot_df] has a first and a last entry, both with a weight,
    and the page computes and shows the stats from them. *)
Lemma plot_df_stats df sel :
  plot_df df sel ≠ [] →
  ∃ first lst a b,
    head (plot_df df sel) = Some first ∧ last (plot_df df sel) = Some lst ∧
    w_weight first = Some a ∧ w_weight lst = Some b ∧
    let s := {| start_weight := Some a; current_weight := Some b;
                change := Some (b - a)%Q;
                pct_change := Some (if Qeq_bool a 0 then 0
                                    else (b - a) / a * 100)%Q |} in
    simple_stats (plot_df df sel) = Ok s ∧
    workout_history_page df sel = Ok (history_widgets df sel s).
Proof.
  intros Hne. destruct (nonempty_head_last _ Hne) as (first & lst & Hh & Hl).
  assert (Hall := dropna_weight_Forall (filtered df sel)).
  fold (plot_df df sel) in Hall. rewrite Forall_forall in Hall.
  destruct (Hall first) as [a Ha]; [by eapply head_Some_elem_of|].
  destruct (Hall lst) as [b Hb]; [by eapply last_Some_elem_of|].
  exists first, lst, a, b. repeat split; try done.
  - by apply simple_stats_Some with first lst.
  - apply workout_history_page_stats; [done|].
    by apply simple_stats_Some with first lst.
Qed.

(** ** The empty history *)

Lemma plot_df_nil_iff df sel :
  plot_df df sel = [] ↔
  ∀ r, r ∈ df → exercise_eq (w_exercise r) sel = true → w_weight r = None.
Proof.
  rewrite plot_df_spec_history. unfold spec_history.
  rewrite sort_values_nil. unfold dropna_weight. split.
  - intros Hnil r Hr He.
    destruct (w_weight r) as [w|] eqn:Hw; [exfalso|done].
    assert (Hin : In r (List.filter
                          (fun r => bool_decide (is_Some (w_weight r)))
                          (List.filter
                             (fun r => exercise_eq (w_exercise r) sel) df))).
    { apply filter_In. split.
      - apply filter_In. split; [by apply list_elem_of_In|done].
      - apply bool_decide_eq_true. rewrite Hw. by eexists. }
    by rewrite Hnil in Hin.
  - intros Hall.
    destruct (List.filter _ (List.filter _ df)) as [|r l] eqn:E; [done|].
    exfalso. assert (Hin : In r (r :: l)) by (by left).
    rewrite <- E in Hin. apply filter_In in Hin as [Hin Hw].
    apply filter_In in Hin as [Hin He].
    apply bool_decide_eq_true in Hw. apply list_elem_of_In in Hin.
    rewrite (Hall r Hin He) in Hw. by destruct Hw.
Qed.

(** C8.  When no matching row with a weight remains, the page tells its
    caller so with one of its three messages and shows no stats.  The first
    and last access on an empty series would raise IndexError; the page
    never reaches it: it raises on no table and no label. *)
Theorem empty_history_signalled :
  (∀ df sel,
     (∀ r, r ∈ df → exercise_eq (w_exercise r) sel = true →
           w_weight r = None) →
     workout_history_page df sel = Ok [st_info no_workouts_msg] ∨
     workout_history_page df sel = Ok [st_warning no_data_msg] ∨
     workout_history_page df sel =
       Ok [st_subheader ("Weight Progress for: " +:+ default "None" sel);
           st_info no_weight_msg;
           st_subheader "History Table";
           st_dataframe_workouts
             (sort_values w_date false (filtered df sel))]) ∧
  simple_stats [] = Raise IndexError ∧
  (∀ df sel, ∃ ws, workout_history_page df sel = Ok ws).
Proof.
  split; [|split].
  - intros df sel Hall. apply plot_df_nil_iff in Hall.
    unfold workout_history_page.
    destruct df as [|r0 df0]; [by left|]. cbn [empty]. right.
    destruct (filtered (r0 :: df0) sel) as [|f0 fs] eqn:Ef; [by left|].
    cbn [empty]. right. unfold plot_df in Hall. rewrite Ef in Hall.
    by rewrite Hall.
  - unfold simple_stats. cbn [map]. by rewrite iloc_nil.
  - intros df sel.
    destruct (decide (plot_df df sel = [])) as [Hnil|Hne].
    + unfold workout_history_page.
      destruct df as [|r0 df0]; [by eexists|]. cbn [empty].
      destruct (filtered (r0 :: df0) sel) as [|f0 fs] eqn:Ef; [by eexists|].
      cbn [empty]. unfold plot_df in Hnil. rewrite Ef in Hnil.
      rewrite Hnil. by eexists.
    + destruct (plot_df_stats df sel Hne) as (? & ? & ? & ? & _ & _ & _ & _ & H).
      destruct H as [_ H]. eauto.
Qed.

Lemma empty_history_signalled_witness :
  workout_history_page
    [{| w_date := Some 19723; w_exercise := Some "Bench"; w_sets := None;
        w_reps := None; w_weight := None; w_notes := None |}]
    (Some "Bench") =
  Ok [st_subheader "Weight Progress for: Bench"; st_info no_weight_msg;
      st_subheader "History Table";
      st_dataframe_workouts
        [{| w_date := Some 19723; w_exercise := Some "Bench"; w_sets := None;
            w_reps := None; w_weight := None; w_notes := None |}]].
Proof.
  destruct (proj1 empty_history_signalled
    [{| w_date := Some 19723; w_exercise := Some "Bench"; w_sets := None;
        w_reps := None; w_weight := None; w_notes := None |}]
    (Some "Bench")) as [H|[H|H]].
  - intros r Hr _. apply list_elem_of_singleton in Hr. by subst r.
  - discriminate H.
  - discriminate H.
  - exact H.
Defined.

(** ** Rows without a date in the history *)

Section NaTLast.
Context {A : Type} (key : A → option Z) (ascending : bool).
Let le := fun r1 r2 : A => key_le ascending (key r1) (key r2).

Lemma insert_sorted_NaT x dated undated :
  key x = None →
  Forall (fun r => is_Some (key r)) dated →
  Forall (fun r => key r = None) undated →
  insert_sorted le x (dated ++ undated) = dated ++ x :: undated.
Proof.
  intros Hx Hd Hu. induction Hd as [|a dated [d Ha] _ IH]; simpl.
  - destruct Hu as [|y undated Hy _]; [done|].
    simpl. unfold le. by rewrite Hx, Hy.
  - unfold le at 1. rewrite Hx, Ha. simpl. by rewrite IH.
Qed.

Lemma insert_sorted_dated x dated undated :
  is_Some (key x) →
  Forall (fun r => key r = None) undated →
  insert_sorted le x (dated ++ undated) =
  insert_sorted le x dated ++ undated.
Proof.
  intros [d Hx] Hu. induction dated as [|a dated IH]; simpl.
  - destruct Hu as [|y undated Hy _]; [done|].
    simpl. unfold le. by rewrite Hx, Hy.
  - destruct (le x a); [done|]. simpl. by rewrite IH.
Qed.

(** After [sort_values] the rows with a date come first, in date order;
    the rows without a date follow, in the order the table had them. *)
Lemma sort_values_NaT_last df :
  sort_values key ascending df =
  sort_values key ascending
    (List.filter (fun r => bool_decide (is_Some (key r))) df) ++
  List.filter (fun r => bool_decide (key r = None)) df.
Proof.
  induction df as [|x df IH]; [done|].
  change (sort_values key ascending (x :: df))
    with (insert_sorted le x (sort_values key ascending df)).
  rewrite IH. simpl. destruct (key x) as [d|] eqn:Hx.
  - rewrite bool_decide_eq_true_2 by (by eexists).
    rewrite bool_decide_eq_false_2 by done.
    apply insert_sorted_dated; [by rewrite Hx|].
    apply Forall_forall. intros r Hr. apply list_elem_of_In in Hr.
    apply filter_In in Hr as [_ Hr]. by apply bool_decide_eq_true in Hr.
  - rewrite bool_decide_eq_false_2 by (by intros [? ?]).
    rewrite bool_decide_eq_true_2 by done.
    apply insert_sorted_NaT; [done| |].
    + apply Forall_forall. intros r Hr. apply list_elem_of_In in Hr.
      apply (Permutation_in _ (sort_values_perm _ _ _)) in Hr.
      apply filter_In in Hr as [_ Hr]. by apply bool_decide_eq_true in Hr.
    + apply Forall_forall. intros r Hr. apply list_elem_of_In in Hr.
      apply filter_In in Hr as [_ Hr]. by apply bool_decide_eq_true in Hr.
Qed.
End NaTLast.

(** C10.  A matching row with a weight and no date stays in the history; the
    history is the dated rows in date order followed by the undated ones, so
    its last entry has no date, and the current weight, the delta and the
    percent change are computed from that entry. *)
Theorem undated_row_is_current df sel r :
  r ∈ df → exercise_eq (w_exercise r) sel = true →
  w_date r = None → is_Some (w_weight r) →
  r ∈ plot_df df sel ∧
  plot_df df sel =
    sort_values w_date true
      (List.filter (fun r => bool_decide (is_Some (w_date r)))
         (dropna_weight
            (List.filter (fun r => exercise_eq (w_exercise r) sel) df))) ++
    List.filter (fun r => bool_decide (w_date r = None))
      (dropna_weight
         (List.filter (fun r => exercise_eq (w_exercise r) sel) df)) ∧
  ∃ first lst a b,
    head (plot_df df sel) = Some first ∧ last (plot_df df sel) = Some lst ∧
    lst ∈ df ∧ w_date lst = None ∧
    w_weight first = Some a ∧ w_weight lst = Some b ∧
    let s := {| start_weight := Some a; current_weight := Some b;
                change := Some (b - a)%Q;
                pct_change := Some (if Qeq_bool a 0 then 0
                                    else (b - a) / a * 100)%Q |} in
    simple_stats (plot_df df sel) = Ok s ∧
    workout_history_page df sel = Ok (history_widgets df sel s).
Proof.
  intros Hr He Hd Hw.
  set (M := dropna_weight
              (List.filter (fun r => exercise_eq (w_exercise r) sel) df)).
  assert (HrM : In r M).
  { apply filter_In. split.
    - apply filter_In. split; [by apply list_elem_of_In|done].
    - by apply bool_decide_eq_true. }
  assert (Hsplit : plot_df df sel =
    sort_values w_date true
      (List.filter (fun r => bool_decide (is_Some (w_date r))) M) ++
    List.filter (fun r => bool_decide (w_date r = None)) M).
  { rewrite plot_df_spec_history. apply sort_values_NaT_last. }
  assert (Hin : r ∈ plot_df df sel).
  { rewrite plot_df_spec_history. apply list_elem_of_In.
    apply (Permutation_in _ (Permutation_sym (sort_values_perm _ _ _))), HrM. }
  split; [done|]. split; [done|].
  assert (Hne : plot_df df sel ≠ []) by (intros E; rewrite E in Hin; set_solver).
  destruct (plot_df_stats df sel Hne)
    as (first & lst & a & b & Hh & Hl & Ha & Hb & Hs & Hp).
  exists first, lst, a, b. repeat split; try done.
  - apply last_Some_elem_of in Hl. rewrite plot_df_spec_history in Hl.
    apply list_elem_of_In in Hl.
    apply (Permutation_in _ (sort_values_perm _ _ _)) in Hl.
    apply filter_In in Hl as [Hl _]. apply filter_In in Hl as [Hl _].
    by apply list_elem_of_In.
  - rewrite Hsplit in Hl.
    assert (Hu : List.filter (fun r => bool_decide (w_date r = None)) M ≠ []).
    { intros E. assert (Hr' : In r (List.filter
                       (fun r => bool_decide (w_date r = None)) M)).
      { apply filter_In. split; [done|by apply bool_decide_eq_true]. }
      by rewrite E in Hr'. }
    rewrite last_app in Hl.
    destruct (last (List.filter _ M)) as [y|] eqn:Ey.
    + injection Hl as <-. apply last_Some_elem_of, list_elem_of_In in Ey.
      apply filter_In in Ey as [_ Ey]. by apply bool_decide_eq_true in Ey.
    + by apply last_None in Ey.
Qed.

Lemma undated_row_is_current_witness :
  let undated := {| w_date := None; w_exercise := Some "Bench";
                    w_sets := None; w_reps := None;
                    w_weight := Some 200%Q; w_notes := None |} in
  last (plot_df [undated; bench 19723 135; bench 19724 145] (Some "Bench"))
  = Some undated.
Proof.
  intros undated.
  destruct (undated_row_is_current
              [undated; bench 19723 135; bench 19724 145] (Some "Bench")
              undated) as (_ & Hsplit & _).
  - set_solver.
  - reflexivity.
  - reflexivity.
  - by eexists.
  - rewrite Hsplit. reflexivity.
Defined.

(** ** Calendar periods *)

Lemma yoe_bounds doe : 0 <= doe < 146097 -> 0 <= yoe_of doe < 400.
Proof. unfold yoe_of. intros. Z.div_mod_to_equations; lia. Qed.

Lemma yoe_of_spec doe : 0 <= doe < 146097 ->
  year_start (yoe_of doe) <= doe < year_start (yoe_of doe) + 366.
Proof. unfold yoe_of, year_start. intros. Z.div_mod_to_equations; lia. Qed.

Lemma yoe_of_next doe : 0 <= doe < 146097 ->
  doe < year_start (yoe_of doe + 1) \/ yoe_of doe = 399.
Proof. unfold yoe_of, year_start. intros. Z.div_mod_to_equations; lia. Qed.

Lemma year_start_mono a b : a <= b -> year_start a <= year_start b.
Proof. unfold year_start. intros. Z.div_mod_to_equations; lia. Qed.

Lemma yoe_of_mono a b : 0 <= a <= b -> yoe_of a <= yoe_of b.
Proof. unfold yoe_of. intros. Z.div_mod_to_equations; lia. Qed.

Lemma yoe_unique doe doe' : 0 <= doe' <= doe -> doe < 146097 ->
  year_start (yoe_of doe) <= doe' -> yoe_of doe' = yoe_of doe.
Proof.
  intros H1 H2 H3.
  assert (Hm := yoe_of_mono doe' doe ltac:(lia)).
  assert (Hs := yoe_of_spec doe' ltac:(lia)).
  assert (Hn := yoe_of_next doe' ltac:(lia)).
  assert (Hb := yoe_bounds doe ltac:(lia)).
  destruct (Z.eq_dec (yoe_of doe') (yoe_of doe)) as [|Hne]; [assumption|exfalso].
  assert (Hlt : yoe_of doe' + 1 <= yoe_of doe) by lia.
  apply year_start_mono in Hlt. lia.
Qed.

Lemma mp_bounds doy : 0 <= doy <= 365 ->
  0 <= mp_of doy <= 11 /\ 0 <= doy - month_offset (mp_of doy) <= 30.
Proof. unfold mp_of, month_offset. intros. Z.div_mod_to_equations; lia. Qed.

Lemma mp_of_month_offset mp : 0 <= mp <= 11 -> mp_of (month_offset mp) = mp.
Proof. unfold mp_of, month_offset. intros. Z.div_mod_to_equations; lia. Qed.

Lemma month_offset_bounds mp : 0 <= mp <= 11 -> 0 <= month_offset mp <= 337.
Proof. unfold month_offset. intros. Z.div_mod_to_equations; lia. Qed.

(** The parts of a day number. *)
Lemma civil_parts z :
  let era := (z + 719468) / 146097 in
  let doe := (z + 719468) mod 146097 in
  let yoe := yoe_of doe in
  let doy := doe - year_start yoe in
  let mp := mp_of doy in
  z = era * 146097 + doe - 719468 /\ 0 <= doe < 146097 /\
  0 <= yoe < 400 /\ 0 <= doy <= 365 /\ 0 <= mp <= 11 /\
  0 <= doy - month_offset mp <= 30.
Proof.
  intros era doe yoe doy mp.
  assert (Hdoe : 0 <= doe < 146097) by (apply Z.mod_pos_bound; lia).
  assert (Hz : z = era * 146097 + doe - 719468).
  { unfold era, doe. pose proof (Z.div_mod (z + 719468) 146097). lia. }
  assert (Hyoe := yoe_bounds doe Hdoe).
  assert (Hspec := yoe_of_spec doe Hdoe).
  assert (Hdoy : 0 <= doy <= 365) by (unfold doy, yoe; lia).
  destruct (mp_bounds doy Hdoy) as [Hmp Hd].
  unfold mp. repeat split; try assumption; lia.
Qed.

Lemma civil_from_days_range z y m d :
  civil_from_days z = (y, m, d) -> 1 <= m <= 12 /\ 1 <= d <= 31.
Proof.
  unfold civil_from_days. cbv zeta.
  destruct (civil_parts z) as (_ & _ & _ & _ & Hmp & Hd).
  intros H. injection H as _ <- <-.
  destruct (Z.ltb_spec (mp_of ((z + 719468) mod 146097 -
              year_start (yoe_of ((z + 719468) mod 146097)))) 10); lia.
Qed.

Lemma days_from_civil_parts era yoe mp d :
  0 <= yoe < 400 -> 0 <= mp <= 11 ->
  let m := if mp <? 10 then mp + 3 else mp - 9 in
  let y := if m <=? 2 then yoe + era * 400 + 1 else yoe + era * 400 in
  days_from_civil y m d =
  era * 146097 + (year_start yoe + (month_offset mp + (d - 1))) - 719468.
Proof.
  intros Hyoe Hmp m y. unfold days_from_civil.
  assert (Hy : (if m <=? 2 then y - 1 else y) = yoe + era * 400).
  { unfold y. destruct (m <=? 2); lia. }
  assert (Hm : (if 2 <? m then m - 3 else m + 9) = mp).
  { unfold m. destruct (Z.ltb_spec mp 10);
      match goal with |- context [2 <? ?x] => destruct (Z.ltb_spec 2 x) end; lia. }
  rewrite Hy, Hm.
  rewrite Z.div_add by lia. rewrite Z.mod_add by lia.
  rewrite Z.div_small, Z.mod_small by lia. reflexivity.
Qed.

Lemma days_from_civil_from_days z y m d :
  civil_from_days z = (y, m, d) -> days_from_civil y m 1 = z - (d - 1).
Proof.
  unfold civil_from_days. cbv zeta.
  destruct (civil_parts z) as (Hz & Hdoe & Hyoe & Hdoy & Hmp & Hd).
  intros H. injection H as <- <- <-.
  rewrite days_from_civil_parts by assumption. lia.
Qed.

Lemma civil_from_days_first z y m d :
  civil_from_days z = (y, m, d) -> civil_from_days (z - (d - 1)) = (y, m, 1).
Proof.
  unfold civil_from_days at 1. cbv zeta.
  destruct (civil_parts z) as (Hz & Hdoe & Hyoe & Hdoy & Hmp & Hd).
  set (era := (z + 719468) / 146097) in *.
  set (doe := (z + 719468) mod 146097) in *.
  set (yoe := yoe_of doe) in *.
  set (doy := doe - year_start yoe) in *.
  set (mp := mp_of doy) in *.
  intros H. injection H as <- <- <-.
  assert (Hoff := month_offset_bounds mp Hmp).
  set (doe' := year_start yoe + month_offset mp).
  assert (Hys : 0 <= year_start yoe).
  { change 0 with (year_start 0) at 1. apply year_start_mono. lia. }
  assert (Hdoe' : 0 <= doe' <= doe) by (unfold doe', doy in *; lia).
  assert (Hz' : z - (doy - month_offset mp + 1 - 1) + 719468 = doe' + era * 146097).
  { unfold doe', doy. lia. }
  unfold civil_from_days. cbv zeta. rewrite Hz'.
  rewrite Z.div_add, Z.mod_add by lia.
  rewrite Z.div_small, Z.mod_small by lia. simpl (0 + era).
  assert (Hy' : yoe_of doe' = yoe).
  { apply yoe_unique; unfold doe'; fold yoe; lia. }
  rewrite Hy'. replace (doe' - year_start yoe) with (month_offset mp) by (unfold doe'; lia).
  rewrite mp_of_month_offset by assumption.
  replace (month_offset mp - month_offset mp + 1) with 1 by lia. reflexivity.
Qed.

Lemma month_start_eq z y m d :
  civil_from_days z = (y, m, d) -> month_start z = days_from_civil y m 1.
Proof.
  intros H. unfold month_start, to_period_M, start_time_M. rewrite H.
  destruct (civil_from_days_range _ _ _ _ H) as [Hm _].
  replace ((y - 1970) * 12 + (m - 1)) with ((m - 1) + (y - 1970) * 12) by lia.
  rewrite Z.div_add, Z.mod_add by lia.
  rewrite Z.div_small, Z.mod_small by lia. f_equal; lia.
Qed.

(** ** Grouping *)

Lemma insert_key_elem k ks x : x ∈ insert_key k ks ↔ x = k ∨ x ∈ ks.
Proof.
  induction ks as [|k' ks IH]; simpl.
  - rewrite list_elem_of_singleton, elem_of_nil. tauto.
  - destruct (Z.ltb_spec k k'); [apply elem_of_cons|].
    destruct (Z.eqb_spec k k') as [->|_].
    + rewrite elem_of_cons. tauto.
    + rewrite !elem_of_cons, IH. tauto.
Qed.

Lemma insert_key_sorted k ks :
  StronglySorted Z.lt ks → StronglySorted Z.lt (insert_key k ks).
Proof.
  induction 1 as [|k' ks Hs IH Hall]; simpl.
  - repeat constructor.
  - destruct (Z.ltb_spec k k').
    + constructor; [by constructor|]. constructor; [done|].
      eapply Forall_impl; [exact Hall|]. intros; simpl in *; lia.
    + destruct (Z.eqb_spec k k'); [by constructor|].
      constructor; [done|]. apply Forall_forall. intros x Hx.
      apply insert_key_elem in Hx as [->|Hx]; [lia|].
      rewrite Forall_forall in Hall. by apply Hall.
Qed.

Lemma group_keys_elem keys k : k ∈ group_keys keys ↔ Some k ∈ keys.
Proof.
  unfold group_keys. induction keys as [|[k'|] keys IH]; simpl.
  - rewrite !elem_of_nil. tauto.
  - rewrite insert_key_elem, IH, elem_of_cons.
    split; (intros [H|H]; [left; congruence|by right]).
  - rewrite IH, elem_of_cons. split; [by right|]. by intros [H|H].
Qed.

Lemma group_keys_sorted keys : StronglySorted Z.lt (group_keys keys).
Proof.
  unfold group_keys. induction keys as [|[k'|] keys IH]; simpl;
    [constructor|by apply insert_key_sorted|done].
Qed.

Lemma StronglySorted_lt_NoDup ks : StronglySorted Z.lt ks → NoDup ks.
Proof.
  induction 1 as [|k ks Hs IH Hall]; constructor; [|done].
  intros Hk. rewrite Forall_forall in Hall. specialize (Hall k Hk). lia.
Qed.

Lemma zip_map_self {A B} (f : A → B) l :
  zip l (map f l) = map (fun r => (r, f r)) l.
Proof. induction l; simpl; [done|by f_equal]. Qed.

Lemma group_rows_keyed {A} (f : A → option Z) k l :
  map fst (group_rows snd k (map (fun r => (r, f r)) l)) =
  List.filter (fun r => bool_decide (f r = Some k)) l.
Proof.
  unfold group_rows. induction l as [|r l IH]; simpl; [done|].
  destruct (bool_decide (f r = Some k)); simpl; by rewrite IH.
Qed.

(** ** The period column *)

Section PeriodColumn.
Variables (impl : apply_impl) (to_period start : Z → Z).
Let key := period_key (fun d => start (to_period d)).

Lemma apply_start_time_Ok df :
  impl = WholeIndexFirst ∨ Forall (fun r => is_Some (n_date r)) df →
  apply (fun r => start_time impl start (to_period <$> n_date r)) df =
  Ok (map key df).
Proof.
  intros H. induction df as [|r df IH]; simpl; [done|].
  assert (Hr : start_time impl start (to_period <$> n_date r) = Ok (key r)).
  { unfold key, period_key. destruct (n_date r) as [d|] eqn:E; simpl; [done|].
    destruct H as [->|H]; [done|].
    apply Forall_cons in H as [[? ?] _]. congruence. }
  rewrite Hr. cbn [mbind result_bind]. rewrite IH; [done|].
  destruct H as [H|H]; [by left|right]. by apply Forall_cons in H as [_ H].
Qed.

Lemma apply_start_time_inv df col :
  apply (fun r => start_time impl start (to_period <$> n_date r)) df
  = Ok col →
  impl = WholeIndexFirst ∨ Forall (fun r => is_Some (n_date r)) df.
Proof.
  destruct (decide (impl = WholeIndexFirst)) as [|Hi]; [by left|]. right.
  revert col H. induction df as [|r df IH]; intros col H; [constructor|].
  simpl in H. destruct (n_date r) as [d|] eqn:E; simpl in H.
  - destruct (apply _ df) as [col'|] eqn:E'; [|done].
    constructor; [by rewrite E|by eapply IH].
  - by destruct impl.
Qed.

Lemma period_averages_eq df :
  impl = WholeIndexFirst ∨ Forall (fun r => is_Some (n_date r)) df →
  period_averages impl to_period start df =
  Ok (sort_values (fun a => Some (period_start a)) false
        (map (fun k => averages_of k
                         (bucket_rows (fun d => start (to_period d)) k df))
           (group_keys (map key df)))).
Proof.
  intros H. unfold period_averages, period_column.
  rewrite (apply_start_time_Ok df H). cbn [mbind result_bind].
  rewrite zip_map_self. unfold groupby. rewrite !map_map. simpl.
  do 2 f_equal. apply map_ext. intros k. unfold bucket_rows.
  by rewrite group_rows_keyed.
Qed.

Lemma period_averages_inv df out :
  period_averages impl to_period start df = Ok out →
  impl = WholeIndexFirst ∨ Forall (fun r => is_Some (n_date r)) df.
Proof.
  unfold period_averages, period_column. intros H.
  destruct (apply _ df) as [col|] eqn:E; [|done].
  by eapply apply_start_time_inv.
Qed.
End PeriodColumn.

(** ** Means do not depend on the order of the rows *)

Lemma Qsum_perm xs ys : xs ≡ₚ ys → (Qsum xs == Qsum ys)%Q.
Proof.
  induction 1 as [|x xs ys _ IH|x y xs|xs ys zs _ IH1 _ IH2]; simpl.
  - reflexivity.
  - by rewrite IH.
  - ring.
  - by rewrite IH1.
Qed.

Lemma rint_Qeq q q' : (q == q')%Q → rint q = rint q'.
Proof.
  intros H. unfold rint. rewrite (Qfloor_comp _ _ H).
  assert (Hc : ((q - inject_Z (Qfloor q') ?= 1 # 2) =
                (q' - inject_Z (Qfloor q') ?= 1 # 2))%Q).
  { apply Qcompare_comp; [by rewrite H|reflexivity]. }
  by rewrite Hc.
Qed.

Lemma round1_Qeq q q' : (q == q')%Q → round1 q = round1 q'.
Proof.
  intros H. unfold round1. f_equal. apply rint_Qeq. by rewrite H.
Qed.

Lemma round_1_mean_perm (xs ys : list float) :
  xs ≡ₚ ys → round_1 (mean xs) = round_1 (mean ys).
Proof.
  intros H. unfold mean.
  assert (Hp : omap id xs ≡ₚ omap id ys) by (by rewrite H).
  assert (Hl := Permutation_length Hp). assert (Hs := Qsum_perm _ _ Hp).
  destruct (omap id xs) as [|x xs'], (omap id ys) as [|y ys']; try done.
  unfold round_1. cbn [fmap option_fmap option_map]. f_equal.
  apply round1_Qeq. rewrite Hs. by rewrite Hl.
Qed.

Lemma averages_of_perm k rows rows' :
  rows ≡ₚ rows' → averages_of k rows = averages_of k rows'.
Proof.
  intros H. unfold averages_of.
  f_equal; apply round_1_mean_perm; by apply Permutation_map.
Qed.

Lemma filter_perm {A} (p : A → bool) l l' :
  l ≡ₚ l' → List.filter p l ≡ₚ List.filter p l'.
Proof.
  induction 1 as [|x xs ys _ IH|x y xs|xs ys zs _ IH1 _ IH2]; simpl.
  - done.
  - destruct (p x); by rewrite IH.
  - destruct (p x), (p y); try done. apply perm_swap.
  - by rewrite IH1.
Qed.

Lemma bucket_rows_sorted_df period_of k t :
  bucket_rows period_of k (sorted_df t) ≡ₚ bucket_rows period_of k t.
Proof. apply filter_perm, sort_values_perm. Qed.

Lemma bucket_rows_elem period_of k t r :
  r ∈ bucket_rows period_of k t ↔ r ∈ t ∧ period_key period_of r = Some k.
Proof.
  unfold bucket_rows. rewrite !list_elem_of_In, filter_In.
  by rewrite bool_decide_eq_true.
Qed.

(** ** The weekly and monthly tables *)

Lemma StronglySorted_strict (out : list Averages) :
  StronglySorted
    (fun a b => key_le false (Some (period_start a)) (Some (period_start b))
                = true) out →
  NoDup (map period_start out) →
  StronglySorted (fun a b => period_start b < period_start a) out.
Proof.
  induction 1 as [|a out Hs IH Hall]; intros Hnd; [constructor|].
  simpl in Hnd. apply NoDup_cons in Hnd as [Hna Hnd].
  constructor; [by apply IH|].
  apply Forall_forall. intros b Hb. rewrite Forall_forall in Hall.
  specialize (Hall b Hb). simpl in Hall. apply Z.leb_le in Hall.
  assert (period_start b ≠ period_start a); [|lia].
  intros E. apply Hna. rewrite <- E. by apply list_elem_of_fmap_2.
Qed.

(** The table of period averages, when the period column can be computed. *)
Lemma period_averages_table impl to_period start t :
  impl = WholeIndexFirst ∨ Forall (fun r => is_Some (n_date r)) t →
  ∃ out,
    period_averages impl to_period start (sorted_df t) = Ok out ∧
    period_table (fun d => start (to_period d)) t out.
Proof.
  intros H. set (period_of := fun d => start (to_period d)).
  assert (H' : impl = WholeIndexFirst ∨
               Forall (fun r => is_Some (n_date r)) (sorted_df t)).
  { destruct H as [H|H]; [by left|right].
    by rewrite (sort_values_perm n_date true t). }
  set (keys := group_keys (map (period_key period_of) (sorted_df t))).
  set (raw := map (fun k => averages_of k
                              (bucket_rows period_of k (sorted_df t))) keys).
  exists (sort_values (fun a => Some (period_start a)) false raw).
  split; [by apply period_averages_eq|].
  assert (Hperm := sort_values_perm (fun a => Some (period_start a)) false raw).
  assert (Hstarts : map period_start raw = keys).
  { unfold raw. rewrite map_map. simpl. apply map_id. }
  assert (Hkeys : ∀ k, k ∈ keys ↔
                       ∃ r, r ∈ t ∧ period_key period_of r = Some k).
  { intros k. unfold keys. rewrite group_keys_elem.
    change (map (period_key period_of) (sorted_df t))
      with (period_key period_of <$> sorted_df t).
    rewrite list_elem_of_fmap. unfold sorted_df.
    setoid_rewrite (sort_values_perm n_date true t).
    split; intros (r & H1 & H2); exists r; by split. }
  assert (Hout : ∀ b, b ∈ sort_values (fun a => Some (period_start a)) false raw
                  → period_start b ∈ keys ∧
                    b = averages_of (period_start b)
                          (bucket_rows period_of (period_start b) t)).
  { intros b Hb. rewrite Hperm in Hb. unfold raw in Hb.
    change (b ∈ (fun k => averages_of k
                   (bucket_rows period_of k (sorted_df t))) <$> keys) in Hb.
    apply list_elem_of_fmap in Hb as (k & -> & Hk). simpl. split; [done|].
    apply averages_of_perm, bucket_rows_sorted_df. }
  split; [|split].
  - intros r d Hr Hd. rewrite Hperm, Hstarts. apply Hkeys.
    exists r. split; [done|]. unfold period_key. by rewrite Hd.
  - intros b Hb. destruct (Hout b Hb) as [Hk Hb']. split; [|done].
    apply Hkeys in Hk as (r & Hr & Hkr). intros E.
    assert (Hin : r ∈ bucket_rows period_of (period_start b) t)
      by (by apply bucket_rows_elem).
    rewrite E in Hin. by apply not_elem_of_nil in Hin.
  - apply StronglySorted_strict; [apply sort_values_sorted|].
    rewrite Hperm, Hstarts. apply StronglySorted_lt_NoDup, group_keys_sorted.
Qed.

(** ** Missing metric values *)

Lemma omap_id_map {A B} (f : A → option B) l : omap id (map f l) = omap f l.
Proof.
  induction l as [|x l IH]; [done|].
  cbn [map omap list_omap id]. rewrite <- IH. by destruct (f x).
Qed.

Lemma averages_of_metric k rows m :
  m ∈ metrics → m.2 (averages_of k rows) = round_1 (mean (map m.1 rows)).
Proof.
  unfold metrics. rewrite !elem_of_cons, elem_of_nil.
  intros [->|[->|[->|[->|[->|[]]]]]]; reflexivity.
Qed.

Lemma period_averages_Ok_table impl to_period start t out :
  period_averages impl to_period start (sorted_df t) = Ok out →
  period_table (fun d => start (to_period d)) t out.
Proof.
  intros H.
  assert (Hc : impl = WholeIndexFirst ∨
               Forall (fun r => is_Some (n_date r)) t).
  { destruct (period_averages_inv _ _ _ _ _ H) as [Hc|Hc]; [by left|right].
    by rewrite <- (sort_values_perm n_date true t). }
  destruct (period_averages_table impl to_period start t Hc) as (out' & E & Ht).
  rewrite E in H. by injection H as <-.
Qed.

(** C9.  In every bucket of the weekly and of the monthly table, the mean of
    a metric is taken over the values of the bucket that are present: their
    sum divided by their number, rounded; with no value present the mean is
    absent, not zero. *)
Theorem bucket_mean_skips_absent impl t out period_of :
  (weekly impl t = Ok out ∧ period_of = week_start) ∨
  (monthly impl t = Ok out ∧ period_of = month_start) →
  ∀ b m, b ∈ out → m ∈ metrics →
    let present := omap m.1 (bucket_rows period_of (period_start b) t) in
    (present = [] → m.2 b = None) ∧
    (present ≠ [] →
     m.2 b = Some (round1 (Qsum present /
                           inject_Z (Z.of_nat (length present))))%Q).
Proof.
  intros H b m Hb Hm present.
  assert (Ht : period_table period_of t out).
  { destruct H as [[H ->]|[H ->]]; by apply period_averages_Ok_table in H. }
  destruct Ht as (_ & Hv & _). destruct (Hv b Hb) as [_ E].
  assert (Hval : m.2 b = round_1 (mean (map m.1
                   (bucket_rows period_of (period_start b) t)))).
  { rewrite <- (averages_of_metric (period_start b) _ _ Hm). by rewrite <- E. }
  rewrite Hval. unfold mean. rewrite omap_id_map. fold present.
  by destruct present.
Qed.

Lemma bucket_mean_skips_absent_witness :
  let t := [{| n_date := Some 19723; n_calories := Some 2000%Q;
               n_protein := None; n_carbs := None; n_fat := None;
               n_sugar := None; n_notes := None |};
            {| n_date := Some 19724; n_calories := None;
               n_protein := None; n_carbs := None; n_fat := None;
               n_sugar := None; n_notes := None |}] in
  let b := averages_of 19723 t in
  weekly WholeIndexFirst t = Ok [b] ∧
  avg_calories b = Some (round1 (2000 / 1))%Q ∧ avg_protein b = None.
Proof.
  intros t b.
  assert (Hw : weekly WholeIndexFirst t = Ok [b]) by reflexivity.
  assert (Hb : b ∈ [b]) by (by left).
  split; [done|]. split.
  - destruct (bucket_mean_skips_absent WholeIndexFirst t [b] week_start
                (or_introl (conj Hw eq_refl)) b (n_calories, avg_calories) Hb)
      as [_ H]; [by left|].
    apply H. discriminate.
  - destruct (bucket_mean_skips_absent WholeIndexFirst t [b] week_start
                (or_introl (conj Hw eq_refl)) b (n_protein, avg_protein) Hb)
      as [H _]; [by right; left|].
    apply H. reflexivity.
Defined.

(** ** The daily frame *)

Lemma daily_perm t : daily t ≡ₚ t.
Proof. unfold daily, sorted_df. by rewrite !sort_values_perm. Qed.

(** The daily frame of the specification's example has three lines, two of
    them for the same day: it is not a table of day buckets. *)
Lemma daily_not_bucketed :
  ¬ day_buckets example_nutrition (daily example_nutrition).
Proof.
  intros (Hnd & _). vm_compute in Hnd.
  apply NoDup_cons in Hnd as [_ Hnd]. apply NoDup_cons in Hnd as [Hn _].
  apply Hn. by left.
Qed.

(** C1, as the code has it.  The daily frame is not aggregated: it is the
    table itself, every row once and as it is, in the order of the dates,
    latest first, the rows without a date last.  Two rows of one day are two
    lines; nothing is averaged, summed or rounded.  So the set of its dates
    is the set of the valid dates of the table, and every metric sums over
    its lines to the total of its column, exactly. *)
Theorem daily_frame_is_the_table t :
  daily t ≡ₚ t ∧
  StronglySorted (fun a b => latest_first (n_date a) (n_date b)) (daily t) ∧
  (∀ d, Some d ∈ map n_date (daily t) ↔ Some d ∈ map n_date t) ∧
  (∀ m, m ∈ metrics → (Qsum (omap m.1 (daily t)) == Qsum (omap m.1 t))%Q).
Proof.
  assert (Hp := daily_perm t). split; [done|]. split; [|split].
  - eapply StronglySorted_weaken; [|apply sort_values_sorted].
    intros a b. unfold latest_first.
    destruct (n_date a), (n_date b); simpl; try done. apply Z.leb_le.
  - intros d. by rewrite Hp.
  - intros m _. apply Qsum_perm. by rewrite Hp.
Qed.

(** ** The record store: a missing file *)

(** C6.  Loading a path that does not exist raises nothing and gives the
    frame of the schema's columns, in order, with no row. *)
Theorem load_missing_file (fs : gmap string csv_file) path cols :
  fs !! path = None →
  ∃ df, load_csv fs path cols = Ok df ∧
        names df = cols ∧ nrows df = 0%nat ∧
        Forall (fun c => c.2 = []) (columns df).
Proof.
  intros H. exists (empty_frame cols). unfold load_csv. rewrite H.
  repeat split.
  - unfold names, empty_frame. simpl. rewrite map_map. apply map_id.
  - unfold empty_frame. simpl. apply Forall_forall. intros c Hc.
    change (c ∈ (fun c => (c, [])) <$> cols) in Hc.
    by apply list_elem_of_fmap in Hc as (? & -> & _).
Qed.

Lemma load_missing_file_witness :
  load_csv ∅ "workouts.csv" workout_cols = Ok (empty_frame workout_cols).
Proof.
  destruct (load_missing_file ∅ "workouts.csv" workout_cols)
    as (df & H & _); [apply lookup_empty|].
  rewrite H. f_equal. vm_compute in H. by injection H as <-.
Defined.

(** ** Schema coercion *)

Lemma find_col_Some cs col c : find_col cs col = Some c → c.1 = col ∧ c ∈ cs.
Proof.
  intros H. apply find_some in H as [Hin Heq].
  apply String.eqb_eq in Heq. split; [done|by apply list_elem_of_In].
Qed.

Lemma find_col_None cs col : find_col cs col = None ↔ col ∉ map fst cs.
Proof.
  unfold find_col. induction cs as [|c cs IH]; simpl.
  - split; [intros _; apply not_elem_of_nil|done].
  - destruct (String.eqb_spec c.1 col) as [->|Hne].
    + split; [done|]. intros H. exfalso. apply H. by left.
    + rewrite IH, not_elem_of_cons.
      split; [intros H; split; [congruence|done]|by intros [_ H]].
Qed.

Lemma has_column_find df col :
  has_column df col = bool_decide (is_Some (find_col (columns df) col)).
Proof.
  unfold has_column, names. apply bool_decide_ext.
  destruct (find_col (columns df) col) as [c|] eqn:E.
  - split; [by eexists|]. intros _. apply find_col_Some in E as [<- Hc].
    by apply list_elem_of_fmap_2.
  - apply find_col_None in E. split; [done|]. by intros [? ?].
Qed.

Lemma find_col_app cs cs' col :
  find_col (cs ++ cs') col =
  match find_col cs col with Some c => Some c | None => find_col cs' col end.
Proof.
  unfold find_col. induction cs as [|c cs IH]; simpl; [done|].
  by destruct (String.eqb c.1 col).
Qed.

(** Where names are unique, selecting by label finds at most one column. *)
Lemma filter_label_NoDup cs col :
  NoDup (map fst cs) →
  List.filter (fun c => String.eqb c.1 col) cs =
  match find_col cs col with Some c => [c] | None => [] end.
Proof.
  unfold find_col. induction cs as [|c cs IH]; simpl; [done|].
  intros Hnd. apply NoDup_cons in Hnd as [Hc Hnd].
  destruct (String.eqb_spec c.1 col) as [E|E].
  - f_equal. rewrite IH by done. fold (find_col cs col).
    destruct (find_col cs col) as [c'|] eqn:E'; [|done].
    apply find_col_Some in E' as [E' Hin]. exfalso. apply Hc.
    rewrite E, <- E'. by apply list_elem_of_fmap_2.
  - by apply IH.
Qed.

Lemma getitem_list_columns_NoDup cs labels :
  NoDup (map fst cs) →
  Forall (fun l => is_Some (find_col cs l)) labels →
  getitem_list_columns cs labels =
  Ok (map (fun l => (l, default [] (snd <$> find_col cs l))) labels).
Proof.
  intros Hnd. induction 1 as [|l labels [c Hc] _ IH]; simpl; [done|].
  rewrite filter_label_NoDup, Hc by done. rewrite IH. simpl.
  apply find_col_Some in Hc as [<- _]. by destruct c.
Qed.

(** The frame after the backfilling loop. *)
Lemma backfill_spec cols df :
  NoDup (names df) →
  NoDup (names (backfill df cols)) ∧
  nrows (backfill df cols) = nrows df ∧
  ∀ col, find_col (columns (backfill df cols)) col =
         match find_col (columns df) col with
         | Some c => Some c
         | None => if bool_decide (col ∈ cols)
                   then Some (col, replicate (nrows df) NA) else None
         end.
Proof.
  revert df. induction cols as [|c0 cols IH]; intros df Hnd.
  { change (backfill df []) with df. repeat split; [done|]. intros col.
    rewrite bool_decide_eq_false_2 by apply not_elem_of_nil.
    by destruct (find_col _ _). }
  change (backfill df (c0 :: cols))
    with (backfill (if has_column df c0 then df else setitem_none df c0) cols).
  rewrite has_column_find.
  destruct (find_col (columns df) c0) as [c|] eqn:E0.
  - rewrite bool_decide_eq_true_2 by (by eexists).
    destruct (IH df Hnd) as (H1 & H2 & H3). repeat split; [done..|].
    intros col. rewrite H3. destruct (find_col (columns df) col) eqn:E; [done|].
    destruct (decide (col = c0)) as [->|Hne]; [congruence|].
    apply (f_equal (fun b : bool => if b then _ else _)).
    apply bool_decide_ext. rewrite elem_of_cons.
    split; [by right|]. by intros [H|H].
  - rewrite bool_decide_eq_false_2 by (by intros [? ?]).
    set (df' := setitem_none df c0).
    assert (Hcols : columns df' = columns df ++ [(c0, replicate (nrows df) NA)]).
    { unfold df', setitem_none, setitem. rewrite has_column_find, E0.
      by rewrite bool_decide_eq_false_2 by (by intros [? ?]). }
    assert (Hrows : nrows df' = nrows df).
    { unfold df', setitem_none, setitem. by destruct (has_column df c0). }
    assert (Hnd' : NoDup (names df')).
    { unfold names. rewrite Hcols, map_app. simpl.
      apply NoDup_app. split; [done|]. split; [|apply NoDup_singleton].
      intros x Hx Hx'. apply list_elem_of_singleton in Hx' as ->.
      by apply find_col_None in E0. }
    destruct (IH df' Hnd') as (H1 & H2 & H3). repeat split; [done|lia|].
    intros col. rewrite H3, Hcols, find_col_app, Hrows.
    destruct (find_col (columns df) col) eqn:E; [done|].
    unfold find_col at 1. simpl.
    destruct (String.eqb_spec c0 col) as [->|Hne].
    + by rewrite bool_decide_eq_true_2 by (by left).
    + apply (f_equal (fun b : bool => if b then _ else _)).
      apply bool_decide_ext. rewrite elem_of_cons.
      split; [by right|]. intros [H|H]; [congruence|done].
Qed.

Lemma coerce_spec df cols :
  NoDup (names df) →
  coerce df cols =
  Ok {| nrows := nrows df;
        columns := map (fun col => (col, coerced_column df col)) cols |}.
Proof.
  intros Hnd. destruct (backfill_spec cols df Hnd) as (H1 & H2 & H3).
  unfold coerce, getitem_list.
  rewrite (getitem_list_columns_NoDup _ cols H1).
  - cbn [mbind result_bind]. rewrite H2. do 2 f_equal.
    apply map_ext_in. intros col Hcol. f_equal. rewrite H3.
    unfold coerced_column, getitem.
    destruct (find_col (columns df) col); [done|].
    by rewrite bool_decide_eq_true_2 by (by apply list_elem_of_In).
  - apply Forall_forall. intros col Hcol. rewrite H3.
    destruct (find_col (columns df) col); [by eexists|].
    rewrite bool_decide_eq_true_2 by done. by eexists.
Qed.

(** C5.  Coercing a frame with unique column names to a schema never raises.
    The result has exactly the labels of the schema, in order, and as many
    rows; under a label the source has, its column, unchanged; under a label
    the source lacks, the marker on every row; no other column survives.  A
    file with a date and a weight only gets its four missing workout
    columns filled with the marker. *)
Theorem coerce_to_schema :
  (∀ df cols,
     NoDup (names df) →
     ∃ out, coerce df cols = Ok out ∧
       names out = cols ∧ nrows out = nrows df ∧
       columns out = map (fun col => (col, coerced_column df col)) cols ∧
       (∀ col values, getitem df col = Ok values →
                      coerced_column df col = values) ∧
       (∀ col, col ∉ names df →
               coerced_column df col = replicate (nrows df) NA) ∧
       (∀ col, col ∈ names out → col ∈ cols)) ∧
  (df ← read_csv date_weight_file; coerce df workout_cols) =
  Ok {| nrows := 2;
        columns :=
          [("date", [Text "2024-01-01"; Text "2024-01-03"]);
           ("exercise", [NA; NA]); ("sets", [NA; NA]); ("reps", [NA; NA]);
           ("weight", [Float 135 (Decimal.D0 Decimal.Nil);
                       Float 140 (Decimal.D0 Decimal.Nil)]);
           ("notes", [NA; NA])] |}.
Proof.
  split; [|reflexivity].
  intros df cols Hnd. eexists. split; [by apply coerce_spec|].
  assert (Hn : map fst (map (fun col => (col, coerced_column df col)) cols)
               = cols).
  { rewrite map_map. apply map_id. }
  repeat split; simpl.
  - exact Hn.
  - intros col values H. unfold coerced_column. by rewrite H.
  - intros col H. unfold coerced_column, getitem.
    apply find_col_None in H. by rewrite H.
  - intros col. unfold names. simpl. by rewrite Hn.
Qed.

Lemma coerce_to_schema_witness :
  ∃ out,
    coerce {| nrows := 1;
              columns := [("weight", [Int 135]); ("mood", [Text "ok"]);
                          ("date", [Text "2024-01-01"])] |}
      workout_cols = Ok out ∧
    names out = workout_cols.
Proof.
  destruct (proj1 coerce_to_schema
              {| nrows := 1;
                 columns := [("weight", [Int 135]); ("mood", [Text "ok"]);
                             ("date", [Text "2024-01-01"])] |}
              workout_cols) as (out & H & Hn & _).
  - unfold names. simpl. repeat (constructor; [not_in_list|]). constructor.
  - eauto.
Defined.

(** ** The date normalizer *)

Lemma getitem_has_column df col :
  col ∈ names df → ∃ values, getitem df col = Ok values.
Proof.
  intros H. unfold getitem.
  destruct (find_col (columns df) col) eqn:E; [by eexists|].
  by apply find_col_None in E.
Qed.

Lemma has_column_true df col : col ∈ names df → has_column df col = true.
Proof. intros H. by apply bool_decide_eq_true. Qed.

Lemma names_setitem df col values :
  col ∈ names df → names (setitem df col values) = names df.
Proof.
  intros H. unfold setitem. rewrite (has_column_true _ _ H).
  unfold names. simpl. rewrite map_map. apply map_ext.
  intros c. by destruct (String.eqb_spec c.1 col).
Qed.

Lemma find_col_replace cs col values other :
  find_col (map (fun c => if String.eqb c.1 col then (col, values) else c) cs)
    other =
  if String.eqb col other
  then (fun _ => (col, values)) <$> find_col cs other
  else find_col cs other.
Proof.
  unfold find_col. induction cs as [|c cs IH]; simpl.
  - by destruct (String.eqb col other).
  - destruct (String.eqb_spec c.1 col) as [E|E]; simpl.
    + destruct (String.eqb_spec col other) as [E'|E'].
      * by rewrite E, E', String.eqb_refl.
      * rewrite E. by destruct (String.eqb_spec col other).
    + destruct (String.eqb_spec c.1 other) as [E'|E'].
      * destruct (String.eqb_spec col other); [congruence|done].
      * exact IH.
Qed.

Lemma getitem_setitem df col values :
  col ∈ names df → getitem (setitem df col values) col = Ok values.
Proof.
  intros H. destruct (getitem_has_column _ _ H) as [old Hold].
  unfold getitem in *. unfold setitem. rewrite (has_column_true _ _ H).
  simpl. rewrite find_col_replace, String.eqb_refl.
  by destruct (find_col (columns df) col).
Qed.

Lemma getitem_setitem_other df col values other :
  col ∈ names df → other ≠ col →
  getitem (setitem df col values) other = getitem df other.
Proof.
  intros H Hne. unfold getitem, setitem. rewrite (has_column_true _ _ H).
  simpl. rewrite find_col_replace.
  by destruct (String.eqb_spec col other); [congruence|].
Qed.

Lemma setitem_setitem df col a b :
  col ∈ names df → setitem (setitem df col a) col b = setitem df col b.
Proof.
  intros H. unfold setitem at 1.
  rewrite has_column_true by (by rewrite names_setitem).
  unfold setitem. rewrite (has_column_true _ _ H). simpl. f_equal.
  rewrite map_map. apply map_ext. intros c.
  destruct (String.eqb_spec c.1 col); simpl; [by rewrite String.eqb_refl|].
  by destruct (String.eqb_spec c.1 col).
Qed.

Lemma normalize_to_datetime parser column c :
  normalize (to_datetime parser column c) = date_cell parser column c.
Proof.
  destruct c; simpl; try done; by destruct (parser column _).
Qed.

Lemma ensure_date_col_spec parser df col values :
  col ∈ names df → getitem df col = Ok values →
  ensure_date_col parser df col =
  Ok (if df_empty df then df
      else setitem df col (map (date_cell parser values) values)).
Proof.
  intros H Hv. unfold ensure_date_col. destruct (df_empty df); [done|].
  rewrite Hv. cbn [mbind result_bind]. rewrite getitem_setitem by done.
  cbn [mbind result_bind]. rewrite setitem_setitem by done.
  rewrite map_map. do 2 f_equal. apply map_ext. intros c.
  apply normalize_to_datetime.
Qed.

(** ** Undated rows and the aggregation *)

(** Under the element-wise [apply], a table with an undated row gets no
    weekly and no monthly table: the page stops on AttributeError. *)
Lemma period_averages_elementwise_undated to_period start t r :
  r ∈ t → n_date r = None →
  ∃ e, period_averages Elementwise to_period start (sorted_df t) = Raise e.
Proof.
  intros Hr Hd.
  destruct (period_averages Elementwise to_period start (sorted_df t))
    as [out|e] eqn:E; [exfalso|by eexists].
  apply period_averages_inv in E as [E|E]; [done|].
  rewrite Forall_forall in E. destruct (E r) as [d Hd'].
  - unfold sorted_df. by rewrite sort_values_perm.
  - congruence.
Qed.

(** ** Saving and loading *)


(** ** Numbers and dates as text *)

Lemma all_chars_impl (p q : ascii → bool) s :
  (∀ c, p c = true → q c = true) → all_chars p s = true → all_chars q s = true.
Proof.
  intros Hpq. induction s as [|c s IH]; simpl; [done|].
  rewrite !andb_true_iff. intros [Hc Hs]. split; [by apply Hpq|by apply IH].
Qed.

Lemma all_chars_append p a b :
  all_chars p (a +:+ b) = all_chars p a && all_chars p b.
Proof. induction a as [|c a IH]; simpl; [done|]. by rewrite IH, andb_assoc. Qed.

Lemma is_digit_not_dot c : is_digit c = true → not_dot c = true.
Proof.
  destruct c as [[] [] [] [] [] [] [] []]; try discriminate; reflexivity.
Qed.

Lemma is_digit_not_minus c : is_digit c = true → Ascii.eqb c "-" = false.
Proof.
  destruct c as [[] [] [] [] [] [] [] []]; try discriminate; reflexivity.
Qed.

Lemma uint_of_char_nondigit c d : is_digit c = false → uint_of_char c d = None.
Proof.
  destruct d; [|done].
  destruct c as [[] [] [] [] [] [] [] []]; try discriminate; reflexivity.
Qed.

Lemma uint_of_char_None c : uint_of_char c None = None.
Proof. done. Qed.

Lemma digits_string_of_uint d :
  all_chars is_digit (NilEmpty.string_of_uint d) = true.
Proof. induction d; simpl; done. Qed.

Lemma digits_string_of_uint_zero d :
  all_chars is_digit (NilZero.string_of_uint d) = true.
Proof. destruct d; try apply digits_string_of_uint. done. Qed.

Lemma uint_of_string_nondigit a c b :
  is_digit c = false → NilEmpty.uint_of_string (a +:+ String c b) = None.
Proof.
  intros Hc. induction a as [|x a IH]; simpl.
  - by apply uint_of_char_nondigit.
  - by rewrite IH.
Qed.

Lemma int_of_string_nondigit a c b :
  is_digit c = false → c ≠ "-"%char ∨ a ≠ EmptyString →
  NilZero.int_of_string (a +:+ String c b) = None.
Proof.
  intros Hc Hne. destruct a as [|x a]; simpl.
  - destruct (Ascii.eqb_spec c "-") as [->|_]; [by destruct Hne|].
    unfold NilZero.uint_of_string. simpl. by rewrite uint_of_char_nondigit.
  - destruct (Ascii.eqb x "-").
    + unfold NilZero.uint_of_string.
      destruct (a +:+ String c b) eqn:E; [done|]. rewrite <- E.
      by rewrite uint_of_string_nondigit.
    + unfold NilZero.uint_of_string.
      change (String x (a +:+ String c b)) with (String x a +:+ String c b).
      rewrite uint_of_string_nondigit by done. done.
Qed.

Lemma split_dot_None s : all_chars not_dot s = true → split_dot s = None.
Proof.
  induction s as [|c s IH]; simpl; [done|].
  rewrite andb_true_iff. intros [Hc Hs]. unfold not_dot in Hc.
  destruct (Ascii.eqb c "."); [done|]. by rewrite IH.
Qed.

Lemma split_dot_append a b :
  all_chars not_dot a = true → split_dot (a +:+ String "." b) = Some (a, b).
Proof.
  induction a as [|c a IH]; simpl; [done|].
  rewrite andb_true_iff. intros [Hc Hs]. unfold not_dot in Hc.
  destruct (Ascii.eqb c "."); [done|]. by rewrite IH.
Qed.

Lemma digits_string_of_Z z :
  all_chars not_dot (string_of_Z z) = true.
Proof.
  unfold string_of_Z, NilZero.string_of_int.
  destruct (Z.to_int z) as [d|d]; simpl.
  - eapply all_chars_impl; [apply is_digit_not_dot|].
    apply digits_string_of_uint_zero.
  - eapply all_chars_impl; [apply is_digit_not_dot|].
    apply digits_string_of_uint_zero.
Qed.

Lemma Z_of_string_of_Z z : Z_of_string (string_of_Z z) = Some z.
Proof.
  unfold Z_of_string, string_of_Z. rewrite NilZero.isi.
  - simpl. by rewrite DecimalZ.of_to.
  - destruct z; simpl; try done. intros [= H].
    by apply Unsigned.to_uint_nonnil in H.
  - destruct z; simpl; try done. intros [= H].
    by apply Unsigned.to_uint_nonnil in H.
Qed.

Lemma float_of_string_of_float i f :
  f ≠ Decimal.Nil →
  float_of_string (string_of_Z i +:+ String "." (NilEmpty.string_of_uint f))
  = Some (i, f).
Proof.
  intros Hf. unfold float_of_string.
  rewrite split_dot_append by apply digits_string_of_Z. simpl.
  rewrite Z_of_string_of_Z. simpl.
  assert (E : NilZero.uint_of_string (NilEmpty.string_of_uint f) = Some f).
  { rewrite <- (NilZero.usu f Hf). by destruct f. }
  by rewrite E.
Qed.

Lemma Z_of_string_of_float i f :
  Z_of_string (string_of_Z i +:+ String "." (NilEmpty.string_of_uint f)) = None.
Proof.
  unfold Z_of_string. rewrite int_of_string_nondigit; [done..|]. by left.
Qed.

(** No missing-value token reads as a number or is as long as a date. *)
Lemma na_values_not_numbers :
  Forall (fun v => Z_of_string v = None ∧ float_of_string v = None ∧
                   String.length v ≠ 10%nat) na_values.
Proof. unfold na_values. repeat constructor; discriminate. Qed.

Lemma is_na_field_false s :
  is_Some (Z_of_string s) ∨ is_Some (float_of_string s) ∨
  String.length s = 10%nat →
  is_na_field s = false.
Proof.
  intros H. apply bool_decide_eq_false. intros Hin.
  assert (Hall := na_values_not_numbers). rewrite Forall_forall in Hall.
  destruct (Hall s Hin) as (H1 & H2 & H3).
  destruct H as [[? H]|[[? H]|H]]; congruence.
Qed.

Lemma classify_empty : classify "" = NA.
Proof. reflexivity. Qed.

Lemma classify_int z : classify (string_of_Z z) = Int z.
Proof.
  unfold classify. rewrite is_na_field_false.
  - by rewrite Z_of_string_of_Z.
  - left. rewrite Z_of_string_of_Z. by eexists.
Qed.

Lemma classify_float i f :
  f ≠ Decimal.Nil →
  classify (string_of_Z i +:+ String "." (NilEmpty.string_of_uint f))
  = Float i f.
Proof.
  intros Hf. unfold classify. rewrite is_na_field_false.
  - by rewrite Z_of_string_of_float, float_of_string_of_float.
  - right; left. rewrite float_of_string_of_float by done. by eexists.
Qed.

Lemma classify_text s :
  s ∉ na_values → Z_of_string s = None → float_of_string s = None →
  classify s = Text s.
Proof.
  intros Hna Hz Hf. unfold classify, is_na_field.
  rewrite bool_decide_eq_false_2 by done. by rewrite Hz, Hf.
Qed.

Lemma is_digit_digit_char n : is_digit (digit_char n) = true.
Proof.
  unfold digit_char.
  assert (H : (Z.to_nat (n mod 10) < 10)%nat).
  { pose proof (Z.mod_pos_bound n 10). lia. }
  destruct (Z.to_nat (n mod 10)) as [|k]; [done|].
  do 9 (destruct k as [|k]; [done|]). lia.
Qed.

Lemma pad2_digits n : all_chars is_digit (pad2 n) = true.
Proof.
  unfold pad2. cbn [all_chars]. by rewrite !is_digit_digit_char.
Qed.

Lemma pad4_digits n : all_chars is_digit (pad4 n) = true.
Proof.
  unfold pad4. cbn [all_chars]. by rewrite !is_digit_digit_char, pad2_digits.
Qed.

Lemma format_date_length d : String.length (format_date d) = 10%nat.
Proof.
  unfold format_date. destruct (civil_from_days d) as [[y m] dd].
  unfold pad4, pad2. reflexivity.
Qed.

Lemma format_date_no_dot d : all_chars not_dot (format_date d) = true.
Proof.
  unfold format_date. destruct (civil_from_days d) as [[y m] dd].
  assert (H2 : ∀ n, all_chars not_dot (pad2 n) = true).
  { intros n. eapply all_chars_impl; [apply is_digit_not_dot|].
    apply pad2_digits. }
  assert (H4 : ∀ n, all_chars not_dot (pad4 n) = true).
  { intros n. eapply all_chars_impl; [apply is_digit_not_dot|].
    apply pad4_digits. }
  rewrite all_chars_append, H4. cbn [all_chars andb].
  rewrite all_chars_append, H2. cbn [all_chars andb]. by rewrite H2.
Qed.

Lemma classify_format_date d : classify (format_date d) = Text (format_date d).
Proof.
  apply classify_text.
  - intros Hin. assert (Hall := na_values_not_numbers).
    rewrite Forall_forall in Hall. destruct (Hall _ Hin) as (_ & _ & H).
    by rewrite format_date_length in H.
  - unfold Z_of_string, format_date. destruct (civil_from_days d) as [[y m] dd].
    rewrite int_of_string_nondigit; [reflexivity|reflexivity|].
    right. unfold pad4. discriminate.
  - unfold float_of_string. by rewrite split_dot_None by apply format_date_no_dot.
Qed.

(** ** Reading a column back *)

Lemma forallb_false_elem {A} (p : A → bool) l x :
  x ∈ l → p x = false → forallb p l = false.
Proof.
  intros Hx Hp. destruct (forallb p l) eqn:E; [|done].
  rewrite forallb_forall in E. rewrite <- Hp. symmetry. apply E.
  by apply list_elem_of_In.
Qed.

(** A column of numbers and missing values comes back as it was. *)
Lemma infer_column_numeric with_time values :
  Forall (fun c => match c with
                   | NA | Int _ => True
                   | Float _ f => f ≠ Decimal.Nil
                   | _ => False
                   end) values →
  forallb is_int values = true ∨ forallb is_int values = false ∧
                                 Forall (fun c => is_int c = false) values →
  infer_column (map (field_of with_time) values) = values.
Proof.
  intros Hall Hkind. unfold infer_column.
  assert (E : map classify (map (field_of with_time) values) = values).
  { rewrite map_map. rewrite <- (map_id values) at 2. apply map_ext_in.
    intros c Hc. apply list_elem_of_In in Hc. rewrite Forall_forall in Hall.
    specialize (Hall c Hc). destruct c; try done; simpl.
    - apply classify_int.
    - by apply classify_float. }
  rewrite E. destruct Hkind as [->|[-> Hno]]; [done|].
  assert (Hnum : forallb is_numeric_or_na values = true).
  { apply forallb_forall. intros c Hc. apply list_elem_of_In in Hc.
    rewrite Forall_forall in Hall. specialize (Hall c Hc). by destruct c. }
  rewrite Hnum. rewrite <- (map_id values) at 2. apply map_ext_in.
  intros c Hc. apply list_elem_of_In in Hc. rewrite Forall_forall in Hno.
  specialize (Hno c Hc). by destruct c.
Qed.

(** A column of texts and missing values comes back as it was, when none of
    the texts is a missing-value token and not all of them are numbers. *)
Lemma infer_column_textual fields :
  Forall (fun s => s = "" ∨ s ∉ na_values) fields →
  Forall (fun s => s = "") fields ∨
  (∃ s, s ∈ fields ∧ classify s = Text s) →
  infer_column fields =
  map (fun s => if is_na_field s then NA else Text s) fields.
Proof.
  intros Hall [Hempty|(s0 & Hin & Hs0)]; unfold infer_column.
  - assert (E : map classify fields =
                map (fun s => if is_na_field s then NA else Text s) fields).
    { apply map_ext_in. intros s Hs. apply list_elem_of_In in Hs.
      rewrite Forall_forall in Hempty. by rewrite (Hempty s Hs). }
    rewrite E. set (cells := map _ fields).
    assert (Hna : Forall (fun c => c = NA) cells).
    { apply Forall_forall. intros c Hc. unfold cells in Hc.
      change (c ∈ (fun s => if is_na_field s then NA else Text s) <$> fields)
        in Hc.
      apply list_elem_of_fmap in Hc as (s & -> & Hs).
      rewrite Forall_forall in Hempty. by rewrite (Hempty s Hs). }
    destruct (forallb is_int cells); [done|].
    assert (Hnum : forallb is_numeric_or_na cells = true).
    { apply forallb_forall. intros c Hc. apply list_elem_of_In in Hc.
      rewrite Forall_forall in Hna. by rewrite (Hna c Hc). }
    rewrite Hnum. rewrite <- (map_id cells) at 2. apply map_ext_in.
    intros c Hc. apply list_elem_of_In in Hc. rewrite Forall_forall in Hna.
    by rewrite (Hna c Hc).
  - assert (Hcell : Text s0 ∈ map classify fields).
    { rewrite <- Hs0. by apply (list_elem_of_fmap_2 classify). }
    rewrite (forallb_false_elem is_int _ _ Hcell) by done.
    by rewrite (forallb_false_elem is_numeric_or_na _ _ Hcell) by done.
Qed.

Lemma all_chars_false p s :
  all_chars p s = false → ∃ a c b, s = a +:+ String c b ∧ p c = false.
Proof.
  induction s as [|c s IH]; simpl; [done|].
  destruct (p c) eqn:E; simpl.
  - intros H. destruct (IH H) as (a & c' & b & -> & Hc).
    by exists (String c a), c', b.
  - intros _. by exists EmptyString, c, s.
Qed.

Lemma ambiguous_char_false c :
  ambiguous_char c = false →
  is_digit c = false ∧ c ≠ "-"%char ∧ c ≠ "."%char.
Proof.
  destruct c as [[] [] [] [] [] [] [] []]; try discriminate; by intros _.
Qed.

Lemma split_dot_Some s p : split_dot s = Some p → s = p.1 +:+ String "." p.2.
Proof.
  revert p. induction s as [|c s IH]; intros p; simpl; [done|].
  destruct (Ascii.eqb_spec c ".") as [->|_].
  - by intros [= <-].
  - destruct (split_dot s) as [q|]; [|done]. simpl. intros [= <-]. simpl.
    by rewrite (IH q eq_refl) at 1.
Qed.

Lemma Z_of_string_plain s : plainly_text s → Z_of_string s = None.
Proof.
  intros H. apply all_chars_false in H as (a & c & b & -> & Hc).
  apply ambiguous_char_false in Hc as (Hd & Hm & _).
  unfold Z_of_string. rewrite int_of_string_nondigit; [done..|by left].
Qed.

Lemma uint_of_string_plain s :
  plainly_text s → NilZero.uint_of_string s = None.
Proof.
  intros H. apply all_chars_false in H as (a & c & b & -> & Hc).
  apply ambiguous_char_false in Hc as (Hd & _).
  unfold NilZero.uint_of_string.
  rewrite (uint_of_string_nondigit a c b Hd). by destruct a.
Qed.

Lemma plainly_text_not_number s :
  plainly_text s → Z_of_string s = None ∧ float_of_string s = None.
Proof.
  intros H. split; [by apply Z_of_string_plain|]. unfold float_of_string.
  destruct (split_dot s) as [p|] eqn:E; [|done]. simpl.
  apply split_dot_Some in E. unfold plainly_text in H.
  rewrite E, all_chars_append in H. cbn [all_chars] in H.
  change (ambiguous_char ".") with true in H. cbn [andb] in H.
  apply andb_false_iff in H as [H|H].
  - by rewrite (Z_of_string_plain _ H).
  - rewrite (uint_of_string_plain _ H). by destruct (Z_of_string p.1).
Qed.

Lemma infer_column_object with_time values :
  Forall (cell_has_dtype object) values → text_stable values →
  infer_column (map (field_of with_time) values) = values.
Proof.
  intros Hty [Hna Hkind]. rewrite infer_column_textual.
  - rewrite map_map. rewrite <- (map_id values) at 2. apply map_ext_in.
    intros c Hc. apply list_elem_of_In in Hc. rewrite Forall_forall in Hty, Hna.
    specialize (Hty c Hc). specialize (Hna c Hc).
    destruct c; try done; simpl.
    unfold is_na_field. by rewrite bool_decide_eq_false_2.
  - apply Forall_forall. intros s Hs.
    change (s ∈ field_of with_time <$> values) in Hs.
    apply list_elem_of_fmap in Hs as (c & -> & Hc).
    rewrite Forall_forall in Hty, Hna.
    specialize (Hty c Hc). specialize (Hna c Hc).
    destruct c; try done; simpl; auto.
  - destruct Hkind as [Hall|(s & Hs & Hp)].
    2: destruct (plainly_text_not_number s Hp) as [Hz Hf].
    + left. apply Forall_forall. intros s Hs.
      change (s ∈ field_of with_time <$> values) in Hs.
      apply list_elem_of_fmap in Hs as (c & -> & Hc).
      rewrite Forall_forall in Hall. by rewrite (Hall c Hc).
    + right. exists s. split.
      * by apply (list_elem_of_fmap_2 (field_of with_time) _ (Text s)).
      * apply classify_text; [|done..]. rewrite Forall_forall in Hna.
        apply (Hna _ Hs).
Qed.

Lemma has_time_dates values :
  Forall (cell_has_dtype datetime64) values → has_time values = false.
Proof.
  induction 1 as [|c values Hc _ IH]; simpl; [done|].
  rewrite IH, orb_false_r. destruct c; try done. simpl in Hc.
  rewrite Hc. done.
Qed.

(** A column of dates comes back as the texts of its dates, and the date
    normalizer then restores it. *)
Lemma infer_column_dates parser values :
  Forall (cell_has_dtype datetime64) values → dates_readable parser values →
  let loaded := infer_column (map (field_of (has_time values)) values) in
  map (date_cell parser loaded) loaded = values.
Proof.
  intros Hty Hread loaded.
  assert (Hload : loaded =
    map (fun s => if is_na_field s then NA else Text s)
      (map (field_of false) values)).
  { unfold loaded. rewrite (has_time_dates _ Hty).
    apply infer_column_textual.
    - apply Forall_forall. intros s Hs.
      change (s ∈ field_of false <$> values) in Hs.
      apply list_elem_of_fmap in Hs as (c & -> & Hc).
      rewrite Forall_forall in Hty. specialize (Hty c Hc).
      destruct c; try done; simpl; [by left|]. right. intros Hin.
      assert (Hall := na_values_not_numbers). rewrite Forall_forall in Hall.
      destruct (Hall _ Hin) as (_ & _ & H). by rewrite format_date_length in H.
    - destruct (decide (Forall (fun c => c = NA) values)) as [Hall|Hex].
      + left. apply Forall_forall. intros s Hs.
        change (s ∈ field_of false <$> values) in Hs.
        apply list_elem_of_fmap in Hs as (c & -> & Hc).
        rewrite Forall_forall in Hall. by rewrite (Hall c Hc).
      + right. apply not_Forall_Exists, Exists_exists in Hex; [|apply _].
        destruct Hex as (c & Hc & Hne). rewrite Forall_forall in Hty.
        specialize (Hty c Hc).
        destruct c as [|s|z|i f|ts]; [by destruct Hne|done|done|done|].
        exists (format_date (ts_day ts)). split.
        * by apply (list_elem_of_fmap_2 (field_of false) _ (Stamp ts)).
        * apply classify_format_date. }
  transitivity
    (map (fun c => date_cell parser loaded
                     (if is_na_field (field_of false c) then NA
                      else Text (field_of false c))) values).
  { rewrite Hload at 2. by rewrite !map_map. }
  rewrite <- (map_id values) at 2. apply map_ext_in.
  intros c Hc. apply list_elem_of_In in Hc. rewrite Forall_forall in Hty.
  specialize (Hty c Hc). destruct c as [|s|z|i f|ts]; [done|done|done|done|].
  cbn [field_of]. rewrite is_na_field_false
    by (right; right; apply format_date_length).
  cbn [date_cell]. destruct (Hread loaded ts Hc) as (t' & -> & Hday).
  rewrite Hday. simpl in Hty. destruct ts; simpl in *. by rewrite Hty.
Qed.

(** ** Writing a frame and reading it back *)

Lemma map_nth_seq {A B} (g : A → B) d l :
  map (fun i => g (nth i l d)) (seq 0 (length l)) = map g l.
Proof.
  induction l as [|x l IH]; [done|].
  cbn [length seq map nth]. f_equal.
  rewrite <- seq_shift, map_map. exact IH.
Qed.

Lemma filter_all {A} (p : A → bool) l :
  (∀ x, x ∈ l → p x = true) → List.filter p l = l.
Proof.
  induction l as [|x l IH]; intros H; [done|]. simpl.
  rewrite (H x) by (by left). f_equal. apply IH. intros y Hy. apply H.
  by right.
Qed.

Lemma read_csv_to_csv df :
  (2 <= length (columns df))%nat →
  Forall (fun c => length c.2 = nrows df) (columns df) →
  read_csv (to_csv df) =
  Ok {| nrows := nrows df;
        columns := map (fun c => (c.1, read_back c)) (columns df) |}.
Proof.
  intros Hlen Hrows. unfold read_csv, to_csv. cbn [header lines].
  set (row := fun i => map (fun c : string * list cell =>
                              field_of (has_time c.2) (nth i c.2 NA))
                         (columns df)).
  assert (Hhead : empty (names df) = false).
  { unfold names. destruct (columns df); [simpl in Hlen; lia|done]. }
  rewrite Hhead.
  assert (Hkeep : List.filter (fun l => negb (is_blank l))
                    (map row (seq 0 (nrows df))) = map row (seq 0 (nrows df))).
  { apply filter_all. intros l Hl.
    change (l ∈ row <$> seq 0 (nrows df)) in Hl.
    apply list_elem_of_fmap in Hl as (i & -> & _). unfold row.
    destruct (columns df) as [|c1 [|c2 cs]]; simpl in Hlen; try lia. done. }
  rewrite Hkeep.
  assert (Hwidth : forallb (fun l => (length l <=? length (names df))%nat)
                     (map row (seq 0 (nrows df))) = true).
  { apply forallb_forall. intros l Hl. apply list_elem_of_In in Hl.
    change (l ∈ row <$> seq 0 (nrows df)) in Hl.
    apply list_elem_of_fmap in Hl as (i & -> & _). unfold row, names.
    rewrite !length_map. apply Nat.leb_refl. }
  rewrite Hwidth. f_equal. f_equal.
  - by rewrite length_map, length_seq.
  - apply list_eq. intros j. rewrite list_lookup_imap.
    unfold names.
    change (map fst (columns df)) with (fst <$> columns df).
    change (map (fun c => (c.1, read_back c)) (columns df))
      with ((fun c => (c.1, read_back c)) <$> columns df).
    rewrite !list_lookup_fmap.
    destruct (columns df !! j) as [c|] eqn:Ej; [|done]. simpl. do 2 f_equal.
    unfold read_back. f_equal. rewrite map_map.
    assert (Hc : length c.2 = nrows df).
    { rewrite Forall_forall in Hrows. apply Hrows.
      by eapply list_elem_of_lookup_2. }
    rewrite <- Hc, <- (map_nth_seq (field_of (has_time c.2)) NA c.2).
    apply map_ext. intros i. unfold row. apply nth_lookup_Some.
    change (map ?f (columns df)) with (f <$> columns df).
    by rewrite list_lookup_fmap, Ej.
Qed.

Lemma find_col_NoDup cs c :
  NoDup (map fst cs) → c ∈ cs → find_col cs c.1 = Some c.
Proof.
  unfold find_col. induction cs as [|c0 cs IH]; intros Hnd Hc.
  - by apply elem_of_nil in Hc.
  - simpl in Hnd. apply NoDup_cons in Hnd as [Hc0 Hnd]. simpl.
    apply elem_of_cons in Hc as [->|Hc]; [by rewrite String.eqb_refl|].
    destruct (String.eqb_spec c0.1 c.1) as [E|_]; [|by apply IH].
    exfalso. apply Hc0. rewrite E. by apply list_elem_of_fmap_2.
Qed.

(** Coercing a frame to its own labels changes nothing. *)
Lemma coerce_own_names df :
  NoDup (names df) → coerce df (names df) = Ok df.
Proof.
  intros Hnd. rewrite coerce_spec by done. f_equal.
  destruct df as [n cs]. unfold names in *. simpl in *. f_equal.
  rewrite map_map. rewrite <- (map_id cs) at 2. apply map_ext_in.
  intros c Hc. apply list_elem_of_In in Hc. unfold coerced_column, getitem.
  simpl. rewrite (find_col_NoDup cs c Hnd Hc). by destruct c.
Qed.

Lemma Forall2_both {A B} (P Q : A → B → Prop) l k :
  Forall2 P l k → Forall2 Q l k →
  ∀ x, x ∈ l → ∃ y, y ∈ k ∧ P x y ∧ Q x y.
Proof.
  induction 1 as [|x y l k HP _ IH]; intros HQ z Hz.
  - by apply elem_of_nil in Hz.
  - apply Forall2_cons_1 in HQ as [HQ HQs].
    apply elem_of_cons in Hz as [->|Hz].
    + exists y. split; [by left|done].
    + destruct (IH HQs z Hz) as (y' & Hy' & H). exists y'.
      split; [by right|done].
Qed.

(** A column of a conforming table that the file format can carry comes
    back as it was: at once when it is not the date column, after the
    normalization of its dates when it is. *)
Lemma read_back_column parser (c : string * list cell) (s : string * dtype) :
  (s.2 = datetime64 ↔ s.1 = "date") → c.1 = s.1 →
  Forall (cell_has_dtype s.2) c.2 → carried parser s.2 c.2 →
  if String.eqb c.1 "date"
  then map (date_cell parser (read_back c)) (read_back c) = c.2
  else read_back c = c.2.
Proof.
  intros Hdate Hname Hty Hok. unfold read_back.
  destruct (String.eqb_spec c.1 "date") as [E|E].
  - assert (Hs : s.2 = datetime64) by (apply Hdate; congruence).
    rewrite Hs in Hty, Hok. by apply infer_column_dates.
  - destruct s.2 eqn:Hs.
    + exfalso. apply E. rewrite Hname. by apply Hdate.
    + by apply infer_column_object.
    + apply infer_column_numeric.
      * eapply Forall_impl; [exact Hty|]. intros x. by destruct x.
      * left. apply forallb_forall. intros x Hx. apply list_elem_of_In in Hx.
        rewrite Forall_forall in Hty. specialize (Hty x Hx). by destruct x.
    + apply infer_column_numeric.
      * eapply Forall_impl; [exact Hty|]. intros x. by destruct x.
      * destruct (forallb is_int c.2) eqn:Ei; [by left|right].
        split; [done|]. eapply Forall_impl; [exact Hty|].
        intros x. by destruct x.
Qed.

(** Save, load and normalize under any schema of the store. *)
Lemma reload_roundtrip_schema parser schema path fs df :
  store_schema schema → conforms schema df → survives parser schema df →
  reload parser path (map fst schema) df fs = Ok df.
Proof.
  intros (Hnd & Hlen & Hdate & Hiff) Hconf Hsurv.
  assert (Hnames : names df = map fst schema).
  { unfold names, conforms in *. clear -Hconf.
    induction Hconf as [|c s cs ss [E _] _ IH]; simpl; [done|].
    by rewrite E, IH. }
  assert (Hcols : ∀ c, c ∈ columns df →
            length c.2 = nrows df ∧
            if String.eqb c.1 "date"
            then map (date_cell parser (read_back c)) (read_back c) = c.2
            else read_back c = c.2).
  { intros c Hc.
    destruct (Forall2_both _ _ _ _ Hconf Hsurv c Hc)
      as (s & Hs & (Hn & Hl & Hty) & Hok).
    split; [done|]. eapply read_back_column; eauto. }
  assert (Hwidth : (2 <= length (columns df))%nat).
  { by rewrite (Forall2_length _ _ _ Hconf). }
  set (loaded := {| nrows := nrows df;
                    columns := map (fun c => (c.1, read_back c))
                                 (columns df) |}).
  assert (Hlnames : names loaded = map fst schema).
  { rewrite <- Hnames. unfold names, loaded. simpl. rewrite map_map.
    by apply map_ext. }
  assert (Hload : load_csv (save_csv df path fs) path (map fst schema)
                  = Ok loaded).
  { unfold load_csv, save_csv. rewrite lookup_insert_eq.
    rewrite read_csv_to_csv; [|done|].
    - cbn [mbind result_bind]. fold loaded. rewrite <- Hlnames.
      apply coerce_own_names. by rewrite Hlnames.
    - apply Forall_forall. intros c Hc. by apply Hcols. }
  unfold reload. rewrite Hload. cbn [mbind result_bind].
  assert (Hin : "date" ∈ names loaded) by (by rewrite Hlnames).
  destruct (getitem_has_column loaded "date" Hin) as [values Hv].
  rewrite (ensure_date_col_spec parser loaded "date" values Hin Hv).
  f_equal. destruct df as [n cs]. simpl in *.
  destruct (df_empty loaded) eqn:Hempty.
  - unfold loaded. f_equal. rewrite <- (map_id cs) at 2. apply map_ext_in.
    intros c Hc. apply list_elem_of_In in Hc. destruct (Hcols c Hc) as [Hl _].
    unfold df_empty, loaded in Hempty. simpl in Hempty.
    assert (Hn : n = 0%nat).
    { apply orb_true_iff in Hempty as [H|H]; [by apply Nat.eqb_eq in H|].
      destruct cs; [simpl in Hwidth; lia|done]. }
    rewrite Hn in Hl. apply nil_length_inv in Hl. destruct c as [name vals].
    simpl in Hl. by rewrite Hl.
  - unfold setitem. rewrite (has_column_true _ _ Hin). unfold loaded. simpl.
    f_equal. rewrite map_map. rewrite <- (map_id cs) at 2. apply map_ext_in.
    intros c Hc. apply list_elem_of_In in Hc. destruct (Hcols c Hc) as [_ Hb].
    simpl. destruct (String.eqb_spec c.1 "date") as [E|E].
    + assert (Hval : values = read_back c).
      { unfold getitem, loaded in Hv. simpl in Hv.
        assert (Hf : find_col (map (fun c => (c.1, read_back c)) cs) "date"
                     = Some (c.1, read_back c)).
        { rewrite <- E. apply (find_col_NoDup _ (c.1, read_back c)).
          - fold (names loaded) in Hlnames. unfold names, loaded in Hlnames.
            simpl in Hlnames. by rewrite Hlnames.
          - by apply (list_elem_of_fmap_2 (fun c => (c.1, read_back c))). }
        rewrite Hf in Hv. by injection Hv as <-. }
      rewrite Hval, Hb, <- E. by destruct c.
    + rewrite Hb. by destruct c.
Qed.

Lemma nutrition_schema_store : store_schema nutrition_schema.
Proof.
  split; [|split; [|split]].
  - simpl. repeat (constructor; [not_in_list|]). constructor.
  - simpl. lia.
  - by left.
  - intros s Hs.
    repeat (apply elem_of_cons in Hs as [->|Hs]; [by split|]).
    by apply elem_of_nil in Hs.
Qed.

Lemma workout_schema_store : store_schema workout_schema.
Proof.
  split; [|split; [|split]].
  - simpl. repeat (constructor; [not_in_list|]). constructor.
  - simpl. lia.
  - by left.
  - intros s Hs.
    repeat (apply elem_of_cons in Hs as [->|Hs]; [by split|]).
    by apply elem_of_nil in Hs.
Qed.

Lemma two_workouts_conforms : conforms workout_schema two_workouts.
Proof.
  unfold conforms, two_workouts, workout_schema. simpl.
  repeat (constructor; [by repeat constructor|]). constructor.
Qed.

Lemma two_workouts_survives : survives iso_parser workout_schema two_workouts.
Proof.
  unfold survives, two_workouts, workout_schema. cbn [columns].
  constructor; [|constructor; [|constructor; [|constructor;
    [|constructor; [|constructor; [|constructor]]]]]]; cbn [snd carried].
  - intros column t Ht. apply elem_of_cons in Ht as [[= ->]|Ht].
    + eexists. split; reflexivity.
    + apply elem_of_cons in Ht as [Ht|Ht]; [done|by apply elem_of_nil in Ht].
  - split.
    + repeat constructor; unfold na_values; not_in_list.
    + right. exists "Bench". split; [by left|reflexivity].
  - repeat constructor; unfold fits_int64; lia.
  - repeat constructor; unfold fits_int64; lia.
  - constructor; [|constructor; [|constructor]]; unfold plain_float; simpl;
      (split; [lia|split; [lia|]]); [by left|by right].
  - split.
    + repeat constructor; unfold na_values; not_in_list.
    + right. exists "felt good". split; [by right; left|reflexivity].
Qed.




(** * Further properties of the store and of the pages *)

Lemma bind_Ok {A B} (m : result A) (f : A → result B) y :
  m ≫= f = Ok y → ∃ x, m = Ok x ∧ f x = Ok y.
Proof. destruct m as [x|e]; [by exists x|done]. Qed.

Lemma bind_of_Ok {A B} (m : result A) (f : A → result B) x :
  m = Ok x → m ≫= f = f x.
Proof. by intros ->. Qed.

(** ** The date normalizer, again *)

Lemma getitem_Ok_names df col values :
  getitem df col = Ok values → col ∈ names df.
Proof.
  unfold getitem. destruct (find_col (columns df) col) as [c|] eqn:E; [|done].
  intros _. apply find_col_Some in E as [<- Hc]. by apply list_elem_of_fmap_2.
Qed.

Lemma date_cell_date_cell parser column column' c :
  date_cell parser column' (date_cell parser column c)
  = date_cell parser column c.
Proof.
  destruct c as [|s|z|i f|t]; simpl; try done;
    by destruct (parser column _).
Qed.

Lemma df_empty_setitem df col values :
  col ∈ names df → df_empty (setitem df col values) = df_empty df.
Proof.
  intros H. unfold setitem. rewrite (has_column_true _ _ H).
  unfold df_empty. simpl. by destruct (columns df).
Qed.

(** Normalizing the dates of a frame twice is normalizing them once. *)
Theorem ensure_date_col_idempotent parser df col out :
  ensure_date_col parser df col = Ok out →
  ensure_date_col parser out col = Ok out.
Proof.
  intros H. destruct (df_empty df) eqn:Hempty.
  - unfold ensure_date_col in H. rewrite Hempty in H. injection H as <-.
    unfold ensure_date_col. by rewrite Hempty.
  - assert (Hv : ∃ values, getitem df col = Ok values).
    { unfold ensure_date_col in H. rewrite Hempty in H.
      destruct (getitem df col) as [values|e]; [by eexists|done]. }
    destruct Hv as [values Hv].
    assert (Hin := getitem_Ok_names _ _ _ Hv).
    rewrite (ensure_date_col_spec parser df col values Hin Hv), Hempty in H.
    injection H as <-.
    set (values' := map (date_cell parser values) values).
    assert (Hin' : col ∈ names (setitem df col values'))
      by (by rewrite names_setitem).
    rewrite (ensure_date_col_spec parser _ col values' Hin'
               (getitem_setitem df col values' Hin)).
    rewrite df_empty_setitem, Hempty by done.
    rewrite setitem_setitem by done. do 2 f_equal. unfold values'.
    rewrite map_map. apply map_ext. intros c. apply date_cell_date_cell.
Qed.

Lemma ensure_date_col_idempotent_witness :
  let df := {| nrows := 2;
               columns := [("date", [Text "2024-01-08"; Text "later"]);
                           ("weight", [Int 135; Int 140])] |} in
  let out := {| nrows := 2;
                columns := [("date", [Stamp {| ts_day := 19730;
                                               ts_second := 0 |}; NA]);
                            ("weight", [Int 135; Int 140])] |} in
  ensure_date_col iso_parser out "date" = Ok out.
Proof.
  intros df out.
  apply (ensure_date_col_idempotent iso_parser df "date" out). reflexivity.
Defined.

(** ** Coercion, again *)

(** Coercing a coerced frame to the same schema changes nothing. *)
Theorem coerce_idempotent df cols out :
  NoDup (names df) → NoDup cols →
  coerce df cols = Ok out → coerce out cols = Ok out.
Proof.
  intros Hnd Hcols H. rewrite coerce_spec in H by done. injection H as <-.
  set (out := {| nrows := nrows df;
                 columns := map (fun col => (col, coerced_column df col))
                              cols |}).
  assert (Hn : names out = cols).
  { unfold names, out. simpl. rewrite map_map. apply map_id. }
  assert (E := coerce_own_names out). rewrite Hn in E. by apply E.
Qed.

Lemma coerce_idempotent_witness :
  let out := {| nrows := 1;
                columns := [("date", [NA]); ("exercise", [NA]);
                            ("sets", [NA]); ("reps", [NA]);
                            ("weight", [Int 135]); ("notes", [NA])] |} in
  coerce {| nrows := 1;
            columns := [("weight", [Int 135]); ("mood", [Text "ok"])] |}
    workout_cols = Ok out ∧
  coerce out workout_cols = Ok out.
Proof.
  intros out.
  assert (E : coerce {| nrows := 1;
                        columns := [("weight", [Int 135]);
                                    ("mood", [Text "ok"])] |}
                workout_cols = Ok out) by (vm_compute; reflexivity).
  split; [exact E|].
  eapply (coerce_idempotent
            {| nrows := 1;
               columns := [("weight", [Int 135]); ("mood", [Text "ok"])] |}).
  - unfold names. simpl. repeat (constructor; [not_in_list|]). constructor.
  - unfold workout_cols. repeat (constructor; [not_in_list|]). constructor.
  - exact E.
Defined.

(** ** The two frames a run starts from *)

Lemma coerced_column_length df col :
  Forall (fun c => length c.2 = nrows df) (columns df) →
  length (coerced_column df col) = nrows df.
Proof.
  intros Hwf. unfold coerced_column, getitem.
  destruct (find_col (columns df) col) as [c|] eqn:E.
  - apply find_col_Some in E as [_ Hc]. rewrite Forall_forall in Hwf.
    by apply Hwf.
  - apply length_replicate.
Qed.

Lemma setitem_lengths df col values :
  Forall (fun c => length c.2 = nrows df) (columns df) →
  length values = nrows df →
  Forall (fun c => length c.2 = nrows (setitem df col values))
    (columns (setitem df col values)).
Proof.
  intros Hwf Hv. unfold setitem. destruct (has_column df col); simpl.
  - apply Forall_forall. intros c Hc.
    change (c ∈ (fun c => if String.eqb c.1 col then (col, values) else c)
                <$> columns df) in Hc.
    apply list_elem_of_fmap in Hc as (c0 & -> & Hc0).
    destruct (String.eqb c0.1 col); [done|].
    rewrite Forall_forall in Hwf. by apply Hwf.
  - apply Forall_app. split; [done|]. by repeat constructor.
Qed.

Lemma setitem_nrows df col values : nrows (setitem df col values) = nrows df.
Proof. unfold setitem. by destruct (has_column df col). Qed.

Lemma coerce_normalize_table parser raw cols :
  well_formed raw → "date" ∈ cols →
  ∃ loaded df, coerce raw cols = Ok loaded ∧
               ensure_date_col parser loaded "date" = Ok df ∧
               schema_table parser cols raw df.
Proof.
  intros [Hnd Hwf] Hdate.
  set (loaded := {| nrows := nrows raw;
                    columns := map (fun col => (col, coerced_column raw col))
                                 cols |}).
  exists loaded. rewrite (coerce_spec raw cols Hnd). fold loaded.
  assert (Hln : names loaded = cols).
  { unfold names, loaded. simpl. rewrite map_map. apply map_id. }
  assert (Hlwf : Forall (fun c => length c.2 = nrows loaded) (columns loaded)).
  { apply Forall_forall. intros c Hc. unfold loaded in Hc. simpl in Hc.
    change (c ∈ (fun col => (col, coerced_column raw col)) <$> cols) in Hc.
    apply list_elem_of_fmap in Hc as (col & -> & _). simpl.
    by apply coerced_column_length. }
  assert (Hin : "date" ∈ names loaded) by (by rewrite Hln).
  assert (Hget : ∀ col, col ∈ cols →
                        getitem loaded col = Ok (coerced_column raw col)).
  { intros col Hcol. unfold getitem, loaded. simpl.
    destruct (find_col _ col) as [c|] eqn:E.
    - apply find_col_Some in E as [E Hc].
      change (c ∈ (fun col => (col, coerced_column raw col)) <$> cols) in Hc.
      apply list_elem_of_fmap in Hc as (col' & -> & _). simpl in E.
      by subst col'.
    - apply find_col_None in E. change (col ∉ names loaded) in E.
      by rewrite Hln in E. }
  assert (Hv := Hget "date" Hdate).
  rewrite (ensure_date_col_spec parser loaded "date" _ Hin Hv).
  eexists. split; [done|]. split; [done|].
  destruct (df_empty loaded) eqn:Hempty.
  - split; [done|]. split; [done|]. split; [done|].
    intros col Hcol. rewrite (Hget col Hcol).
    destruct (String.eqb_spec col "date") as [->|_]; [|done].
    assert (Hn : nrows raw = 0%nat).
    { unfold df_empty, loaded in Hempty. simpl in Hempty.
      apply orb_true_iff in Hempty as [H|H]; [by apply Nat.eqb_eq in H|].
      destruct cols; [by apply elem_of_nil in Hdate|done]. }
    assert (Hlen := coerced_column_length raw "date" Hwf).
    rewrite Hn in Hlen. apply nil_length_inv in Hlen. by rewrite Hlen.
  - split; [by rewrite names_setitem|].
    split; [by rewrite setitem_nrows|]. split.
    + apply setitem_lengths; [done|]. rewrite length_map.
      exact (coerced_column_length raw _ Hwf).
    + intros col Hcol. destruct (String.eqb_spec col "date") as [->|Hne].
      * by apply getitem_setitem.
      * rewrite getitem_setitem_other by done. by apply Hget.
Qed.


Lemma date_weight_frame :
  read_csv date_weight_file =
  Ok {| nrows := 2;
        columns := [("date", [Text "2024-01-01"; Text "2024-01-03"]);
                    ("weight", [Float 135 (Decimal.D0 Decimal.Nil);
                                Float 140 (Decimal.D0 Decimal.Nil)])] |}.
Proof. reflexivity. Qed.

Lemma date_weight_well_formed :
  well_formed
    {| nrows := 2;
       columns := [("date", [Text "2024-01-01"; Text "2024-01-03"]);
                   ("weight", [Float 135 (Decimal.D0 Decimal.Nil);
                               Float 140 (Decimal.D0 Decimal.Nil)])] |}.
Proof.
  split.
  - unfold names. simpl. repeat (constructor; [not_in_list|]). constructor.
  - by repeat constructor.
Qed.


(** ** The import *)


(** ** The two tables side by side *)

(** Each table has its own file: whatever is saved, added or imported for
    one table, the other table loads as before. *)
Theorem tables_independent parser (fs : gmap string csv_file) :
  (∀ df, workouts_df parser (save_csv df "nutrition.csv" fs)
         = workouts_df parser fs) ∧
  (∀ df, nutrition_df parser (save_csv df "workouts.csv" fs)
         = nutrition_df parser fs) ∧
  (∀ file out fs', import_nutrition parser file fs = Ok (out, fs') →
     workouts_df parser fs' = workouts_df parser fs) ∧
  (∀ file out fs', import_workouts parser file fs = Ok (out, fs') →
     nutrition_df parser fs' = nutrition_df parser fs) ∧
  (∀ n_date calories protein carbs fat sugar n_notes df,
     workouts_df parser
       (add_nutrition_entry n_date calories protein carbs fat sugar n_notes
          df fs).2
     = workouts_df parser fs) ∧
  (∀ w_date exercise sets reps weight notes df,
     nutrition_df parser
       (add_workout_entry w_date exercise sets reps weight notes df fs).2
     = nutrition_df parser fs).
Proof.
  assert (Hw : ∀ df, workouts_df parser (save_csv df "nutrition.csv" fs)
                     = workouts_df parser fs).
  { intros df. unfold workouts_df, load_csv, save_csv.
    by rewrite lookup_insert_ne. }
  assert (Hn : ∀ df, nutrition_df parser (save_csv df "workouts.csv" fs)
                     = nutrition_df parser fs).
  { intros df. unfold nutrition_df, load_csv, save_csv.
    by rewrite lookup_insert_ne. }
  split; [done|]. split; [done|]. split; [|split; [|split]].
  - intros file out fs' H. unfold import_nutrition in H.
    apply bind_Ok in H as (raw & _ & H). apply bind_Ok in H as (c & _ & H).
    apply bind_Ok in H as (d & _ & H). injection H as _ <-. apply Hw.
  - intros file out fs' H. unfold import_workouts in H.
    apply bind_Ok in H as (raw & _ & H). apply bind_Ok in H as (c & _ & H).
    apply bind_Ok in H as (d & _ & H). injection H as _ <-. apply Hn.
  - intros. apply Hw.
  - intros. apply Hn.
Qed.

Lemma tables_independent_witness :
  import_nutrition iso_parser {| header := ["date"]; lines := [] |} ∅
  = Ok (empty_frame nutrition_cols,
        save_csv (empty_frame nutrition_cols) "nutrition.csv" ∅) ∧
  workouts_df iso_parser
    (save_csv (empty_frame nutrition_cols) "nutrition.csv" ∅)
  = workouts_df iso_parser ∅.
Proof.
  assert (E : import_nutrition iso_parser
                {| header := ["date"]; lines := [] |} ∅
              = Ok (empty_frame nutrition_cols,
                    save_csv (empty_frame nutrition_cols) "nutrition.csv" ∅)).
  { unfold import_nutrition.
    rewrite (bind_of_Ok _ _ {| nrows := 0; columns := [("date", [])] |})
      by reflexivity.
    rewrite (bind_of_Ok _ _ (empty_frame nutrition_cols))
      by (vm_compute; reflexivity).
    by rewrite (bind_of_Ok _ _ (empty_frame nutrition_cols)) by reflexivity. }
  split; [exact E|].
  exact (proj1 (proj2 (proj2 (tables_independent iso_parser ∅))) _ _ _ E).
Defined.
(** ** Adding an entry *)

Lemma conforms_names schema df : conforms schema df → names df = map fst schema.
Proof.
  unfold names, conforms.
  induction 1 as [|c s cs ss [E _] _ IH]; simpl; [done|]. by rewrite E, IH.
Qed.

Lemma coerced_column_NoDup df c :
  NoDup (names df) → c ∈ columns df → coerced_column df c.1 = c.2.
Proof.
  intros Hnd Hc. unfold coerced_column, getitem.
  by rewrite (find_col_NoDup _ _ Hnd Hc).
Qed.

Lemma filter_none {A} (p : A → bool) l :
  (∀ x, x ∈ l → p x = false) → List.filter p l = [].
Proof.
  induction l as [|x l IH]; intros H; [done|]. simpl.
  rewrite (H x) by (by left). apply IH. intros y Hy. apply H. by right.
Qed.

(** A row under a table that has the labels of the row, in its order: each
    column gets the cell of the row at its end. *)
Lemma concat_row df row :
  NoDup (names df) → names df = map fst row →
  concat df (frame_of_row row) =
  {| nrows := nrows df + 1;
     columns := zip_with (fun c kv => (c.1, common_type (c.2 ++ [kv.2])))
                  (columns df) row |}.
Proof.
  intros Hnd Hnames. unfold concat. f_equal.
  assert (Hother : names (frame_of_row row) = names df).
  { rewrite Hnames. unfold names, frame_of_row. simpl. rewrite map_map.
    by apply map_ext. }
  rewrite Hother.
  rewrite filter_none.
  2:{ intros l Hl. by rewrite (has_column_true _ _ Hl). }
  rewrite app_nil_r. apply list_eq. intros i.
  change (map ?f ?l) with (f <$> l).
  rewrite list_lookup_fmap, lookup_zip_with. unfold names.
  change (map fst (columns df)) with (fst <$> columns df).
  rewrite list_lookup_fmap.
  destruct (columns df !! i) as [c|] eqn:Hc; [|done]. simpl.
  assert (Hi : (fst <$> row) !! i = Some c.1).
  { change (fst <$> row) with (map fst row). rewrite <- Hnames.
    unfold names. change (map fst (columns df)) with (fst <$> columns df).
    by rewrite list_lookup_fmap, Hc. }
  rewrite list_lookup_fmap in Hi.
  destruct (row !! i) as [kv|] eqn:Hkv; [|done]. simpl in Hi.
  injection Hi as Hi. simpl. f_equal. f_equal. f_equal.
  transitivity (c.2 ++ coerced_column (frame_of_row row) c.1);
    [f_equal|f_equal].
  - apply coerced_column_NoDup; [done|]. by eapply list_elem_of_lookup_2.
  - assert (Hin : (kv.1, [kv.2]) ∈ columns (frame_of_row row)).
    { unfold frame_of_row. simpl.
      apply (list_elem_of_fmap_2 (fun kv => (kv.1, [kv.2]))).
      by eapply list_elem_of_lookup_2. }
    rewrite <- Hi.
    apply (coerced_column_NoDup (frame_of_row row) (kv.1, [kv.2]));
      [by rewrite Hother|done].
Qed.

Lemma common_type_text l s : common_type (l ++ [Text s]) = l ++ [Text s].
Proof.
  unfold common_type. rewrite !forallb_app. simpl.
  by rewrite !andb_false_r.
Qed.

Lemma common_type_int l z :
  Forall (cell_has_dtype int64) l → common_type (l ++ [Int z]) = l ++ [Int z].
Proof.
  intros H. unfold common_type. rewrite forallb_app.
  rewrite (proj2 (forallb_forall is_int l)); [done|].
  intros x Hx. apply list_elem_of_In in Hx. rewrite Forall_forall in H.
  specialize (H x Hx). by destruct x.
Qed.

Lemma common_type_float l i f :
  Forall (cell_has_dtype float64) l →
  common_type (l ++ [Float i f]) = l ++ [Float i f].
Proof.
  intros H. unfold common_type. rewrite !forallb_app. simpl.
  rewrite andb_false_r.
  destruct (forallb is_numeric_or_na l && true); [|done].
  rewrite map_app. simpl. f_equal. rewrite <- (map_id l) at 2.
  apply map_ext_in. intros x Hx. apply list_elem_of_In in Hx.
  rewrite Forall_forall in H. specialize (H x Hx). by destruct x.
Qed.

Ltac columns_of_schema H :=
  repeat (let c := fresh "c" in
          let Hn := fresh "Hn" in
          let Ht := fresh "Ht" in
          apply Forall2_cons_inv_r in H as (c & ? & (Hn & _ & Ht) & H & ->));
  apply Forall2_nil_inv_r in H as ->.

(** "Add Workout Entry" and "Add Nutrition Entry" on a table of the schema:
    one row more, the rows the table had stay as they were and in their
    order, and the values of the form are the last row, the date as the text
    the form renders. *)
Theorem add_entry_appends :
  (∀ w_date exercise sets reps weight notes df fs,
     conforms workout_schema df →
     (add_workout_entry w_date exercise sets reps weight notes df fs).1 =
     {| nrows := nrows df + 1;
        columns := zip_with (fun c kv => (c.1, c.2 ++ [kv.2])) (columns df)
                     (workout_row w_date exercise sets reps weight notes) |}) ∧
  (∀ n_date calories protein carbs fat sugar n_notes df fs,
     conforms nutrition_schema df →
     (add_nutrition_entry n_date calories protein carbs fat sugar n_notes
        df fs).1 =
     {| nrows := nrows df + 1;
        columns := zip_with (fun c kv => (c.1, c.2 ++ [kv.2])) (columns df)
                     (nutrition_row n_date calories protein carbs fat sugar
                        n_notes) |}).
Proof.
  split.
  - intros w_date exercise sets reps weight notes df fs Hconf.
    assert (Hnames := conforms_names _ _ Hconf).
    unfold add_workout_entry. cbn [fst]. rewrite concat_row.
    + f_equal. unfold conforms, workout_schema in Hconf.
      destruct df as [n cs]. cbn [columns nrows] in *.
      columns_of_schema Hconf. unfold workout_row.
      cbn [zip_with fst snd] in *.
      by rewrite !common_type_text, !common_type_int, common_type_float.
    + rewrite Hnames. simpl. repeat (constructor; [not_in_list|]).
      constructor.
    + by rewrite Hnames.
  - intros n_date calories protein carbs fat sugar n_notes df fs Hconf.
    assert (Hnames := conforms_names _ _ Hconf).
    unfold add_nutrition_entry. cbn [fst]. rewrite concat_row.
    + f_equal. unfold conforms, nutrition_schema in Hconf.
      destruct df as [n cs]. cbn [columns nrows] in *.
      columns_of_schema Hconf. unfold nutrition_row.
      cbn [zip_with fst snd] in *.
      by rewrite !common_type_text, common_type_int, !common_type_float.
    + rewrite Hnames. simpl. repeat (constructor; [not_in_list|]).
      constructor.
    + by rewrite Hnames.
Qed.

Lemma add_entry_appends_witness :
  (add_workout_entry 19730 "Squat" 5 5 (140, Decimal.D0 Decimal.Nil) ""
     two_workouts ∅).1 =
  {| nrows := 3;
     columns :=
       [("date", [Stamp {| ts_day := 19723; ts_second := 0 |}; NA;
                  Text (format_date 19730)]);
        ("exercise", [Text "Bench"; Text "Squat"; Text "Squat"]);
        ("sets", [Int 3; Int 5; Int 5]); ("reps", [Int 10; Int 5; Int 5]);
        ("weight", [Float 135 (Decimal.D0 Decimal.Nil);
                    Float 137 (Decimal.D5 Decimal.Nil);
                    Float 140 (Decimal.D0 Decimal.Nil)]);
        ("notes", [NA; Text "felt good"; Text ""])] |}.
Proof.
  apply (proj1 add_entry_appends).
  unfold conforms, two_workouts, workout_schema. simpl.
  repeat (constructor; [by repeat constructor|]). constructor.
Defined.
(** ** The export, and importing it again *)

(** The file a table of the store is written to is read back in three
    steps: [read_csv] gives a frame with the labels of the table, the loop
    and the projection leave it alone, and the date normalization gives the
    table. *)
Lemma to_csv_read_back parser schema df :
  store_schema schema → conforms schema df → survives parser schema df →
  ∃ loaded, read_csv (to_csv df) = Ok loaded ∧
            coerce loaded (map fst schema) = Ok loaded ∧
            ensure_date_col parser loaded "date" = Ok df.
Proof.
  intros (Hnd & Hlen & Hdate & Hiff) Hconf Hsurv.
  assert (Hnames := conforms_names _ _ Hconf).
  assert (Hcols : ∀ c, c ∈ columns df →
            length c.2 = nrows df ∧
            if String.eqb c.1 "date"
            then map (date_cell parser (read_back c)) (read_back c) = c.2
            else read_back c = c.2).
  { intros c Hc.
    destruct (Forall2_both _ _ _ _ Hconf Hsurv c Hc)
      as (s & Hs & (Hn & Hl & Hty) & Hok).
    split; [done|]. eapply read_back_column; eauto. }
  assert (Hwidth : (2 <= length (columns df))%nat).
  { by rewrite (Forall2_length _ _ _ Hconf). }
  set (loaded := {| nrows := nrows df;
                    columns := map (fun c => (c.1, read_back c))
                                 (columns df) |}).
  assert (Hlnames : names loaded = map fst schema).
  { rewrite <- Hnames. unfold names, loaded. simpl. rewrite map_map.
    by apply map_ext. }
  exists loaded. split; [|split].
  - apply read_csv_to_csv; [done|].
    apply Forall_forall. intros c Hc. by apply Hcols.
  - rewrite <- Hlnames. apply coerce_own_names. by rewrite Hlnames.
  - assert (Hin : "date" ∈ names loaded) by (by rewrite Hlnames).
    destruct (getitem_has_column loaded "date" Hin) as [values Hv].
    rewrite (ensure_date_col_spec parser loaded "date" values Hin Hv).
    f_equal. destruct df as [n cs]. simpl in *.
    destruct (df_empty loaded) eqn:Hempty.
    + unfold loaded. f_equal. rewrite <- (map_id cs) at 2. apply map_ext_in.
      intros c Hc. apply list_elem_of_In in Hc.
      destruct (Hcols c Hc) as [Hl _].
      unfold df_empty, loaded in Hempty. simpl in Hempty.
      assert (Hn : n = 0%nat).
      { apply orb_true_iff in Hempty as [H|H]; [by apply Nat.eqb_eq in H|].
        destruct cs; [simpl in Hwidth; lia|done]. }
      rewrite Hn in Hl. apply nil_length_inv in Hl. destruct c as [name vals].
      simpl in Hl. by rewrite Hl.
    + unfold setitem. rewrite (has_column_true _ _ Hin). unfold loaded. simpl.
      f_equal. rewrite map_map. rewrite <- (map_id cs) at 2. apply map_ext_in.
      intros c Hc. apply list_elem_of_In in Hc.
      destruct (Hcols c Hc) as [_ Hb].
      simpl. destruct (String.eqb_spec c.1 "date") as [E|E].
      * assert (Hval : values = read_back c).
        { unfold getitem, loaded in Hv. simpl in Hv.
          assert (Hf : find_col (map (fun c => (c.1, read_back c)) cs) "date"
                       = Some (c.1, read_back c)).
          { rewrite <- E. apply (find_col_NoDup _ (c.1, read_back c)).
            - fold (names loaded) in Hlnames. unfold names, loaded in Hlnames.
              simpl in Hlnames. by rewrite Hlnames.
            - by apply (list_elem_of_fmap_2 (fun c => (c.1, read_back c))). }
          rewrite Hf in Hv. by injection Hv as <-. }
        rewrite Hval, Hb, <- E. by destruct c.
      * rewrite Hb. by destruct c.
Qed.

(** The file the export offers can be imported again: for a table of the
    schema that the file format can carry, importing the download gives the
    table back and saves it.  An empty table offers no download. *)
Theorem export_import_roundtrip parser (fs : gmap string csv_file) :
  (∀ df, conforms workout_schema df → survives parser workout_schema df →
     if df_empty df
     then export_workouts df = export_info "No workout data to export."
     else ∃ data,
       export_workouts df = download_button "workouts_export.csv" data ∧
       import_workouts parser data fs
       = Ok (df, save_csv df "workouts.csv" fs)) ∧
  (∀ df, conforms nutrition_schema df → survives parser nutrition_schema df →
     if df_empty df
     then export_nutrition df = export_info "No nutrition data to export."
     else ∃ data,
       export_nutrition df = download_button "nutrition_export.csv" data ∧
       import_nutrition parser data fs
       = Ok (df, save_csv df "nutrition.csv" fs)).
Proof.
  split; intros df Hconf Hsurv.
  - unfold export_workouts. destruct (df_empty df); [done|].
    eexists. split; [done|].
    destruct (to_csv_read_back parser _ df workout_schema_store Hconf Hsurv)
      as (loaded & H1 & H2 & H3).
    unfold import_workouts. rewrite (bind_of_Ok _ _ _ H1).
    change workout_cols with (map fst workout_schema).
    by rewrite (bind_of_Ok _ _ _ H2), (bind_of_Ok _ _ _ H3).
  - unfold export_nutrition. destruct (df_empty df); [done|].
    eexists. split; [done|].
    destruct (to_csv_read_back parser _ df nutrition_schema_store Hconf Hsurv)
      as (loaded & H1 & H2 & H3).
    unfold import_nutrition. rewrite (bind_of_Ok _ _ _ H1).
    change nutrition_cols with (map fst nutrition_schema).
    by rewrite (bind_of_Ok _ _ _ H2), (bind_of_Ok _ _ _ H3).
Qed.

Lemma export_import_roundtrip_witness :
  ∃ data,
    export_workouts two_workouts
    = download_button "workouts_export.csv" data ∧
    import_workouts iso_parser data ∅
    = Ok (two_workouts, save_csv two_workouts "workouts.csv" ∅).
Proof.
  exact (proj1 (export_import_roundtrip iso_parser ∅) two_workouts
           two_workouts_conforms two_workouts_survives).
Defined.
(** ** The recent entries *)

Lemma StronglySorted_app_inv {A} (R : A → A → Prop) l1 l2 :
  StronglySorted R (l1 ++ l2) →
  StronglySorted R l1 ∧ StronglySorted R l2 ∧
  ∀ x y, x ∈ l1 → y ∈ l2 → R x y.
Proof.
  induction l1 as [|a l1 IH]; simpl; intros H.
  - split; [constructor|]. split; [done|]. intros x y Hx.
    by apply elem_of_nil in Hx.
  - apply StronglySorted_inv in H as [Hs Hall].
    destruct (IH Hs) as (H1 & H2 & H3). apply Forall_app in Hall as [Ha1 Ha2].
    split; [by constructor|]. split; [done|]. intros x y Hx Hy.
    apply elem_of_cons in Hx as [->|Hx]; [|by apply H3].
    rewrite Forall_forall in Ha2. by apply Ha2.
Qed.

Lemma key_le_latest_first a b : key_le false a b = true → latest_first a b.
Proof.
  unfold latest_first. destruct a, b; simpl; try done. apply Z.leb_le.
Qed.

(** Without a click: the rows shown and the rows left out are together the
    table; twenty rows are shown, or all when the table has fewer; the
    latest date comes first, the rows without a date last; and no row left
    out is later than a row shown. *)
Lemma recent_loaded {A New} (key : A → option Z) df :
  ∃ shown rest,
    recent key df (@None New) = Ok (map inr shown) ∧
    shown ++ rest ≡ₚ df ∧
    length shown = Nat.min 20 (length df) ∧
    StronglySorted (fun r1 r2 => latest_first (key r1) (key r2)) shown ∧
    ∀ x y, x ∈ shown → y ∈ rest → latest_first (key x) (key y).
Proof.
  exists (take 20 (sort_values key false df)),
    (drop 20 (sort_values key false df)).
  assert (Hs := sort_values_sorted key false df).
  rewrite <- (take_drop 20 (sort_values key false df)) in Hs.
  apply StronglySorted_app_inv in Hs as (H1 & _ & H3).
  split; [done|].
  split; [by rewrite take_drop, sort_values_perm|].
  split; [by rewrite length_take, (Permutation_length
                                     (sort_values_perm key false df))|].
  split.
  - eapply StronglySorted_weaken; [|exact H1].
    intros a b. apply key_le_latest_first.
  - intros x y Hx Hy. by apply key_le_latest_first, H3.
Qed.

(** After a click: the sort raises when a loaded row has a date. *)
Lemma recent_clicked {A New} (key : A → option Z) df (row : New) :
  recent key df (Some row) =
  if decide (Exists (fun r => is_Some (key r)) df) then Raise TypeError
  else Ok (take 20 (inl row :: map inr df)).
Proof.
  unfold recent.
  destruct (existsb _ df) eqn:E.
  - apply existsb_exists in E as (r & Hr & Hd).
    apply bool_decide_eq_true in Hd. apply list_elem_of_In in Hr.
    rewrite decide_True; [done|]. apply Exists_exists. eauto.
  - rewrite decide_False; [done|]. intros H.
    apply Exists_exists in H as (r & Hr & Hd).
    assert (E' : existsb (fun r => bool_decide (is_Some (key r))) df = true).
    { apply existsb_exists. exists r.
      split; [by apply list_elem_of_In|by apply bool_decide_eq_true]. }
    congruence.
Qed.

(** "Recent Workout Entries" and "Recent Nutrition Entries".  On a run
    without a click: the message for an empty table only; otherwise the
    twenty most recent rows, or all when the table has fewer, latest first
    and the rows without a date at the end.  On the run of a click: when a
    loaded row has a date, the sort meets a timestamp and the text of the new
    date and the page stops on TypeError; when no loaded row has a date, the
    new row is shown first, the loaded rows after it. *)
Theorem recent_entries_shown :
  (∀ (New : Type) (df : list WorkoutRecord),
     match df with
     | [] => recent_workout_entries df (@None New)
             = Ok (recent_info "No workouts logged yet.")
     | _ :: _ =>
         ∃ shown rest,
           recent_workout_entries df (@None New)
           = Ok (recent_dataframe (map inr shown)) ∧
           shown ++ rest ≡ₚ df ∧
           length shown = Nat.min 20 (length df) ∧
           StronglySorted
             (fun r1 r2 => latest_first (w_date r1) (w_date r2)) shown ∧
           ∀ x y, x ∈ shown → y ∈ rest →
                  latest_first (w_date x) (w_date y)
     end) ∧
  (∀ (New : Type) (df : list WorkoutRecord) (row : New),
     if decide (Exists (fun r => is_Some (w_date r)) df)
     then recent_workout_entries df (Some row) = Raise TypeError
     else recent_workout_entries df (Some row)
          = Ok (recent_dataframe (take 20 (inl row :: map inr df)))) ∧
  (∀ (New : Type) (df : list NutritionRecord),
     match df with
     | [] => recent_nutrition_entries df (@None New)
             = Ok (recent_info "No nutrition entries yet.")
     | _ :: _ =>
         ∃ shown rest,
           recent_nutrition_entries df (@None New)
           = Ok (recent_dataframe (map inr shown)) ∧
           shown ++ rest ≡ₚ df ∧
           length shown = Nat.min 20 (length df) ∧
           StronglySorted
             (fun r1 r2 => latest_first (n_date r1) (n_date r2)) shown ∧
           ∀ x y, x ∈ shown → y ∈ rest →
                  latest_first (n_date x) (n_date y)
     end) ∧
  (∀ (New : Type) (df : list NutritionRecord) (row : New),
     if decide (Exists (fun r => is_Some (n_date r)) df)
     then recent_nutrition_entries df (Some row) = Raise TypeError
     else recent_nutrition_entries df (Some row)
          = Ok (recent_dataframe (take 20 (inl row :: map inr df)))).
Proof.
  split; [|split; [|split]].
  - intros New [|r df]; [done|].
    destruct (@recent_loaded _ New w_date (r :: df))
      as (shown & rest & H1 & H2).
    exists shown, rest. split; [|done].
    unfold recent_workout_entries. by rewrite H1.
  - intros New df row. unfold recent_workout_entries.
    assert (E : (match df, Some row with
                 | [], None => Ok (recent_info "No workouts logged yet.")
                 | _, _ => rows ← recent w_date df (Some row);
                           Ok (recent_dataframe rows)
                 end) = (rows ← recent w_date df (Some row);
                         Ok (recent_dataframe rows)))
      by (by destruct df).
    rewrite E, recent_clicked. by destruct (decide _).
  - intros New [|r df]; [done|].
    destruct (@recent_loaded _ New n_date (r :: df))
      as (shown & rest & H1 & H2).
    exists shown, rest. split; [|done].
    unfold recent_nutrition_entries. by rewrite H1.
  - intros New df row. unfold recent_nutrition_entries.
    assert (E : (match df, Some row with
                 | [], None => Ok (recent_info "No nutrition entries yet.")
                 | _, _ => rows ← recent n_date df (Some row);
                           Ok (recent_dataframe rows)
                 end) = (rows ← recent n_date df (Some row);
                         Ok (recent_dataframe rows)))
      by (by destruct df).
    rewrite E, recent_clicked. by destruct (decide _).
Qed.

Lemma recent_entries_shown_witness :
  recent_workout_entries [bench 3 135; bench 5 140] (Some "2024-01-08")
  = Raise TypeError.
Proof.
  exact (proj1 (proj2 recent_entries_shown) string
           [bench 3 135; bench 5 140] "2024-01-08").
Defined.
(** ** The select box of the history page *)

Lemma unique_from_elem seen l x :
  x ∈ unique_from seen l ↔ x ∈ l ∧ x ∉ seen.
Proof.
  revert seen. induction l as [|y l IH]; intros seen; simpl.
  - split; [intros H|intros [H _]]; by apply elem_of_nil in H.
  - destruct (decide (y ∈ seen)) as [Hy|Hy].
    + rewrite bool_decide_eq_true_2 by done. rewrite IH, elem_of_cons.
      split; [tauto|]. intros [[->|H] Hx]; [done|tauto].
    + rewrite bool_decide_eq_false_2 by done.
      rewrite !elem_of_cons, IH, elem_of_cons.
      split.
      * intros [->|[H Hx]]; [tauto|]. split; [tauto|]. tauto.
      * intros [[->|H] Hx]; [tauto|].
        destruct (decide (x = y)) as [->|Hne]; [tauto|]. right.
        split; [done|]. intros [?|?]; tauto.
Qed.

Lemma unique_from_NoDup seen l : NoDup (unique_from seen l).
Proof.
  revert seen. induction l as [|y l IH]; intros seen; simpl; [constructor|].
  destruct (bool_decide (y ∈ seen)); [apply IH|].
  constructor; [|apply IH]. rewrite unique_from_elem.
  intros [_ H]. apply H. by left.
Qed.

Lemma String_leb_trans s1 s2 s3 :
  String.leb s1 s2 = true → String.leb s2 s3 = true →
  String.leb s1 s3 = true.
Proof.
  unfold String.leb. revert s2 s3.
  induction s1 as [|a s1 IH]; intros [|b s2] [|c s3]; simpl; try done.
  unfold Ascii.compare.
  destruct (N.compare_spec (N_of_ascii a) (N_of_ascii b)) as [Hab|Hab|Hab],
    (N.compare_spec (N_of_ascii b) (N_of_ascii c)) as [Hbc|Hbc|Hbc];
    try done.
  - rewrite Hab, Hbc, N.compare_refl. apply IH.
  - intros _ _. rewrite Hab. by rewrite (proj2 (N.compare_lt_iff _ _) Hbc).
  - intros _ _. rewrite <- Hbc.
    by rewrite (proj2 (N.compare_lt_iff _ _) Hab).
  - intros _ _.
    by rewrite (proj2 (N.compare_lt_iff _ _) (N.lt_trans _ _ _ Hab Hbc)).
Qed.

Lemma exercises_elem df e :
  e ∈ exercises df ↔ ∃ r, r ∈ df ∧ w_exercise r = Some e.
Proof.
  unfold exercises, unique. rewrite sort_by_perm, unique_from_elem.
  rewrite list_elem_of_omap. split.
  - intros [H _]. exact H.
  - intros H. split; [exact H|apply not_elem_of_nil].
Qed.

Lemma filtered_nil_iff df sel :
  filtered df sel = [] ↔
  ∀ r, r ∈ df → exercise_eq (w_exercise r) sel = false.
Proof.
  unfold filtered. rewrite sort_values_nil. split.
  - intros H r Hr. destruct (exercise_eq (w_exercise r) sel) eqn:E; [|done].
    assert (Hin : In r (List.filter
                          (fun r => exercise_eq (w_exercise r) sel) df)).
    { apply filter_In. split; [by apply list_elem_of_In|done]. }
    by rewrite H in Hin.
  - intros H. apply filter_none. exact H.
Qed.

Lemma workout_history_page_warning df sel :
  df ≠ [] →
  workout_history_page df sel = Ok [st_warning no_data_msg] ↔
  filtered df sel = [].
Proof.
  intros Hne. unfold workout_history_page.
  destruct df as [|r0 df0]; [done|]. cbn [empty].
  destruct (filtered (r0 :: df0) sel) as [|f0 fs]; [done|]. cbn [empty].
  split; [|done]. destruct (negb (empty (dropna_weight (f0 :: fs)))).
  - cbn [mbind result_bind].
    by destruct (simple_stats (dropna_weight (f0 :: fs))).
  - done.
Qed.

(** The options of the select box are the exercise labels of the table,
    each once, in the order of their texts.  The rows of a selected option
    are never none: the page warns of an exercise without data only when
    nothing is selected, that is when no row has a label. *)
Theorem selectbox_options df i :
  df ≠ [] →
  NoDup (exercises df) ∧
  StronglySorted (fun a b => String.leb a b = true) (exercises df) ∧
  (∀ e, e ∈ exercises df ↔ ∃ r, r ∈ df ∧ w_exercise r = Some e) ∧
  (workout_history_page df (selectbox (exercises df) i)
   = Ok [st_warning no_data_msg] ↔
   selectbox (exercises df) i = None) ∧
  (selectbox (exercises df) 0 = None ↔
   ∀ r, r ∈ df → w_exercise r = None).
Proof.
  intros Hne. split; [|split; [|split; [|split]]].
  - unfold exercises. rewrite sort_by_perm. apply unique_from_NoDup.
  - apply sort_by_sorted; [apply String.leb_total|apply String_leb_trans].
  - apply exercises_elem.
  - rewrite workout_history_page_warning by done. rewrite filtered_nil_iff.
    destruct (selectbox (exercises df) i) as [e|] eqn:Hsel.
    + split; [|done]. intros H. exfalso.
      assert (He : e ∈ exercises df) by (by eapply list_elem_of_lookup_2).
      apply exercises_elem in He as (r & Hr & He).
      specialize (H r Hr). rewrite He in H. simpl in H.
      by rewrite String.eqb_refl in H.
    + split; [done|]. intros _ r _. by destruct (w_exercise r).
  - unfold selectbox. split.
    + intros H r Hr. destruct (w_exercise r) as [e|] eqn:He; [|done].
      assert (Hin : e ∈ exercises df) by (apply exercises_elem; eauto).
      destruct (exercises df); [by apply elem_of_nil in Hin|done].
    + intros H. destruct (exercises df) as [|e l] eqn:E; [done|].
      assert (Hin : e ∈ exercises df) by (rewrite E; by left).
      apply exercises_elem in Hin as (r & Hr & He).
      by rewrite (H r Hr) in He.
Qed.

Lemma selectbox_options_witness :
  NoDup (exercises [bench 3 135]) ∧
  StronglySorted (fun a b => String.leb a b = true)
    (exercises [bench 3 135]) ∧
  (∀ e, e ∈ exercises [bench 3 135] ↔
        ∃ r, r ∈ [bench 3 135] ∧ w_exercise r = Some e) ∧
  (workout_history_page [bench 3 135]
     (selectbox (exercises [bench 3 135]) 0)
   = Ok [st_warning no_data_msg] ↔
   selectbox (exercises [bench 3 135]) 0 = None) ∧
  (selectbox (exercises [bench 3 135]) 0 = None ↔
   ∀ r, r ∈ [bench 3 135] → w_exercise r = None).
Proof. apply (selectbox_options [bench 3 135] 0). discriminate. Defined.
(** ** The history table *)



(** ** The summary page and the rows without a date *)

Lemma apply_start_time_Raise impl to_period start df e :
  apply (fun r => start_time impl start (to_period <$> n_date r)) df
  = Raise e →
  e = AttributeError "'NaTType' object has no attribute 'start_time'" ∧
  impl = Elementwise ∧ ∃ r, r ∈ df ∧ n_date r = None.
Proof.
  induction df as [|r df IH]; [done|]. simpl.
  destruct (n_date r) as [d|] eqn:Hd; simpl.
  - destruct (apply _ df) as [col|e'] eqn:E; [done|]. intros [= ->].
    destruct (IH eq_refl) as (H1 & H2 & r' & Hr' & Hd').
    split; [done|]. split; [done|]. exists r'. split; [by right|done].
  - destruct impl; simpl.
    + destruct (apply _ df) as [col|e'] eqn:E; [done|]. intros [= ->].
      by destruct (IH eq_refl) as (_ & ? & _).
    + intros [= <-]. split; [done|]. split; [done|]. exists r.
      split; [by left|done].
Qed.

Lemma period_averages_Raise impl to_period start df e :
  period_averages impl to_period start df = Raise e →
  e = AttributeError "'NaTType' object has no attribute 'start_time'" ∧
  impl = Elementwise ∧ ∃ r, r ∈ df ∧ n_date r = None.
Proof.
  unfold period_averages, period_column.
  destruct (apply _ df) as [col|e'] eqn:E; [done|].
  cbn [mbind result_bind]. intros [= ->].
  by apply apply_start_time_Raise in E.
Qed.

(** ** The order of the rows of the table *)

Lemma sorted_lt_ext (l1 l2 : list Z) :
  StronglySorted Z.lt l1 → StronglySorted Z.lt l2 →
  (∀ x, x ∈ l1 ↔ x ∈ l2) → l1 = l2.
Proof.
  intros H1. revert l2. induction H1 as [|a l1 Hs1 IH Ha]; intros l2 H2 Hext.
  - destruct l2 as [|b l2]; [done|]. exfalso.
    apply (not_elem_of_nil b), Hext. by left.
  - destruct H2 as [|b l2 Hs2 Hb].
    { exfalso. apply (not_elem_of_nil a), Hext. by left. }
    rewrite Forall_forall in Ha, Hb.
    assert (a = b) as <-.
    { assert (H : a ∈ b :: l2) by (apply Hext; by left).
      assert (H' : b ∈ a :: l1) by (apply Hext; by left).
      apply elem_of_cons in H as [?|H]; [done|].
      apply elem_of_cons in H' as [?|H']; [done|].
      specialize (Ha _ H'). specialize (Hb _ H). lia. }
    f_equal. apply IH; [done|]. intros x. split; intros Hx.
    + assert (H : x ∈ a :: l2) by (apply Hext; by right).
      apply elem_of_cons in H as [->|H]; [|done].
      specialize (Ha _ Hx). lia.
    + assert (H : x ∈ a :: l1) by (apply Hext; by right).
      apply elem_of_cons in H as [->|H]; [|done].
      specialize (Hb _ Hx). lia.
Qed.

Lemma group_keys_perm keys keys' :
  keys ≡ₚ keys' → group_keys keys = group_keys keys'.
Proof.
  intros H. apply sorted_lt_ext; [apply group_keys_sorted..|].
  intros k. by rewrite !group_keys_elem, H.
Qed.

Lemma period_averages_perm impl to_period start t t' :
  t ≡ₚ t' →
  period_averages impl to_period start t =
  period_averages impl to_period start t'.
Proof.
  intros Hp.
  destruct (period_averages impl to_period start t) as [out|e] eqn:E.
  - apply period_averages_inv in E as Hok. rewrite period_averages_eq in E
      by done. injection E as <-.
    rewrite period_averages_eq.
    2:{ destruct Hok as [?|Hok]; [by left|right]. by rewrite <- Hp. }
    do 2 f_equal.
    rewrite <- (group_keys_perm _ _ (Permutation_map _ Hp)).
    apply map_ext. intros k. apply averages_of_perm.
    unfold bucket_rows. by apply filter_perm.
  - apply period_averages_Raise in E as (-> & -> & r & Hr & Hd).
    destruct (period_averages Elementwise to_period start t')
      as [out|e] eqn:E'.
    + exfalso. apply period_averages_inv in E' as [E'|E']; [done|].
      rewrite Forall_forall in E'. destruct (E' r) as [d Hd'].
      * by rewrite <- Hp.
      * congruence.
    + by apply period_averages_Raise in E' as (-> & _).
Qed.

(** What the summary page shows does not depend on the order the table has
    its rows in: the weekly and the monthly table, or the error, are the
    same, and the daily frame has the same rows. *)
Theorem summary_order_independent impl t t' :
  t ≡ₚ t' →
  weekly impl t = weekly impl t' ∧ monthly impl t = monthly impl t' ∧
  daily t ≡ₚ daily t'.
Proof.
  intros Hp. split; [|split].
  - apply period_averages_perm. unfold sorted_df.
    by rewrite !sort_values_perm.
  - apply period_averages_perm. unfold sorted_df.
    by rewrite !sort_values_perm.
  - by rewrite !daily_perm.
Qed.

Lemma summary_order_independent_witness :
  weekly WholeIndexFirst
    [meal (Some 19723) 2000 150 200 70 30; meal None 1800 140 180 60 20] =
  weekly WholeIndexFirst
    [meal None 1800 140 180 60 20; meal (Some 19723) 2000 150 200 70 30].
Proof.
  apply summary_order_independent. apply perm_swap.
Defined.


(** * The order of equal dates, and the rows without a date *)

(** ** Progress, whatever the order among equal dates *)

Lemma StronglySorted_filter {A} (R : A → A → Prop) (p : A → bool) l :
  StronglySorted R l → StronglySorted R (List.filter p l).
Proof.
  induction 1 as [|x l Hs IH Hall]; simpl; [constructor|].
  destruct (p x); [|done]. constructor; [done|].
  apply Forall_forall. intros y Hy. apply list_elem_of_In in Hy.
  apply filter_In in Hy as [Hy _]. rewrite Forall_forall in Hall.
  by apply Hall, list_elem_of_In.
Qed.

Lemma filter_filter_both {A} (p q pq : A → bool) l :
  (∀ x, pq x = p x && q x) →
  List.filter q (List.filter p l) = List.filter pq l.
Proof.
  intros H. induction l as [|x l IH]; simpl; [done|]. rewrite H.
  destruct (p x); simpl; [|done]. destruct (q x); by rewrite IH.
Qed.

(** Two sorted arrangements of the same rows are the same list when the
    order tells any two of the rows apart. *)
Lemma sorted_perm_eq {A} (R : A → A → Prop) l l' :
  (∀ x y, x ∈ l → y ∈ l → R x y → R y x → x = y) →
  StronglySorted R l → StronglySorted R l' → l ≡ₚ l' → l = l'.
Proof.
  intros Hanti Hs. revert l' Hanti.
  induction Hs as [|x l Hs IH Hall]; intros l' Hanti Hs' Hp.
  - by apply Permutation_nil_l in Hp.
  - destruct Hs' as [|y l' Hs' Hall'].
    { by apply Permutation_nil_r in Hp. }
    rewrite Forall_forall in Hall, Hall'.
    assert (x = y) as <-.
    { assert (Hx : x ∈ y :: l') by (rewrite <- Hp; by left).
      assert (Hy : y ∈ x :: l) by (rewrite Hp; by left).
      apply elem_of_cons in Hx as [?|Hx]; [done|].
      apply elem_of_cons in Hy as [?|Hy]; [done|].
      apply Hanti; [by left|by right|by apply Hall|by apply Hall']. }
    f_equal. apply IH; [|done|by apply Permutation_cons_inv in Hp].
    intros a b Ha Hb. apply Hanti; by right.
Qed.

Lemma exercise_eq_true cell selected :
  exercise_eq cell selected = true ↔ is_Some selected ∧ cell = selected.
Proof.
  destruct cell as [a|], selected as [b|]; simpl.
  - rewrite String.eqb_eq. split; [intros ->; by eauto|by intros [_ [= ->]]].
  - split; [done|]. by intros [[? ?] _].
  - split; [done|]. by intros [_ ?].
  - split; [done|]. by intros [[? ?] _].
Qed.

Section AnySortFacts.
Variable sort : bool → list WorkoutRecord → list WorkoutRecord.
Hypothesis Hsort : sorts_by_date sort.

Lemma plot_df_by_perm df sel :
  plot_df_by sort df sel ≡ₚ
  List.filter (fun r => bool_decide (is_Some sel ∧ w_exercise r = sel ∧
                                     is_Some (w_weight r))) df.
Proof using Hsort.
  unfold plot_df_by, filtered_by, dropna_weight.
  rewrite (filter_perm _ _ _ (proj1 (Hsort true _))).
  rewrite (filter_filter_both _ _
             (fun r => bool_decide (is_Some sel ∧ w_exercise r = sel ∧
                                    is_Some (w_weight r)))); [done|].
  intros r. destruct (exercise_eq (w_exercise r) sel) eqn:E; simpl.
  - apply exercise_eq_true in E as [E1 E2]. apply bool_decide_ext. tauto.
  - apply bool_decide_eq_false. intros (E1 & E2 & _).
    assert (exercise_eq (w_exercise r) sel = true)
      by (by apply exercise_eq_true).
    congruence.
Qed.

Lemma plot_df_by_sorted df sel :
  StronglySorted (fun r1 r2 => earliest_first (w_date r1) (w_date r2))
    (plot_df_by sort df sel).
Proof using Hsort.
  unfold plot_df_by, dropna_weight. apply StronglySorted_filter.
  eapply StronglySorted_weaken; [|apply (proj2 (Hsort true _))].
  intros a b. unfold earliest_first.
  destruct (w_date a), (w_date b); simpl; try done. apply Z.leb_le.
Qed.

Lemma workout_history_page_by_stats df sel s :
  plot_df_by sort df sel ≠ [] → simple_stats (plot_df_by sort df sel) = Ok s →
  workout_history_page_by sort df sel =
  Ok [st_subheader ("Weight Progress for: " +:+ default "None" sel);
      st_line_chart (map (fun r => (w_date r, w_weight r))
                       (plot_df_by sort df sel));
      st_subheader "History Table";
      st_dataframe_workouts (sort false (filtered_by sort df sel));
      st_markdown (stats_markdown s)].
Proof.
  intros Hne Hs. unfold workout_history_page_by.
  assert (Hf : filtered_by sort df sel ≠ []).
  { intros E. apply Hne. unfold plot_df_by. by rewrite E. }
  destruct df as [|r0 df0].
  { exfalso. apply Hne. unfold plot_df_by, filtered_by. simpl.
    destruct (Hsort true []) as [Hp _]. apply Permutation_nil_r in Hp.
    by rewrite Hp. }
  cbn [empty].
  destruct (filtered_by sort (r0 :: df0) sel) as [|f0 fs] eqn:Ef; [done|].
  cbn [empty].
  assert (Hp : plot_df_by sort (r0 :: df0) sel = dropna_weight (f0 :: fs)).
  { unfold plot_df_by. by rewrite Ef. }
  rewrite <- Hp.
  destruct (plot_df_by sort (r0 :: df0) sel) as [|p0 ps] eqn:Ep; [done|].
  cbn [empty negb]. rewrite Hs. done.
Qed.
End AnySortFacts.

(** C3.  Whatever order the library's sort gives to rows of equal date: the
    weight history of the page holds the rows of the table that bear the
    selected label and have a weight, each once, the earliest date first and
    the rows without a date last.  When it is not empty, start is the weight
    of its first entry, current the weight of its last, delta is current
    minus start, and the percent change is delta / start * 100, or 0 when
    start is zero; the page shows these.  A table with the weights 135, 145
    and 155 on three ascending dates, in any order of its rows, is shown as
    135.0, 155.0, +20.0 and +14.8. *)
Theorem progress_first_last_delta sort :
  sorts_by_date sort →
  (∀ df sel,
     let history := plot_df_by sort df sel in
     history ≡ₚ
       List.filter (fun r => bool_decide (is_Some sel ∧ w_exercise r = sel ∧
                                          is_Some (w_weight r))) df ∧
     StronglySorted (fun r1 r2 => earliest_first (w_date r1) (w_date r2))
       history ∧
     (history ≠ [] →
      ∃ first lst a b,
        head history = Some first ∧ last history = Some lst ∧
        w_weight first = Some a ∧ w_weight lst = Some b ∧
        let s := {| start_weight := Some a; current_weight := Some b;
                    change := Some (b - a)%Q;
                    pct_change := Some (if Qeq_bool a 0 then 0
                                        else (b - a) / a * 100)%Q |} in
        simple_stats history = Ok s ∧
        workout_history_page_by sort df sel =
        Ok [st_subheader ("Weight Progress for: " +:+ default "None" sel);
            st_line_chart (map (fun r => (w_date r, w_weight r)) history);
            st_subheader "History Table";
            st_dataframe_workouts (sort false (filtered_by sort df sel));
            st_markdown (stats_markdown s)])) ∧
  (∀ d1 d2 d3 df, d1 < d2 → d2 < d3 →
     df ≡ₚ [bench d1 135; bench d2 145; bench d3 155] →
     ∃ s, simple_stats (plot_df_by sort df (Some "Bench")) = Ok s ∧
          format_1f false (start_weight s) = "135.0" ∧
          format_1f false (current_weight s) = "155.0" ∧
          format_1f true (change s) = "+20.0" ∧
          format_1f true (pct_change s) = "+14.8").
Proof.
  intros Hsort. split.
  - intros df sel history. split; [by apply plot_df_by_perm|].
    split; [by apply plot_df_by_sorted|]. intros Hne.
    destruct (nonempty_head_last _ Hne) as (first & lst & Hh & Hl).
    assert (Hall := dropna_weight_Forall (filtered_by sort df sel)).
    fold (plot_df_by sort df sel) in Hall. fold history in Hall.
    rewrite Forall_forall in Hall.
    destruct (Hall first) as [a Ha]; [by eapply head_Some_elem_of|].
    destruct (Hall lst) as [b Hb]; [by eapply last_Some_elem_of|].
    exists first, lst, a, b. split; [done|]. split; [done|].
    split; [done|]. split; [done|]. intros s.
    assert (Hs : simple_stats history = Ok s)
      by (by apply simple_stats_Some with first lst).
    split; [done|]. by apply workout_history_page_by_stats.
  - intros d1 d2 d3 df H12 H23 Hdf.
    assert (Hh : plot_df_by sort df (Some "Bench")
                 = [bench d1 135; bench d2 145; bench d3 155]).
    { apply (sorted_perm_eq
               (fun r1 r2 => earliest_first (w_date r1) (w_date r2))).
      - intros x y Hx Hy Hxy Hyx.
        assert (Hin : ∀ r, r ∈ plot_df_by sort df (Some "Bench") →
                           r ∈ [bench d1 135; bench d2 145; bench d3 155]).
        { intros r Hr. rewrite (plot_df_by_perm sort Hsort) in Hr.
          apply list_elem_of_In, filter_In in Hr as [Hr _].
          apply list_elem_of_In in Hr. by rewrite Hdf in Hr. }
        apply Hin in Hx, Hy.
        repeat (apply elem_of_cons in Hx as [->|Hx]);
          [| | |by apply elem_of_nil in Hx];
          (repeat (apply elem_of_cons in Hy as [->|Hy]);
           [| | |by apply elem_of_nil in Hy]);
          simpl in Hxy, Hyx; try done; lia.
      - by apply plot_df_by_sorted.
      - repeat constructor; simpl; lia.
      - rewrite (plot_df_by_perm sort Hsort).
        by rewrite (filter_perm _ _ _ Hdf). }
    rewrite Hh. eexists. split.
    + apply simple_stats_Some with (bench d1 135) (bench d3 155); reflexivity.
    + repeat split; reflexivity.
Qed.

Lemma stable_sorts_by_date :
  sorts_by_date (fun ascending => sort_values w_date ascending).
Proof.
  intros ascending df. split; [apply sort_values_perm|].
  apply sort_values_sorted.
Qed.

Lemma progress_first_last_delta_witness :
  ∃ s, simple_stats
         (plot_df_by (fun ascending => sort_values w_date ascending)
            [bench 19737 155; bench 19723 135; bench 19730 145]
            (Some "Bench")) = Ok s ∧
       format_1f false (start_weight s) = "135.0" ∧
       format_1f false (current_weight s) = "155.0" ∧
       format_1f true (change s) = "+20.0" ∧
       format_1f true (pct_change s) = "+14.8".
Proof.
  apply (proj2 (progress_first_last_delta _ stable_sorts_by_date)
           19723 19730 19737); [lia|lia|].
  rewrite (perm_swap (bench 19723 135) (bench 19737 155)).
  apply perm_skip, perm_swap.
Defined.

(** ** The rows without a date *)

(** C2.  Under the element-wise [apply], a table with a row that has no
    date gets no weekly and no monthly table: the period of that row is NaT,
    which has no [start_time], and the page stops on AttributeError before
    any bucket exists. *)
Theorem undated_row_stops_aggregation t r :
  r ∈ t → n_date r = None →
  weekly Elementwise t =
    Raise (AttributeError "'NaTType' object has no attribute 'start_time'") ∧
  monthly Elementwise t =
    Raise (AttributeError "'NaTType' object has no attribute 'start_time'") ∧
  nutrition_summary_page Elementwise t =
    Raise (AttributeError "'NaTType' object has no attribute 'start_time'").
Proof.
  intros Hr Hd.
  assert (Hw : weekly Elementwise t =
    Raise (AttributeError "'NaTType' object has no attribute 'start_time'")).
  { destruct (period_averages_elementwise_undated to_period_W start_time_W
                t r Hr Hd) as [e He].
    unfold weekly. rewrite He. f_equal.
    by apply period_averages_Raise in He as (-> & _). }
  assert (Hm : monthly Elementwise t =
    Raise (AttributeError "'NaTType' object has no attribute 'start_time'")).
  { destruct (period_averages_elementwise_undated to_period_M start_time_M
                t r Hr Hd) as [e He].
    unfold monthly. rewrite He. f_equal.
    by apply period_averages_Raise in He as (-> & _). }
  split; [done|]. split; [done|].
  unfold nutrition_summary_page. destruct t as [|r0 t0].
  { by apply elem_of_nil in Hr. }
  cbn [empty]. by rewrite Hw.
Qed.

Lemma undated_row_stops_aggregation_witness :
  let t := example_nutrition ++ [meal None 1900 145 190 65 25] in
  weekly Elementwise t =
    Raise (AttributeError "'NaTType' object has no attribute 'start_time'") ∧
  monthly Elementwise t =
    Raise (AttributeError "'NaTType' object has no attribute 'start_time'") ∧
  nutrition_summary_page Elementwise t =
    Raise (AttributeError "'NaTType' object has no attribute 'start_time'").
Proof.
  intros t.
  apply (undated_row_stops_aggregation t (meal None 1900 145 190 65 25)).
  - unfold t, example_nutrition. do 3 right. by left.
  - reflexivity.
Defined.

(** C7.  A nutrition file with a date that no parser reads.  The start
    loads it: the date that is read becomes its day at midnight, the other
    the marker, and nothing raises.  The summary page, under the element-wise
    [apply], then stops on AttributeError: the row without a date is not
    left out of the aggregation, it ends it. *)
Theorem unparseable_date_stops_summary :
  let fs : gmap string csv_file :=
    {["nutrition.csv" := nutrition_file_bad_date]} in
  (∃ df, nutrition_df iso_parser fs = Ok df ∧
         getitem df "date" =
         Ok [Stamp {| ts_day := 19723; ts_second := 0 |}; NA] ∧
         map n_date (nutrition_records df) = [Some 19723; None]) ∧
  nutrition_summary iso_parser Elementwise fs =
    Raise (AttributeError "'NaTType' object has no attribute 'start_time'").
Proof.
  intros fs. split.
  - eexists. split; [vm_compute; reflexivity|]. split; reflexivity.
  - vm_compute. reflexivity.
Qed.

(** ** The weekly and monthly tables, when the page returns them *)

Lemma nearest_of_two (x g h : Q) :
  (g <= x)%Q → (x < h)%Q → (h == g + 1)%Q →
  ((x - g == 1 # 2)%Q → (Qabs (x - g) <= 1 # 2)%Q ∧ (Qabs (x - h) <= 1 # 2)%Q) ∧
  ((x - g < 1 # 2)%Q →
   (Qabs (x - g) <= 1 # 2)%Q ∧ ¬ (Qabs (x - g) == 1 # 2)%Q) ∧
  ((1 # 2 < x - g)%Q →
   (Qabs (x - h) <= 1 # 2)%Q ∧ ¬ (Qabs (x - h) == 1 # 2)%Q).
Proof.
  intros Hlo Hhi Hh. split; [|split]; intros E.
  - split; apply Qabs_Qle_condition; split; lra.
  - split; [apply Qabs_Qle_condition; split; lra|].
    rewrite Qabs_pos by lra. lra.
  - split; [apply Qabs_Qle_condition; split; lra|].
    rewrite Qabs_neg by lra. lra.
Qed.

Lemma rint_nearest x :
  (Qabs (x - inject_Z (rint x)) <= 1 # 2)%Q ∧
  ((Qabs (x - inject_Z (rint x)) == 1 # 2)%Q → Z.even (rint x) = true).
Proof.
  assert (Hh : (inject_Z (Qfloor x + 1) == inject_Z (Qfloor x) + 1)%Q)
    by (by rewrite inject_Z_plus).
  destruct (nearest_of_two x (inject_Z (Qfloor x)) (inject_Z (Qfloor x + 1))
              (Qfloor_le x) (Qlt_floor x) Hh)
    as (H1 & H2 & H3).
  unfold rint.
  destruct (Qcompare_spec (x - inject_Z (Qfloor x)) (1 # 2)) as [E|E|E].
  - destruct (H1 E) as [Ha Hb]. destruct (Z.even (Qfloor x)) eqn:Ev.
    + by split.
    + split; [done|]. intros _. by rewrite Z.even_add, Ev.
  - destruct (H2 E) as [Ha Hb]. by split.
  - destruct (H3 E) as [Ha Hb]. by split.
Qed.

Lemma round1_rounded q : rounded_to_1_decimal q (round1 q).
Proof.
  exists (rint (q * 10)). split; [done|].
  destruct (rint_nearest (q * 10)) as [H1 H2].
  assert (E : (q - (rint (q * 10) # 10)
               == (q * 10 - inject_Z (rint (q * 10))) * (1 # 10))%Q).
  { rewrite (Qmake_Qdiv (rint (q * 10)) 10). field. }
  assert (Eabs : (Qabs (q - (rint (q * 10) # 10))
                  == Qabs (q * 10 - inject_Z (rint (q * 10))) * (1 # 10))%Q).
  { rewrite E, Qabs_Qmult. by rewrite (Qabs_pos (1 # 10)). }
  unfold round1. split.
  - rewrite Eabs. lra.
  - intros H. apply H2. rewrite Eabs in H. lra.
Qed.

Lemma starts_week_of_week_start k d :
  starts_week_of k d = true ↔ week_start d = k.
Proof.
  unfold starts_week_of, week_start, start_time_W, to_period_W.
  rewrite !andb_true_iff, Z.eqb_eq, Z.leb_le, Z.ltb_lt.
  split; [intros [[H1 H2] H3]|intros <-]; Z.div_mod_to_equations; lia.
Qed.

Lemma starts_month_of_month_start k d :
  starts_month_of k d = true ↔ month_start d = k.
Proof.
  unfold starts_month_of.
  destruct (civil_from_days d) as [[y m] dd] eqn:Ed.
  rewrite (month_start_eq _ _ _ _ Ed). split.
  - destruct (civil_from_days k) as [[y' m'] d'] eqn:Ek.
    rewrite !andb_true_iff, !Z.eqb_eq. intros [[-> ->] ->].
    rewrite (days_from_civil_from_days _ _ _ _ Ek). lia.
  - intros <-. rewrite (days_from_civil_from_days _ _ _ _ Ed).
    rewrite (civil_from_days_first _ _ _ _ Ed). by rewrite !Z.eqb_refl.
Qed.

Lemma period_rows_bucket_rows starts period_of k t :
  (∀ k d, starts k d = true ↔ period_of d = k) →
  period_rows starts k t = bucket_rows period_of k t.
Proof.
  intros H. unfold period_rows, bucket_rows, period_key.
  apply filter_ext. intros r. destruct (n_date r) as [d|]; simpl.
  - destruct (starts k d) eqn:E.
    + symmetry. apply bool_decide_eq_true. f_equal. by apply H.
    + symmetry. apply bool_decide_eq_false. intros [= E'].
      apply H in E'. congruence.
  - done.
Qed.

Lemma period_table_averages_table starts period_of t out :
  (∀ k d, starts k d = true ↔ period_of d = k) →
  period_table period_of t out → averages_table starts t out.
Proof.
  intros Hs (Hk & Hv & Hsorted). split; [done|]. split; [|split].
  - intros r d Hr Hd. specialize (Hk r d Hr Hd).
    change (period_of d ∈ period_start <$> out) in Hk.
    apply list_elem_of_fmap in Hk as (b & Hb & Hin).
    exists b. split; [done|]. by apply Hs.
  - intros b Hb. destruct (Hv b Hb) as [Hne _].
    destruct (bucket_rows period_of (period_start b) t) as [|r rows] eqn:E;
      [done|].
    assert (Hr : r ∈ bucket_rows period_of (period_start b) t)
      by (rewrite E; by left).
    apply bucket_rows_elem in Hr as [Hr Hkey]. unfold period_key in Hkey.
    destruct (n_date r) as [d|] eqn:Hd; [|done]. injection Hkey as Hkey.
    exists r, d. split; [done|]. split; [done|]. by apply Hs.
  - intros b m Hb Hm. destruct (Hv b Hb) as [_ E].
    assert (Hval : m.2 b = round_1 (mean (map m.1
                     (bucket_rows period_of (period_start b) t)))).
    { rewrite <- (averages_of_metric (period_start b) _ _ Hm).
      by rewrite <- E. }
    rewrite (period_rows_bucket_rows starts period_of _ _ Hs).
    rewrite Hval. unfold mean. rewrite omap_id_map.
    destruct (omap m.1 (bucket_rows period_of (period_start b) t))
      as [|x xs]; [done|].
    eexists. split; [done|]. apply round1_rounded.
Qed.


